(** * HorizonPay rate service: pricing, aggregation and session model

    A shallow embedding of the server code of the repository
    ([src/script.js], the session-enabled server, and [src/unnamed/part_002],
    the earlier server without sessions) together with the properties its
    specification states about it.

    Numbers.  A JavaScript number is modelled by [num]: [NaN], the two
    infinities, or a finite value carried as an exact rational.  Every
    rule of the arithmetic and comparison operators on special values is
    written out; the rounding and the overflow of binary64 and the sign of
    zero are not.  A comparison of numbers the code holds is the same in
    both readings; a property of a sum, a product or a quotient is stated
    here of their exact values, and says so.  Module [B64] evaluates the
    fee calculator and the weighted average in binary64 itself, and the
    examples on it show where the code's results leave the exact ones.

    Built-ins and collaborators.  [parseFloat] and [parseInt] are built-ins
    of the language, not code of the repository: the functions that call
    them take them as parameters, and [Builtins] gives reference
    implementations that the examples run.  The HTTP client, the Firebase
    store, the clock, the cipher and [Math.random] are collaborators whose
    answers are inputs of the model. *)

From Stdlib Require Import Floats.PrimFloat Floats.SpecFloat Floats.FloatOps.
From Stdlib Require Import QArith Qround Qabs Lqa ZArith Lia String Ascii List Bool Sorted.
From stdpp Require Import gmap strings list fin_maps pretty.

Set Warnings "-register-all".
Open Scope Z_scope.
Open Scope string_scope.

(** ** JavaScript numbers *)

Module JS.

Inductive num : Type :=
| NaN
| PInf
| NInf
| Fin (q : Q).

Definition Qltb (a b : Q) : bool := negb (Qle_bool b a).

Definition isNaN (x : num) : bool :=
  match x with NaN => true | _ => false end.

Definition isFinite (x : num) : bool :=
  match x with Fin _ => true | _ => false end.

Definition neg (x : num) : num :=
  match x with
  | NaN => NaN
  | PInf => NInf
  | NInf => PInf
  | Fin q => Fin (- q)%Q
  end.

Definition add (x y : num) : num :=
  match x, y with
  | NaN, _ | _, NaN => NaN
  | PInf, NInf | NInf, PInf => NaN
  | PInf, _ | _, PInf => PInf
  | NInf, _ | _, NInf => NInf
  | Fin a, Fin b => Fin (a + b)%Q
  end.

Definition sub (x y : num) : num := add x (neg y).

(** The infinity of the sign of [q]; [NaN] when [q] is zero. *)
Definition inf_of_sign (positive : bool) (q : Q) : num :=
  if Qeq_bool q 0 then NaN
  else if xorb positive (Qltb 0 q) then NInf else PInf.

Definition mul (x y : num) : num :=
  match x, y with
  | NaN, _ | _, NaN => NaN
  | PInf, PInf | NInf, NInf => PInf
  | PInf, NInf | NInf, PInf => NInf
  | PInf, Fin q | Fin q, PInf => inf_of_sign true q
  | NInf, Fin q | Fin q, NInf => inf_of_sign false q
  | Fin a, Fin b => Fin (a * b)%Q
  end.

(** Division.  A zero divisor is taken as [+0]: a non-zero finite dividend
    gives the infinity of its own sign and [0 / 0] is [NaN]. *)
Definition div (x y : num) : num :=
  match x, y with
  | NaN, _ | _, NaN => NaN
  | (PInf | NInf), (PInf | NInf) => NaN
  | Fin _, (PInf | NInf) => Fin 0
  | PInf, Fin b => if Qltb b 0 then NInf else PInf
  | NInf, Fin b => if Qltb b 0 then PInf else NInf
  | Fin a, Fin b =>
      if Qeq_bool b 0 then inf_of_sign true a else Fin (a / b)%Q
  end.

(** Comparisons: every comparison with [NaN] is false. *)
Definition le (x y : num) : bool :=
  match x, y with
  | NaN, _ | _, NaN => false
  | NInf, _ | _, PInf => true
  | PInf, _ | _, NInf => false
  | Fin a, Fin b => Qle_bool a b
  end.

Definition lt (x y : num) : bool :=
  match x, y with
  | NaN, _ | _, NaN => false
  | PInf, _ | _, NInf => false
  | NInf, _ | _, PInf => true
  | Fin a, Fin b => Qltb a b
  end.

Definition ge (x y : num) : bool := le y x.
Definition gt (x y : num) : bool := lt y x.

(** [x === y] on numbers. *)
Definition eqb (x y : num) : bool :=
  match x, y with
  | PInf, PInf | NInf, NInf => true
  | Fin a, Fin b => Qeq_bool a b
  | _, _ => false
  end.

(** [Math.round]: the nearest integer, a tie going up. *)
Definition round (x : num) : num :=
  match x with
  | Fin q => Fin (inject_Z (Qfloor (q + (1 # 2))))
  | other => other
  end.

(** Truthiness of a number: neither [NaN] nor zero. *)
Definition truthy_num (x : num) : bool :=
  match x with
  | NaN => false
  | Fin q => negb (Qeq_bool q 0)
  | _ => true
  end.

(** [x || d] on numbers. *)
Definition or_num (x d : num) : num := if truthy_num x then x else d.

(** Decoded JSON, with [undefined] for what a lookup may yield. *)
Inductive value : Type :=
| VUndef
| VNull
| VBool (b : bool)
| VNum (n : num)
| VStr (s : string)
| VArr (items : list value)
| VObj (fields : list (string * value)).

Definition truthy (v : value) : bool :=
  match v with
  | VUndef | VNull => false
  | VBool b => b
  | VNum n => truthy_num n
  | VStr s => negb (String.eqb s "")
  | VArr _ | VObj _ => true
  end.

(** [a || b] on values. *)
Definition or_value (a b : value) : value := if truthy a then a else b.

Fixpoint assoc (k : string) (fields : list (string * value)) : value :=
  match fields with
  | [] => VUndef
  | (k', v) :: rest => if String.eqb k k' then v else assoc k rest
  end.

(** [v.k] for the property names this program reads (none of them is a
    property of a string, number, boolean or array): [None] is the
    TypeError raised on [undefined] and [null]. *)
Definition get (v : value) (k : string) : option value :=
  match v with
  | VUndef | VNull => None
  | VObj fields => Some (assoc k fields)
  | _ => Some VUndef
  end.

Definition isArray (v : value) : bool :=
  match v with VArr _ => true | _ => false end.

(** Whether the conversion of a decoded value to a string completes.  A
    decoded object with a [toString] entry of its own has no callable
    [toString] (no decoded value is a function) and its inherited
    [valueOf] returns the object itself, so the conversion raises a
    TypeError; an array joins the conversions of its elements, [null] and
    [undefined] printing as nothing. *)
Fixpoint convertible (v : value) : bool :=
  match v with
  | VArr items => forallb convertible items
  | VObj fields => negb (existsb (fun entry => String.eqb (fst entry) "toString") fields)
  | _ => true
  end.

End JS.

Import JS.

Declare Scope num_scope.
Delimit Scope num_scope with num.
Bind Scope num_scope with num.
Infix "+" := JS.add : num_scope.
Infix "-" := JS.sub : num_scope.
Infix "*" := JS.mul : num_scope.
Infix "/" := JS.div : num_scope.
Infix "<=?" := JS.le : num_scope.
Infix "<?" := JS.lt : num_scope.
Infix ">=?" := JS.ge : num_scope.
Infix ">?" := JS.gt : num_scope.

(** A finite number from a decimal literal of the source. *)
Definition dec (numerator : Z) (denominator : positive) : num :=
  Fin (numerator # denominator).

Definition int (z : Z) : num := Fin (inject_Z z).

(** ** Errors *)

Inductive ErrorName : Type :=
| PlainError
| TypeError
| APIError
| ValidationError
| ExternalAPIError.

(** A message is a fixed text, or a template with one interpolated number
    (a status code, or an amount printed by [toLocaleString]). *)
Inductive Message : Type :=
| Text (s : string)
| Template (prefix : string) (arg : num)
| Wrapped (prefix : string) (inner : Message).

(** One entry of the aggregator's [errors] list. *)
Record SourceError : Type := mkSourceError {
  source : string;
  error : Message
}.

Inductive Details : Type :=
| NoDetails
| DMinAmount (minAmount : num)
| DMaxAmount (maxAmount : num)
| DCurrency (provided : value) (supported : list string)
| DUpstream (errors : list SourceError) (recommendation : string)
| DMargin (profitMargin minRequired : num) (recommendation : string)
| DFieldErrors (errors : list string)
| DOther (fields : list (string * value)).

Record JsError : Type := mkError {
  name : ErrorName;
  message : Message;
  statusCode : option Z;
  details : Details
}.

Definition newError (msg : Message) : JsError :=
  mkError PlainError msg None NoDetails.
Definition newAPIError (msg : Message) (code : Z) (d : Details) : JsError :=
  mkError APIError msg (Some code) d.
Definition newValidationError (msg : Message) (d : Details) : JsError :=
  mkError ValidationError msg (Some 400) d.
Definition newExternalAPIError (msg : Message) (d : Details) : JsError :=
  mkError ExternalAPIError msg (Some 503) d.

(** [err instanceof APIError]: the class and its two subclasses. *)
Definition instanceofAPIError (e : JsError) : bool :=
  match name e with
  | APIError | ValidationError | ExternalAPIError => true
  | _ => false
  end.

(** What a call does: it returns, or it throws. *)
Inductive outcome (A : Type) : Type :=
| Return (a : A)
| Throw (e : JsError).
Arguments Return {A} a.
Arguments Throw {A} e.

Definition bind {A B : Type} (x : outcome A) (f : A -> outcome B) : outcome B :=
  match x with
  | Return a => f a
  | Throw e => Throw e
  end.

Notation "'let!' x ':=' c 'in' k" := (bind c (fun x => k))
  (at level 10, x name, c at level 100, k at level 200).

(** ** Configuration *)

Module Conf.

Record Tier : Type := mkTier {
  max : num;
  percent : num
}.

Record Filter : Type := mkFilter {
  minTrades : num;
  minCompletion : num;
  minQty : num;
  minPrice : num;
  maxPrice : num
}.

Record Filters : Type := mkFilters {
  strict : Filter;
  relaxed : Filter
}.

Record Pricing : Type := mkPricing {
  minProfitMargin : num;
  ngnMarkup : num;
  localRateMin : num;
  localRateMax : num;
  discountRangeMin : num;
  discountRangeMax : num;
  targetProfitMargin : num
}.

Record Limits : Type := mkLimits {
  minTransaction : num;
  maxTransaction : num;
  dailyLimit : num
}.

Record Config : Type := mkConfig {
  maxRetries : nat;
  ttl : Z;
  pricing : Pricing;
  tiers : list Tier;
  filters : Filters;
  adminApiKey : string;
  encryptionKey : string;
  sessionTTL : Z;
  fallbackNgnRate : num;
  limits : Limits
}.

End Conf.

(** The fee table and the filters, written the same in both servers. *)
Definition feeTiers : list Conf.Tier :=
  [ Conf.mkTier (int 10000) (dec 25 10);
    Conf.mkTier (int 50000) (dec 20 10);
    Conf.mkTier (int 100000) (dec 15 10);
    Conf.mkTier (int 500000) (dec 10 10);
    Conf.mkTier PInf (dec 75 100) ].

Definition qualityFilters : Conf.Filters :=
  {| Conf.strict := Conf.mkFilter (int 300) (int 90) (int 500) (int 70) (int 120);
     Conf.relaxed := Conf.mkFilter (int 100) (int 85) (int 100) (int 70) (int 120) |}.

(** [config] of src/script.js, each environment variable at its default. *)
Definition config : Conf.Config :=
  {| Conf.maxRetries := 5;
     Conf.ttl := 1800;
     Conf.pricing :=
       {| Conf.minProfitMargin := dec 8 10;
          Conf.ngnMarkup := int 20;
          Conf.localRateMin := dec 162 10;
          Conf.localRateMax := dec 165 10;
          Conf.discountRangeMin := dec 1585 100;
          Conf.discountRangeMax := dec 1598 100;
          Conf.targetProfitMargin := dec 25 10 |};
     Conf.tiers := feeTiers;
     Conf.filters := qualityFilters;
     Conf.adminApiKey := "change-this-key";
     Conf.encryptionKey := "change-this-encryption-key";
     Conf.sessionTTL := 5 * 60 * 1000;
     Conf.fallbackNgnRate := int 1650;
     Conf.limits := Conf.mkLimits (int 1000) (int 5000000) (int 10000000) |}.

(** ** Upstream fetchers, order-book analyser, fee calculator

    The text of these functions is the same in both servers. *)

(** What one HTTPS request comes to: a socket error, the timeout, or a
    response whose body decodes and parses ([Some]) or does not ([None]). *)
Inductive HttpEvent : Type :=
| NetworkError (reason : string)
| RequestTimeout (timeout : Z)
| Response (status : Z) (body : option value).

Definition httpRequest (ev : HttpEvent) : outcome value :=
  match ev with
  | NetworkError reason =>
      Throw (newExternalAPIError (Text "Network request failed")
               (DOther [("error", VStr reason)]))
  | RequestTimeout timeout =>
      Throw (newExternalAPIError (Text "Request timeout")
               (DOther [("timeout", VNum (int timeout))]))
  | Response status None =>
      Throw (newExternalAPIError (Text "Failed to parse response")
               (DOther [("statusCode", VNum (int status))]))
  | Response status (Some data) =>
      if (200 <=? status)%Z && (status <? 300)%Z then Return data
      else Throw (newExternalAPIError (Template "HTTP " (int status))
                    (DOther [("statusCode", VNum (int status)); ("body", data)]))
  end.

(** [retryableRequest]: attempt [i] is [requestFn i]; with [retries = 0]
    the loop body never runs and the function returns [undefined]. *)
Fixpoint retryLoop (requestFn : nat -> outcome value) (i remaining : nat)
  : outcome value :=
  match remaining with
  | O => Return VUndef
  | S rest =>
      match requestFn i with
      | Return data => Return data
      | Throw e =>
          match rest with
          | O => Throw e
          | S _ => retryLoop requestFn (S i) rest
          end
      end
  end.

Definition retryableRequest (requestFn : nat -> outcome value) (retries : nat)
  : outcome value :=
  retryLoop requestFn 0 retries.

Record GeckoRates : Type := mkGeckoRates {
  inr : option num;
  ngn : option num
}.

Record Ad : Type := mkAd {
  price : num;
  qty : num;
  trades : num;
  completion : num;
  nickname : value;
  userNo : value
}.

(** [topAds] keeps the numbers of the ranked ads; the display strings
    built from them ([toFixed], the profile link) are not modelled. *)
Record P2PStats : Type := mkP2PStats {
  totalAds : nat;
  goodAds : nat;
  lowestRate : num;
  simpleAvg : num;
  weightedAvg : num;
  topAds : list Ad
}.

Record Fees : Type := mkFees {
  feePercent : num;
  feeAmount : num;
  netAmount : num
}.

Definition passes (f : Conf.Filter) (a : Ad) : bool :=
  (trades a >=? Conf.minTrades f)%num &&
  (completion a >=? Conf.minCompletion f)%num &&
  (qty a >=? Conf.minQty f)%num &&
  (price a >=? Conf.minPrice f)%num &&
  (price a <=? Conf.maxPrice f)%num.

(** [Array.prototype.sort] with the comparator [(a, b) => a.price - b.price]:
    a stable sort, in which [b] goes before an earlier [a] only when the
    comparator is positive. *)
Definition comparator (a b : Ad) : num := (price a - price b)%num.

Fixpoint insertByPrice (a : Ad) (sorted : list Ad) : list Ad :=
  match sorted with
  | [] => [a]
  | b :: rest =>
      if (comparator a b >? int 0)%num then b :: insertByPrice a rest
      else a :: b :: rest
  end.

Definition sortByPrice (ads : list Ad) : list Ad := foldr insertByPrice [] ads.

(** [reduce((sum, a) => sum + f(a), 0)]. *)
Definition sumOver (f : Ad -> num) (ads : list Ad) : num :=
  fold_left (fun sum a => (sum + f a)%num) ads (int 0).

(** The statistics of the ranked ads; [top5[0].price] raises on an empty
    array.  The averages are the exact values of their formulas;
    [B64.weightedAvg] is the weighted one as binary64 computes it. *)
Definition statistics (total good : nat) (top5 : list Ad) : outcome P2PStats :=
  match top5 with
  | [] =>
      Throw (mkError TypeError
               (Text "Cannot read properties of undefined (reading 'price')")
               None NoDetails)
  | best :: _ =>
      let simpleAvg := (sumOver price top5 / int (Z.of_nat (length top5)))%num in
      let totalWeight := sumOver qty top5 in
      let weightedAvg := sumOver (fun a => price a * qty a / totalWeight)%num top5 in
      Return (mkP2PStats total good (price best) simpleAvg weightedAvg top5)
  end.

Fixpoint firstTier (amount : num) (tiers : list Conf.Tier) : option Conf.Tier :=
  match tiers with
  | [] => None
  | tier :: rest =>
      if (amount <=? Conf.max tier)%num then Some tier else firstTier amount rest
  end.

Definition feesAt (amount : num) (tier : Conf.Tier) : Fees :=
  let feeAmount := (amount * Conf.percent tier / int 100)%num in
  mkFees (Conf.percent tier) feeAmount (amount - feeAmount)%num.

(** The loop over the tiers, then the fall-through to the last tier; with
    an empty table the source reads a property of [undefined] and raises.
    The fee and the net amount are the exact values of their formulas;
    [B64.calculateFees] is the function as binary64 computes it. *)
Definition calculateFees (tiers : list Conf.Tier) (amount : num) : outcome Fees :=
  match firstTier amount tiers with
  | Some tier => Return (feesAt amount tier)
  | None =>
      match last tiers with
      | Some lastTier => Return (feesAt amount lastTier)
      | None =>
          Throw (mkError TypeError
                   (Text "Cannot read properties of undefined (reading 'percent')")
                   None NoDetails)
      end
  end.

Section Upstream.

Variable parseFloat : value -> num.
Variable parseInt : value -> num.

Definition field (v : value) (k : string) : value := default VUndef (get v k).

(** A call [parseFloat(v)] or [parseInt(v)]: the built-in first converts
    its argument to a string, and raises when that conversion does;
    [read] is the built-in on the arguments it converts. *)
Definition notConvertible : JsError :=
  mkError TypeError (Text "Cannot convert object to primitive value") None NoDetails.

Definition parsed (read : value -> num) (v : value) : outcome num :=
  if convertible v then Return (read v) else Throw notConvertible.

(** The [catch] of the two fetchers logs and rethrows, so a TypeError of
    [parseFloat] leaves the fetcher as it is. *)
Definition fetchBinanceSpot (ev : HttpEvent) : outcome num :=
  let! data := httpRequest ev in
  if negb (truthy data) || negb (truthy (field data "price")) then
    Throw (newExternalAPIError (Text "Invalid Binance Spot response") NoDetails)
  else
    let! price := parsed parseFloat (field data "price") in
    if isNaN price || (price <=? int 0)%num then
      Throw (newExternalAPIError (Text "Invalid price in Binance Spot response") NoDetails)
    else Return price.

(** One currency of the reference index: absent or falsy gives [null]. *)
Definition geckoRate (quote : value) : outcome (option num) :=
  if truthy quote then
    let! price := parsed parseFloat quote in
    Return (if negb (isNaN price) && (price >? int 0)%num then Some price else None)
  else Return None.

Definition fetchCoinGecko (ev : HttpEvent) : outcome GeckoRates :=
  let! data := httpRequest ev in
  if negb (truthy data) || negb (truthy (field data "tether")) then
    Throw (newExternalAPIError (Text "Invalid CoinGecko response") NoDetails)
  else
    let tether := field data "tether" in
    let! inr := geckoRate (field tether "inr") in
    let! ngn := geckoRate (field tether "ngn") in
    Return (mkGeckoRates inr ngn).

Definition nonEmptyArray (v : value) : bool :=
  match v with VArr (_ :: _) => true | _ => false end.

Definition fetchBinanceP2P (retries : nat) (events : nat -> HttpEvent) : outcome value :=
  let! data := retryableRequest (fun i => httpRequest (events i)) retries in
  if negb (truthy data) || negb (nonEmptyArray (field data "data")) then
    Throw (newExternalAPIError (Text "No P2P data available") NoDetails)
  else Return data.

(** What the [catch] inside the loop makes of a call that may raise: the
    entry is skipped. *)
Definition caught {A : Type} (x : outcome A) : option A :=
  match x with Return a => Some a | Throw _ => None end.

(** One iteration of the parsing loop: [None] is an entry skipped by
    [continue], also when reading [item.adv] raises on a [null] entry, or
    a parsing call raises, and the [catch] swallows it. *)
Definition parseItem (item : value) : option Ad :=
  match get item "adv", get item "advertiser" with
  | Some adv, Some seller =>
      if negb (truthy adv) || negb (truthy seller) then None
      else
        price ← caught (parsed parseFloat (field adv "price"));
        if isNaN price || (price <=? int 0)%num then None
        else
          qty ← caught (parsed parseFloat
                         (or_value (field adv "surplusAmount")
                            (or_value (field adv "tradableQuantity") (VNum (int 0)))));
          if isNaN qty then None
          else
            trades ← caught (parsed parseInt (field seller "monthOrderCount"));
            completion ← caught (parsed parseFloat (field seller "monthFinishRate"));
            let trades := or_num trades (int 0) in
            let completion := or_num completion (int 0) in
            let completion :=
              if (completion >? int 0)%num && (completion <=? int 1)%num
              then (completion * int 100)%num else completion in
            Some (mkAd price qty trades completion
                    (or_value (field seller "nickName") (VStr "Unknown"))
                    (or_value (field seller "userNo") VNull))
  | _, _ => None
  end.

Definition parseAds (items : list value) : list Ad := omap parseItem items.

Definition analyzeP2P (filters : Conf.Filters) (data : value) : outcome P2PStats :=
  if negb (truthy data) || negb (nonEmptyArray (field data "data")) then
    Throw (newExternalAPIError (Text "Invalid P2P data for analysis") NoDetails)
  else
    let items := match field data "data" with VArr items => items | _ => [] end in
    let ads := parseAds items in
    if Nat.eqb (length ads) 0 then
      Throw (newExternalAPIError (Text "No valid P2P ads found") NoDetails)
    else
      let strict := List.filter (passes (Conf.strict filters)) ads in
      if Nat.eqb (length strict) 0 then
        let relaxed := List.filter (passes (Conf.relaxed filters)) ads in
        if Nat.eqb (length relaxed) 0 then
          Throw (newExternalAPIError (Text "No P2P ads meet quality criteria") NoDetails)
        else
          statistics (length ads) (length relaxed) (take 5 (sortByPrice relaxed))
      else
        statistics (length ads) (length strict) (take 5 (sortByPrice strict)).

End Upstream.

(** ** Process state

    The two global objects the servers mutate ([metrics] and the NodeCache
    instance) and the Firebase tree of the session-enabled server.  The
    per-API latency metrics of [httpRequest] are left out. *)

Record Metrics : Type := mkMetrics {
  requests_total : Z;
  requests_success : Z;
  requests_errors : Z;
  cache_hits : Z;
  cache_misses : Z;
  transactions_total : Z;
  transactions_pending : Z;
  transactions_completed : Z;
  transactions_failed : Z;
  fallbacks_coinGeckoUsed : Z;
  fallbacks_totalFallbacks : Z
}.

Definition metrics0 : Metrics := mkMetrics 0 0 0 0 0 0 0 0 0 0 0.

Record Rates : Type := mkRates {
  binanceSpot : option num;
  coinGeckoInr : option num;
  coinGeckoNgn : option num;
  ngnRateWithMarkup : num;
  p2pLowest : num;
  usedFallback : bool
}.

(** [errors] is [undefined] ([None]) when no source failed. *)
Record MarketData : Type := mkMarketData {
  timestamp : Z;
  rates : Rates;
  p2p : P2PStats;
  errors : option (list SourceError)
}.

(** The three upstream answers of one aggregation run. *)
Record Feeds : Type := mkFeeds {
  spotFeed : HttpEvent;
  geckoFeed : HttpEvent;
  p2pFeed : nat -> HttpEvent
}.

(** A stored session is the set of its children, by key. *)
Abbreviation Session := (gmap string value).

Record State : Type := mkState {
  cache : gmap string (MarketData * Z);
  metrics : Metrics;
  transactions : gmap string Session;
  daily_totals : gmap (string * string) num
}.

Definition withMetrics (m : Metrics) (st : State) : State :=
  mkState (cache st) m (transactions st) (daily_totals st).

Definition withCache (c : gmap string (MarketData * Z)) (st : State) : State :=
  mkState c (metrics st) (transactions st) (daily_totals st).

Definition withTransactions (t : gmap string Session) (st : State) : State :=
  mkState (cache st) (metrics st) t (daily_totals st).

Definition withDailyTotals (d : gmap (string * string) num) (st : State) : State :=
  mkState (cache st) (metrics st) (transactions st) d.

(** [cache.get(key)]: an entry past its expiry time reads as [undefined]. *)
Definition cacheGet (now : Z) (key : string) (st : State) : option MarketData :=
  match cache st !! key with
  | Some (data, expires) => if (now <=? expires)%Z then Some data else None
  | None => None
  end.

(** [cache.set(key, data)] with the standard TTL, in seconds. *)
Definition cacheSet (now ttl : Z) (key : string) (data : MarketData) (st : State) : State :=
  withCache (<[key := (data, now + ttl * 1000)]> (cache st)) st.

Definition hit (m : Metrics) : Metrics :=
  mkMetrics (requests_total m) (requests_success m) (requests_errors m)
    (cache_hits m + 1) (cache_misses m)
    (transactions_total m) (transactions_pending m) (transactions_completed m)
    (transactions_failed m) (fallbacks_coinGeckoUsed m) (fallbacks_totalFallbacks m).

Definition miss (m : Metrics) : Metrics :=
  mkMetrics (requests_total m) (requests_success m) (requests_errors m)
    (cache_hits m) (cache_misses m + 1)
    (transactions_total m) (transactions_pending m) (transactions_completed m)
    (transactions_failed m) (fallbacks_coinGeckoUsed m) (fallbacks_totalFallbacks m).

Definition requestSucceeded (m : Metrics) : Metrics :=
  mkMetrics (requests_total m + 1) (requests_success m + 1) (requests_errors m)
    (cache_hits m) (cache_misses m)
    (transactions_total m) (transactions_pending m) (transactions_completed m)
    (transactions_failed m) (fallbacks_coinGeckoUsed m) (fallbacks_totalFallbacks m).

Definition requestFailed (m : Metrics) : Metrics :=
  mkMetrics (requests_total m + 1) (requests_success m) (requests_errors m + 1)
    (cache_hits m) (cache_misses m)
    (transactions_total m) (transactions_pending m) (transactions_completed m)
    (transactions_failed m) (fallbacks_coinGeckoUsed m) (fallbacks_totalFallbacks m).

Definition sessionOpened (m : Metrics) : Metrics :=
  mkMetrics (requests_total m) (requests_success m) (requests_errors m)
    (cache_hits m) (cache_misses m)
    (transactions_total m + 1) (transactions_pending m + 1) (transactions_completed m)
    (transactions_failed m) (fallbacks_coinGeckoUsed m) (fallbacks_totalFallbacks m).

Definition sessionCompleted (m : Metrics) : Metrics :=
  mkMetrics (requests_total m) (requests_success m) (requests_errors m)
    (cache_hits m) (cache_misses m)
    (transactions_total m) (transactions_pending m - 1) (transactions_completed m + 1)
    (transactions_failed m) (fallbacks_coinGeckoUsed m) (fallbacks_totalFallbacks m).

Definition sessionFailed (m : Metrics) : Metrics :=
  mkMetrics (requests_total m) (requests_success m) (requests_errors m)
    (cache_hits m) (cache_misses m)
    (transactions_total m) (transactions_pending m - 1) (transactions_completed m)
    (transactions_failed m + 1) (fallbacks_coinGeckoUsed m) (fallbacks_totalFallbacks m).

Definition fallbackUsed (m : Metrics) : Metrics :=
  mkMetrics (requests_total m) (requests_success m) (requests_errors m)
    (cache_hits m) (cache_misses m)
    (transactions_total m) (transactions_pending m) (transactions_completed m)
    (transactions_failed m) (fallbacks_coinGeckoUsed m + 1) (fallbacks_totalFallbacks m + 1).

(** What [Promise.allSettled] hands back for one source: the value, or an
    entry pushed on [errors]. *)
Definition settle {A : Type} (sourceName : string) (r : outcome A)
    (errors : list SourceError) : option A * list SourceError :=
  match r with
  | Return a => (Some a, errors)
  | Throw e => (None, (errors ++ [mkSourceError sourceName (message e)])%list)
  end.

Definition someIfAny (errors : list SourceError) : option (list SourceError) :=
  match errors with
  | [] => None
  | _ => Some errors
  end.

(** [coinGecko?.ngn] and [coinGecko?.inr]. *)
Definition geckoNgn (coinGecko : option GeckoRates) : option num :=
  match coinGecko with Some g => ngn g | None => None end.

Definition geckoInr (coinGecko : option GeckoRates) : option num :=
  match coinGecko with Some g => inr g | None => None end.

(** Truthiness of a rate that is a number, [null] or [undefined]. *)
Definition truthy_rate (r : option num) : bool :=
  match r with Some n => truthy_num n | None => false end.

(** [Math.round(x * 100) / 100]. *)
Definition round2 (x : num) : num := (JS.round (x * int 100) / int 100)%num.

(** [((rate - cost) / rate) * 100]. *)
Definition marginPct (rate cost : num) : num := ((rate - cost) / rate * int 100)%num.

(** ** The session-enabled server: src/script.js *)

Record PricingResult : Type := mkPricingResult {
  baseCost : num;
  targetRate : num;
  localRateMin : num;
  localRateMax : num;
  profitMargin : num;
  savingsVsMin : num;
  savingsVsMax : num;
  savingsPercent : num;
  usedCoinGeckoFallback : bool;
  rateSource : string;
  warning : option string
}.

Definition isStr (expected : string) (v : value) : bool :=
  match v with VStr s => String.eqb s expected | _ => false end.

Section Pricing.

Variable cfg : Conf.Config.

(** The pricing engine.  [random1] and [random2] are the two successive
    results of [Math.random()]; the second is drawn on the reference rung
    only. *)
Definition calculateCompetitiveRate (lowestInrRate ngnRate : num)
    (coinGeckoInr : option num) (random1 random2 : Q) (m : Metrics)
  : PricingResult * Metrics :=
  let pricing := Conf.pricing cfg in
  let minProfitMargin := Conf.minProfitMargin pricing in
  let localMin := Conf.localRateMin pricing in
  let localMax := Conf.localRateMax pricing in
  let baseCostPerInr := (ngnRate / lowestInrRate)%num in
  let randomRate :=
    (Conf.discountRangeMin pricing +
     Fin random1 * (Conf.discountRangeMax pricing - Conf.discountRangeMin pricing))%num in
  let finalRate := round2 randomRate in
  let profitMargin := marginPct finalRate baseCostPerInr in
  let forcedMinimum :=
    let finalRate :=
      round2 (baseCostPerInr * (int 1 + minProfitMargin / int 100 + dec 1 100))%num in
    let forcedMargin := marginPct finalRate baseCostPerInr in
    (mkPricingResult baseCostPerInr finalRate localMin localMax forcedMargin
       (localMin - finalRate)%num (localMax - finalRate)%num
       ((localMin - finalRate) / localMin * int 100)%num
       false "P2P (Forced Minimum)"
       (Some "Rate adjusted to maintain minimum profit margin"), m) in
  if (profitMargin <? minProfitMargin)%num then
    match coinGeckoInr with
    | Some reference =>
        if truthy_num reference && (reference >? int 0)%num then
          let coinGeckoBaseCost := (ngnRate / reference)%num in
          let targetMultiplier :=
            (int 1 + Conf.targetProfitMargin pricing / int 100)%num in
          let finalRate := (coinGeckoBaseCost * targetMultiplier)%num in
          let microAdjustment := (Fin random2 * dec 1 10 - dec 5 100)%num in
          let finalRate := (finalRate + microAdjustment)%num in
          let finalRate := round2 finalRate in
          let newProfitMargin := marginPct finalRate coinGeckoBaseCost in
          let finalRate :=
            if (newProfitMargin <? minProfitMargin)%num then
              round2 (coinGeckoBaseCost *
                      (int 1 + minProfitMargin / int 100 + dec 5 1000))%num
            else finalRate in
          (mkPricingResult coinGeckoBaseCost finalRate localMin localMax
             (marginPct finalRate coinGeckoBaseCost)
             (localMin - finalRate)%num (localMax - finalRate)%num
             ((localMin - finalRate) / localMin * int 100)%num
             true "CoinGecko (Fallback)" None, fallbackUsed m)
        else forcedMinimum
    | None => forcedMinimum
    end
  else
    let savingsVsMin := (localMin - finalRate)%num in
    let savingsVsMax := (localMax - finalRate)%num in
    let savingsPercent :=
      if (savingsVsMin >? int 0)%num then (savingsVsMin / localMin * int 100)%num
      else int 0 in
    (mkPricingResult baseCostPerInr finalRate localMin localMax profitMargin
       savingsVsMin savingsVsMax savingsPercent
       false "Binance P2P (Primary)" None, m).

Definition validateConversionRequest (amount from to : value) : outcome bool :=
  let limits := Conf.limits cfg in
  match amount with
  | VNum amount =>
      if isNaN amount then
        Throw (newValidationError (Text "Amount must be a valid number") NoDetails)
      else if (amount <=? int 0)%num then
        Throw (newValidationError (Text "Amount must be greater than 0") NoDetails)
      else if (amount <? Conf.minTransaction limits)%num then
        Throw (newValidationError
                 (Template "Amount must be at least ₦" (Conf.minTransaction limits))
                 (DMinAmount (Conf.minTransaction limits)))
      else if (amount >? Conf.maxTransaction limits)%num then
        Throw (newValidationError
                 (Template "Amount exceeds maximum limit of ₦" (Conf.maxTransaction limits))
                 (DMaxAmount (Conf.maxTransaction limits)))
      else if negb (isStr "NGN" from) then
        Throw (newValidationError (Text "Only NGN source currency supported")
                 (DCurrency from ["NGN"]))
      else if negb (isStr "INR" to) then
        Throw (newValidationError (Text "Only INR target currency supported")
                 (DCurrency to ["INR"]))
      else Return true
  | _ => Throw (newValidationError (Text "Amount must be a valid number") NoDetails)
  end.

End Pricing.

Section Aggregator.

Variable parseFloat : value -> num.
Variable parseInt : value -> num.
Variable cfg : Conf.Config.

(** [getMarketData]: the snapshot or the error, and the state it leaves. *)
Definition getMarketData (useCache : bool) (now : Z) (feeds : Feeds) (st : State)
  : outcome MarketData * State :=
  let cacheKey := "market_data" in
  match (if useCache then cacheGet now cacheKey st else None) with
  | Some cached => (Return cached, withMetrics (hit (metrics st)) st)
  | None =>
      let st := withMetrics (miss (metrics st)) st in
      let '(spot, errors) :=
        settle "binanceSpot" (fetchBinanceSpot parseFloat (spotFeed feeds)) [] in
      let '(coinGecko, errors) :=
        settle "coinGecko" (fetchCoinGecko parseFloat (geckoFeed feeds)) errors in
      let '(p2pData, errors) :=
        settle "binanceP2P"
          (fetchBinanceP2P (Conf.maxRetries cfg) (p2pFeed feeds)) errors in
      if negb (match p2pData with Some data => truthy data | None => false end) then
        (Throw (newExternalAPIError (Text "Critical: P2P data unavailable")
                  (DUpstream errors "Try again in a few moments")), st)
      else
          let p2pData := default VNull p2pData in
          let ngnRate :=
            if truthy_rate (geckoNgn coinGecko)
            then default NaN (geckoNgn coinGecko)
            else Conf.fallbackNgnRate cfg in
          let ngnRate := (ngnRate + Conf.ngnMarkup (Conf.pricing cfg))%num in
          match analyzeP2P parseFloat parseInt (Conf.filters cfg) p2pData with
          | Throw e => (Throw e, st)
          | Return p2pStats =>
              let marketData :=
                mkMarketData now
                  (mkRates spot (geckoInr coinGecko) (geckoNgn coinGecko)
                     ngnRate (lowestRate p2pStats)
                     (negb (truthy_rate (geckoNgn coinGecko))))
                  p2pStats (someIfAny errors) in
              (Return marketData, cacheSet now (Conf.ttl cfg) cacheKey marketData st)
          end
  end.

End Aggregator.

(** *** Sessions

    The store is modelled by its logical contract: [set] replaces the
    record of a session, [update] merges the given children into it, and
    either may fail ([writeError], an answer of the store).  A session
    identifier is taken as a single key under [transactions]; module
    [Firebase] below writes out [update] for an identifier that is a path,
    and shows that on a key it is the [update] of this section.  Firebase's
    rules on values ([null] removes a child, [undefined] is refused) are
    not modelled. *)

Record TransactionData : Type := mkTransactionData {
  amount : value;
  from : value;
  to : value;
  exchangeRate : string;
  youGet : string;
  feeCharged : string;
  ipAddress : value;
  userAgent : value
}.

Record UserDetails : Type := mkUserDetails {
  customerName : value;
  email : value;
  phone : value;
  paymentMethod : value;
  receiveMethod : value
}.

Definition userDetailsJson (u : UserDetails) : value :=
  VObj [("customerName", customerName u); ("email", email u); ("phone", phone u);
        ("paymentMethod", paymentMethod u); ("receiveMethod", receiveMethod u)].

(** The object [createTransactionSession] encrypts as [encryptedTransaction]. *)
Definition lockedFields (t : TransactionData) : value :=
  VObj [("amount", amount t); ("from", from t); ("to", to t);
        ("exchangeRate", VStr (exchangeRate t)); ("youGet", VStr (youGet t));
        ("feeCharged", VStr (feeCharged t))].

Definition strOf (v : value) : string :=
  match v with VStr s => s | _ => "" end.

(** One call's answers from the clock and the store. *)
Record Io : Type := mkIo {
  now : Z;
  writeError : option JsError
}.

Definition dbSet (sessionId : string) (data : Session) (io : Io) (st : State)
  : outcome unit * State :=
  match writeError io with
  | Some e => (Throw e, st)
  | None => (Return tt, withTransactions (<[sessionId := data]> (transactions st)) st)
  end.

(** [update]: the given children replace those of the same key, the others
    stay; a record that does not exist yet is created from the update. *)
Definition dbUpdate (sessionId : string) (updates : Session) (io : Io) (st : State)
  : outcome unit * State :=
  match writeError io with
  | Some e => (Throw e, st)
  | None =>
      let old := default ∅ (transactions st !! sessionId) in
      (Return tt, withTransactions (<[sessionId := updates ∪ old]> (transactions st)) st)
  end.

Section Sessions.

Variable parseFloat : value -> num.
Variable cfg : Conf.Config.
(** The cipher under the configured key, and the pattern replacement
    [youGet.replace(/[^0-9.-]+/g, "")]. *)
Variable encryptData : value -> string.
Variable decryptData : string -> outcome value.
Variable stripNonNumeric : string -> string.

Definition createTransactionSession (sessionId : string)
    (transactionData : TransactionData) (userDetails : UserDetails)
    (io : Io) (st : State) : outcome (string * Z) * State :=
  let failed (e : JsError) : outcome (string * Z) :=
    Throw (newError (Wrapped "Transaction session creation failed: " (message e))) in
  let timestamp := now io in
  let expiresAt := now io + Conf.sessionTTL cfg in
  if String.eqb (Conf.encryptionKey cfg) "" ||
     String.eqb (Conf.encryptionKey cfg) "change-this-encryption-key" then
    (failed (newError (Text "ENCRYPTION_KEY not properly configured in .env")), st)
  else
    let encryptedUserDetails := encryptData (userDetailsJson userDetails) in
    let encryptedTransaction := encryptData (lockedFields transactionData) in
    let summary :=
      VObj [("amountNGN", amount transactionData);
            ("amountINR", VNum (parseFloat (VStr (stripNonNumeric (youGet transactionData)))));
            ("currency", VStr (strOf (from transactionData) ++ " to " ++ strOf (to transactionData)));
            ("userName", or_value (customerName userDetails) (VStr "Anonymous"))] in
    let sessionData : Session :=
      list_to_map
        [("sessionId", VStr sessionId);
         ("status", VStr "pending");
         ("createdAt", VNum (int timestamp));
         ("expiresAt", VNum (int expiresAt));
         ("encryptedUserDetails", VStr encryptedUserDetails);
         ("encryptedTransaction", VStr encryptedTransaction);
         ("ipAddress", or_value (ipAddress transactionData) (VStr "unknown"));
         ("userAgent", or_value (userAgent transactionData) (VStr "unknown"));
         ("summary", summary)] in
    match dbSet sessionId sessionData io st with
    | (Throw e, st) => (failed e, st)
    | (Return _, st) =>
        (Return (sessionId, expiresAt), withMetrics (sessionOpened (metrics st)) st)
    end.

(** [updates = { status, updatedAt, ...additionalData }]: a key of
    [additionalData] wins over the two written before the spread. *)
Definition updateTransactionStatus (sessionId status : string)
    (additionalData : Session) (io : Io) (st : State) : outcome bool * State :=
  let updates : Session :=
    additionalData ∪ <["status" := VStr status]> {["updatedAt" := VNum (int (now io))]} in
  match dbUpdate sessionId updates io st with
  | (Throw _, st) =>
      (Throw (newAPIError (Text "Failed to update transaction status") 500 NoDetails), st)
  | (Return _, st) =>
      let m := metrics st in
      let m :=
        if String.eqb status "completed" then sessionCompleted m
        else if String.eqb status "failed" then sessionFailed m
        else m in
      (Return true, withMetrics m st)
  end.

Record StoredSession : Type := mkStoredSession {
  record : Session;
  userDetailsOf : value;
  transactionOf : value
}.

Definition getTransactionSession (sessionId : string) (io : Io) (st : State)
  : outcome StoredSession :=
  match transactions st !! sessionId with
  | None => Throw (newAPIError (Text "Session not found") 404 NoDetails)
  | Some session =>
      let expiresAt := default VUndef (session !! "expiresAt") in
      let expired :=
        truthy expiresAt &&
        match expiresAt with VNum t => (t <? int (now io))%num | _ => false end in
      if expired then Throw (newAPIError (Text "Session expired") 410 NoDetails)
      else
        let cipher k := strOf (default VUndef (session !! k)) in
        match decryptData (cipher "encryptedUserDetails"),
              decryptData (cipher "encryptedTransaction") with
        | Return userDetails, Return transaction =>
            Return (mkStoredSession session userDetails transaction)
        | Throw _, _ | _, Throw _ => Throw (newError (Text "Data decryption failed"))
        end
  end.

End Sessions.

(** *** Requests that move a session's status *)

(** What the gateway answers to a verification: [responseOk] is
    [response.status && response.data], the rest are fields of
    [response.data]. *)
Record Verification : Type := mkVerification {
  responseOk : bool;
  txStatus : value;
  txAmount : num;
  txChannel : value;
  gatewayResponse : value
}.

(** A webhook delivery; [paidAt] is [new Date(event.data.paid_at).getTime()]
    and [metadataSessionId] is empty when the metadata names no session. *)
Record WebhookEvent : Type := mkWebhookEvent {
  eventName : value;
  eventReference : value;
  metadataSessionId : string;
  eventAmount : num;
  paidAt : value;
  eventChannel : value
}.

Inductive StatusRequest : Type :=
| PaymentInitialize (sessionId : string)
| VerifyManual (reference sessionId : string) (gateway : outcome Verification)
| PaymentVerify (reference sessionId : string)
| PaystackWebhook (signatureValid : bool) (event : WebhookEvent)
| AdminSetStatus (headerKey queryKey : value) (sessionId : string) (status : value)
    (paymentProof notes : value) (ip : string).

(** What the client is sent. *)
Inductive Reply : Type :=
| Sent (status : Z)
| Redirected (target : string)
| Refused (status : Z) (err : JsError) (kind : string).

(** The error-handling middleware. *)
Definition errorHandler (err : JsError) (st : State) : Reply * State :=
  let st := withMetrics (requestFailed (metrics st)) st in
  match name err with
  | ValidationError => (Refused (default 500 (statusCode err)) err "validation_error", st)
  | ExternalAPIError => (Refused (default 500 (statusCode err)) err "external_api_error", st)
  | APIError => (Refused (default 500 (statusCode err)) err "api_error", st)
  | _ => (Refused 500 err "internal_error", st)
  end.

Section Endpoints.

Variable cfg : Conf.Config.
Variable decryptData : string -> outcome value.

Definition validateAdminAuth (headerKey queryKey : value) : outcome bool :=
  if String.eqb (Conf.adminApiKey cfg) "" then
    Throw (newAPIError (Text "Admin API key not configured") 500 NoDetails)
  else
    let providedKey := or_value headerKey queryKey in
    if negb (truthy providedKey) || negb (isStr (Conf.adminApiKey cfg) providedKey) then
      Throw (newAPIError (Text "Unauthorized") 401 NoDetails)
    else Return true.

(** POST /api/payment/initialize; the gateway call is the mock of the
    source, which always answers [status: true]. *)
Definition paymentInitialize (sessionId : string) (io : Io) (st : State)
  : Reply * State :=
  if String.eqb sessionId "" then
    errorHandler (newValidationError (Text "Session ID required") NoDetails) st
  else
    match getTransactionSession decryptData sessionId io st with
    | Throw e => errorHandler e st
    | Return session =>
        let status := default VUndef (record session !! "status") in
        if negb (isStr "pending" status) then
          errorHandler
            (newValidationError (Wrapped "Transaction already " (Text (strOf status)))
               NoDetails) st
        else
          let reference := "HP-" ++ sessionId ++ "-" ++ pretty (now io) in
          let updates : Session :=
            list_to_map
              [("paystackReference", VStr reference);
               ("paystackInitializedAt", VNum (int (now io)));
               ("status", VStr "payment_initiated")] in
          match dbUpdate sessionId updates io st with
          | (Throw e, st) => errorHandler e st
          | (Return _, st) => (Sent 200, st)
          end
    end.

(** POST /api/payment/verify-manual: the record is written directly. *)
Definition verifyManual (reference sessionId : string)
    (gateway : outcome Verification) (io : Io) (st : State) : Reply * State :=
  if String.eqb reference "" then (Sent 400, st)
  else
    match gateway with
    | Throw _ => (Sent 500, st)
    | Return tx =>
        if negb (responseOk tx) then (Sent 400, st)
        else if isStr "success" (txStatus tx) && negb (String.eqb sessionId "") then
          let updates : Session :=
            list_to_map
              [("status", VStr "completed");
               ("paystackReference", VStr reference);
               ("paidAmount", VNum (txAmount tx / int 100)%num);
               ("paidAt", VNum (int (now io)));
               ("paymentChannel", txChannel tx);
               ("verifiedAt", VNum (int (now io)))] in
          match dbUpdate sessionId updates io st with
          | (Throw _, st) => (Sent 500, st)
          | (Return _, st) => (Sent 200, st)
          end
        else if negb (String.eqb sessionId "") then
          let updates : Session :=
            list_to_map
              [("status", VStr "failed");
               ("failureReason", gatewayResponse tx);
               ("failedAt", VNum (int (now io)))] in
          match dbUpdate sessionId updates io st with
          | (Throw _, st) => (Sent 500, st)
          | (Return _, st) => (Sent 200, st)
          end
        else (Sent 200, st)
    end.

(** GET /api/payment/verify reads [paystackAPI.transaction.verify], and
    [paystackAPI] has no [transaction] property: the read raises before any
    status is written, and the [catch] redirects to the error page. *)
Definition paymentVerify (reference sessionId : string) (io : Io) (st : State)
  : Reply * State :=
  (Redirected "/payment-error.html", st).

(** POST /api/webhook/paystack. *)
Definition paystackWebhook (signatureValid : bool) (event : WebhookEvent)
    (io : Io) (st : State) : Reply * State :=
  if negb signatureValid then (Sent 400, st)
  else if isStr "charge.success" (eventName event)
          && negb (String.eqb (metadataSessionId event) "") then
    let additionalData : Session :=
      list_to_map
        [("paystackReference", eventReference event);
         ("paidAmount", VNum (eventAmount event / int 100)%num);
         ("paidAt", paidAt event);
         ("paymentChannel", eventChannel event);
         ("webhookReceivedAt", VNum (int (now io)))] in
    match updateTransactionStatus (metadataSessionId event) "completed"
            additionalData io st with
    | (Throw _, st) => (Sent 500, st)
    | (Return _, st) => (Sent 200, st)
    end
  else (Sent 200, st).

(** POST /api/transaction/:sessionId/status. *)
Definition adminSetStatus (headerKey queryKey : value) (sessionId : string)
    (status paymentProof notes : value) (ip : string) (io : Io) (st : State)
  : Reply * State :=
  match validateAdminAuth headerKey queryKey with
  | Throw e => errorHandler e st
  | Return _ =>
      if negb (isStr "completed" status || isStr "failed" status
               || isStr "processing" status) then
        errorHandler (newValidationError (Text "Invalid status") NoDetails) st
      else
        let additionalData : Session :=
          list_to_map
            [("paymentProof", paymentProof); ("notes", notes); ("updatedBy", VStr ip)] in
        match updateTransactionStatus sessionId (strOf status) additionalData io st with
        | (Throw e, st) => errorHandler e st
        | (Return _, st) => (Sent 200, st)
        end
  end.

Definition serve (request : StatusRequest) (io : Io) (st : State) : Reply * State :=
  match request with
  | PaymentInitialize sessionId => paymentInitialize sessionId io st
  | VerifyManual reference sessionId gateway =>
      verifyManual reference sessionId gateway io st
  | PaymentVerify reference sessionId => paymentVerify reference sessionId io st
  | PaystackWebhook signatureValid event => paystackWebhook signatureValid event io st
  | AdminSetStatus headerKey queryKey sessionId status paymentProof notes ip =>
      adminSetStatus headerKey queryKey sessionId status paymentProof notes ip io st
  end.

(** A run of requests, each with the answers of the clock and the store. *)
Definition serveAll (requests : list (StatusRequest * Io)) (st : State) : State :=
  fold_left (fun st r => snd (serve (fst r) (snd r) st)) requests st.

End Endpoints.

(** *** POST /api/convert *)

Record ConvertRequest : Type := mkConvertRequest {
  bodyAmount : value;
  bodyFrom : value;
  bodyTo : value;
  bodyCustomerName : value;
  bodyEmail : value;
  bodyPhone : value;
  bodyPaymentMethod : value;
  bodyReceiveMethod : value;
  ip : string;
  userAgentHeader : value
}.

Record Risk : Type := mkRisk {
  riskType : string;
  severity : string
}.

(** The answers one conversion request gets from its collaborators:
    the findings of the express-validator chain, the identifier drawn by
    [uuidv4], the two results of [Math.random], the upstream feeds, the
    day, the store access of the fraud check that fails (if any), and the
    clock and store answer of the session write. *)
Record ConvertIo : Type := mkConvertIo {
  findings : list string;
  uuid : string;
  random1 : Q;
  random2 : Q;
  feeds : Feeds;
  today : string;
  fraudFailsAt : option nat;
  io : Io
}.

Record ConvertResponse : Type := mkConvertResponse {
  sessionIdOf : string;
  expiresAtOf : Z;
  offerExchangeRate : string;
  offerFeeCharged : string;
  competitiveOf : PricingResult;
  feesOf : Fees;
  warningsOf : list Risk;
  noticeOf : option string;
  warningOf : option string
}.

Inductive ConvertReply : Type :=
| Converted (response : ConvertResponse)
| NotConverted (reply : Reply).

Section Convert.

Variable parseFloat : value -> num.
Variable parseInt : value -> num.
Variable cfg : Conf.Config.
Variable encryptData : value -> string.
Variable stripNonNumeric : string -> string.
(** [Number.prototype.toFixed] and the conversion of a number to a string. *)
Variable toFixed : num -> nat -> string.
Variable numToString : num -> string.
(** The two pattern tests of [validateUserDetails]. *)
Variable emailPattern : string -> bool.
Variable phonePattern : string -> bool.
(** The store's query for the last five sessions of an address. *)
Variable lastByIp : gmap string Session -> string -> list Session.

Definition validateUserDetails (details : UserDetails) : outcome bool :=
  let nameTooShort :=
    match customerName details with
    | VStr s => negb (String.eqb s "") && Nat.ltb (String.length s) 2
    | _ => false
    end in
  let errors :=
    ((if nameTooShort then ["Customer name must be at least 2 characters"] else []) ++
     (if truthy (email details) && negb (emailPattern (strOf (email details)))
      then ["Invalid email format"] else []) ++
     (if truthy (phone details) && negb (phonePattern (strOf (phone details)))
      then ["Invalid phone number"] else []))%list in
  match errors with
  | [] => Return true
  | _ => Throw (newValidationError (Text "Invalid user details") (DFieldErrors errors))
  end.

(** [checkFraudRisk]: every failure of the store is caught, and the risks
    found so far are returned. *)
Definition checkFraudRisk (userDetails : UserDetails) (transactionAmount : num)
    (ipAddress : string) (c : ConvertIo) (st : State) : list Risk * State :=
  let fails (access : nat) :=
    match fraudFailsAt c with Some k => Nat.eqb k access | None => false end in
  let identifier := or_value (email userDetails) (phone userDetails) in
  let recentCheck (risks : list Risk) (st : State) : list Risk * State :=
    if fails 2%nat then (risks, st)
    else
      let recent := lastByIp (transactions st) ipAddress in
      let last5Min := int (now (io c) - 5 * 60 * 1000) in
      let isRecent (t : Session) :=
        match t !! "createdAt" with
        | Some (VNum created) => (created >? last5Min)%num
        | _ => false
        end in
      if Nat.leb 3 (length (List.filter isRecent recent)) then
        ((risks ++ [mkRisk "rapid_transactions" "medium"])%list, st)
      else (risks, st) in
  if truthy identifier then
    if fails 0%nat then ([], st)
    else
      let key := (strOf identifier, today c) in
      let dailyTotal := or_num (default NaN (daily_totals st !! key)) (int 0) in
      let risks :=
        if (dailyTotal + transactionAmount >? Conf.dailyLimit (Conf.limits cfg))%num
        then [mkRisk "daily_limit_exceeded" "high"] else [] in
      if fails 1%nat then (risks, st)
      else
        recentCheck risks
          (withDailyTotals
             (<[key := (dailyTotal + transactionAmount)%num]> (daily_totals st)) st)
  else recentCheck [] st.

Definition isHigh (r : Risk) : bool := String.eqb (severity r) "high".

Definition convertBody (req : ConvertRequest) (c : ConvertIo) (st : State)
  : outcome ConvertResponse * State :=
  match findings c with
  | _ :: _ =>
      (Throw (newValidationError (Text "Invalid input data") (DFieldErrors (findings c))), st)
  | [] =>
      match validateConversionRequest cfg (bodyAmount req) (bodyFrom req) (bodyTo req) with
      | Throw e => (Throw e, st)
      | Return _ =>
          let amount := match bodyAmount req with VNum n => n | _ => NaN end in
          let userDetails :=
            mkUserDetails (or_value (bodyCustomerName req) (VStr "Anonymous"))
              (or_value (bodyEmail req) VNull) (or_value (bodyPhone req) VNull)
              (or_value (bodyPaymentMethod req) VNull)
              (or_value (bodyReceiveMethod req) VNull) in
          match (if truthy (bodyEmail req) || truthy (bodyPhone req)
                 then validateUserDetails userDetails else Return true) with
          | Throw e => (Throw e, st)
          | Return _ =>
              let '(fraudRisks, st) := checkFraudRisk userDetails amount (ip req) c st in
              if existsb isHigh fraudRisks then
                (Throw (newValidationError
                          (Text "Transaction blocked due to security concerns")
                          (DFieldErrors (map riskType (List.filter isHigh fraudRisks)))), st)
              else
                match getMarketData parseFloat parseInt cfg true (now (io c)) (feeds c) st with
                | (Throw e, st) => (Throw e, st)
                | (Return marketData, st) =>
                    let '(competitive, m) :=
                      calculateCompetitiveRate cfg
                        (p2pLowest (rates marketData))
                        (ngnRateWithMarkup (rates marketData))
                        (coinGeckoInr (rates marketData))
                        (random1 c) (random2 c) (metrics st) in
                    let st := withMetrics m st in
                    let grossInr := (amount / targetRate competitive)%num in
                    match calculateFees (Conf.tiers cfg) grossInr with
                    | Throw e => (Throw e, st)
                    | Return fees =>
                        let shownRate :=
                          "₦" ++ toFixed (targetRate competitive) 2 ++ " per ₹1" in
                        let shownFee :=
                          numToString (feePercent fees) ++ "% (₹"
                          ++ toFixed (feeAmount fees) 2 ++ ")" in
                        let transactionData :=
                          mkTransactionData (bodyAmount req) (bodyFrom req) (bodyTo req)
                            shownRate
                            ("₹" ++ toFixed (netAmount fees) 2 ++ " INR")
                            shownFee (VStr (ip req)) (userAgentHeader req) in
                        match createTransactionSession parseFloat cfg encryptData
                                stripNonNumeric (uuid c) transactionData userDetails
                                (io c) st with
                        | (Throw e, st) => (Throw e, st)
                        | (Return (sessionId, expiresAt), st) =>
                            (Return
                               (mkConvertResponse sessionId expiresAt shownRate shownFee
                                  competitive fees
                                  (List.filter (fun r => negb (isHigh r)) fraudRisks)
                                  (if usedCoinGeckoFallback competitive
                                   then Some "Rate calculated using CoinGecko fallback for optimal pricing"
                                   else None)
                                  (warning competitive)), st)
                        end
                    end
                end
          end
      end
  end.

(** The route: the response, or the error handed to the error handler. *)
Definition convert (req : ConvertRequest) (c : ConvertIo) (st : State)
  : ConvertReply * State :=
  match convertBody req c st with
  | (Return response, st) =>
      (Converted response, withMetrics (requestSucceeded (metrics st)) st)
  | (Throw e, st) =>
      let '(reply, st) := errorHandler e st in (NotConverted reply, st)
  end.

End Convert.

(** ** The earlier server: src/unnamed/part_002

    It has no sessions, no fallback constant for the reference rate, no
    minimum transaction, and a pricing engine that rejects instead of
    falling back.  Its fetchers, analyser and fee calculator are the
    functions above. *)

Module Part002.

Record Pricing : Type := mkPricing {
  minProfitMargin : num;
  ngnMarkup : num;
  discountMin : num;
  discountMax : num;
  localRateMin : num;
  localRateMax : num
}.

Record Config : Type := mkConfig {
  maxRetries : nat;
  ttl : Z;
  pricing : Pricing;
  tiers : list Conf.Tier;
  filters : Conf.Filters
}.

(** The default fee table goes through [JSON.stringify] and [JSON.parse],
    which turn the [Infinity] of the last tier into [null]; [amount <= null]
    then compares with zero, which is what the last [max] holds here. *)
Definition feeTiers : list Conf.Tier :=
  [ Conf.mkTier (int 10000) (dec 25 10);
    Conf.mkTier (int 50000) (dec 20 10);
    Conf.mkTier (int 100000) (dec 15 10);
    Conf.mkTier (int 500000) (dec 10 10);
    Conf.mkTier (int 0) (dec 75 100) ].

Definition config : Config :=
  {| maxRetries := 3;
     ttl := 300;
     pricing :=
       {| minProfitMargin := dec 5 10;
          ngnMarkup := int 20;
          discountMin := dec 20 100;
          discountMax := dec 40 100;
          localRateMin := dec 162 10;
          localRateMax := dec 165 10 |};
     tiers := feeTiers;
     filters := qualityFilters |}.

Record PricingResult : Type := mkPricingResult {
  baseCost : num;
  targetRate : num;
  resultLocalRateMin : num;
  resultLocalRateMax : num;
  discount : num;
  profitMargin : num;
  savingsVsMin : num;
  savingsVsMax : num;
  savingsPercent : num
}.

Record Metrics : Type := mkMetrics {
  requests_total : Z;
  requests_success : Z;
  requests_errors : Z;
  cache_hits : Z;
  cache_misses : Z
}.

Record Rates : Type := mkRates {
  binanceSpot : option num;
  coinGeckoInr : option num;
  coinGeckoNgn : num;
  ngnRateWithMarkup : num;
  p2pLowest : num
}.

Record MarketData : Type := mkMarketData {
  timestamp : Z;
  rates : Rates;
  p2p : P2PStats;
  errors : option (list SourceError)
}.

Record State : Type := mkState {
  cache : gmap string (MarketData * Z);
  metrics : Metrics
}.

Definition cacheGet (now : Z) (key : string) (st : State) : option MarketData :=
  match cache st !! key with
  | Some (data, expires) => if (now <=? expires)%Z then Some data else None
  | None => None
  end.

Section Server.

Variable parseFloat : value -> num.
Variable parseInt : value -> num.
Variable cfg : Config.

(** [random] is the result of [Math.random()]. *)
Definition calculateCompetitiveRate (lowestInrRate ngnRate : num) (random : Q)
  : outcome PricingResult :=
  let pricing := pricing cfg in
  let baseCostPerInr := (ngnRate / lowestInrRate)%num in
  let profitMultiplier := (int 1 + minProfitMargin pricing / int 100)%num in
  let rateWithProfit := (baseCostPerInr * profitMultiplier)%num in
  let randomAdjustment :=
    (discountMin pricing + Fin random * (discountMax pricing - discountMin pricing))%num in
  let finalRate := (rateWithProfit + randomAdjustment * dec 1 10)%num in
  let finalRate :=
    if (finalRate >? localRateMax pricing)%num
    then (localRateMax pricing - dec 1 10)%num else finalRate in
  let finalRate :=
    if (finalRate <? baseCostPerInr * dec 1005 1000)%num
    then (baseCostPerInr * dec 1005 1000)%num else finalRate in
  let profitMargin := marginPct finalRate baseCostPerInr in
  if (profitMargin <? minProfitMargin pricing)%num then
    Throw (newAPIError (Text "Insufficient profit margin - rates unfavorable") 503
             (DMargin profitMargin (minProfitMargin pricing)
                "Wait for better market conditions"))
  else
    let savingsVsMin := (localRateMin pricing - finalRate)%num in
    let savingsVsMax := (localRateMax pricing - finalRate)%num in
    let savingsPercent :=
      if (savingsVsMin >? int 0)%num
      then (savingsVsMin / localRateMin pricing * int 100)%num else int 0 in
    Return (mkPricingResult baseCostPerInr finalRate (localRateMin pricing)
              (localRateMax pricing) randomAdjustment profitMargin
              savingsVsMin savingsVsMax savingsPercent).

Definition validateConversionRequest (amount from to : value) : outcome bool :=
  match amount with
  | VNum amount =>
      if isNaN amount then
        Throw (newValidationError (Text "Amount must be a valid number") NoDetails)
      else if (amount <=? int 0)%num then
        Throw (newValidationError (Text "Amount must be greater than 0") NoDetails)
      else if (amount >? int 100000000)%num then
        Throw (newValidationError
                 (Text "Amount exceeds maximum limit (100,000,000)") NoDetails)
      else if negb (isStr "NGN" from) then
        Throw (newValidationError (Text "Only NGN source currency supported")
                 (DCurrency from ["NGN"]))
      else if negb (isStr "INR" to) then
        Throw (newValidationError (Text "Only INR target currency supported")
                 (DCurrency to ["INR"]))
      else Return true
  | _ => Throw (newValidationError (Text "Amount must be a valid number") NoDetails)
  end.

Definition getMarketData (useCache : bool) (now : Z) (feeds : Feeds) (st : State)
  : outcome MarketData * State :=
  let cacheKey := "market_data" in
  let m := metrics st in
  match (if useCache then cacheGet now cacheKey st else None) with
  | Some cached =>
      (Return cached,
       mkState (cache st)
         (mkMetrics (requests_total m) (requests_success m) (requests_errors m)
            (cache_hits m + 1) (cache_misses m)))
  | None =>
      let st :=
        mkState (cache st)
          (mkMetrics (requests_total m) (requests_success m) (requests_errors m)
             (cache_hits m) (cache_misses m + 1)) in
      let '(spot, errors) :=
        settle "binanceSpot" (fetchBinanceSpot parseFloat (spotFeed feeds)) [] in
      let '(coinGecko, errors) :=
        settle "coinGecko" (fetchCoinGecko parseFloat (geckoFeed feeds)) errors in
      let '(p2pData, errors) :=
        settle "binanceP2P" (fetchBinanceP2P (maxRetries cfg) (p2pFeed feeds)) errors in
      if negb (match p2pData with Some data => truthy data | None => false end) then
        (Throw (newExternalAPIError (Text "Critical: P2P data unavailable")
                  (DUpstream errors "Try again in a few moments")), st)
      else if negb (truthy_rate (geckoNgn coinGecko)) then
        (Throw (newExternalAPIError (Text "Critical: NGN rate unavailable")
                  (DUpstream errors "Try again in a few moments")), st)
      else
        let p2pData := default VNull p2pData in
        let ngn := default NaN (geckoNgn coinGecko) in
        match analyzeP2P parseFloat parseInt (filters cfg) p2pData with
        | Throw e => (Throw e, st)
        | Return p2pStats =>
            let ngnRate := (ngn + ngnMarkup (pricing cfg))%num in
            let marketData :=
              mkMarketData now
                (mkRates spot (geckoInr coinGecko) ngn ngnRate (lowestRate p2pStats))
                p2pStats (someIfAny errors) in
            (Return marketData,
             mkState (<[cacheKey := (marketData, now + ttl cfg * 1000)]> (cache st))
               (metrics st))
        end
  end.

End Server.

End Part002.

(** ** Reference built-ins

    [parseFloat] and [parseInt] as the language defines them, on decoded
    JSON: a string is read up to the longest prefix that is a literal, a
    number goes through its own printed form, and anything else that does
    not print as a number gives [NaN].  Finite results are exact. *)

Module Builtins.

Definition isSpace (c : ascii) : bool :=
  let n := nat_of_ascii c in
  (Nat.eqb n 32 || Nat.eqb n 9 || Nat.eqb n 10 || Nat.eqb n 11 || Nat.eqb n 12
   || Nat.eqb n 13)%bool.

Fixpoint skipSpaces (s : list ascii) : list ascii :=
  match s with
  | c :: rest => if isSpace c then skipSpaces rest else s
  | [] => []
  end.

Definition digitOf (c : ascii) : option Z :=
  let n := Z.of_nat (nat_of_ascii c) in
  if (48 <=? n)%Z && (n <=? 57)%Z then Some (n - 48)%Z else None.

Definition hexDigitOf (c : ascii) : option Z :=
  let n := Z.of_nat (nat_of_ascii c) in
  if (48 <=? n)%Z && (n <=? 57)%Z then Some (n - 48)%Z
  else if (97 <=? n)%Z && (n <=? 102)%Z then Some (n - 87)%Z
  else if (65 <=? n)%Z && (n <=? 70)%Z then Some (n - 55)%Z
  else None.

(** The longest run of digits in base [base]: its value, its length, and
    what follows it. *)
Fixpoint digitsFrom (digit : ascii -> option Z) (base acc : Z) (count : nat)
    (s : list ascii) : Z * nat * list ascii :=
  match s with
  | c :: rest =>
      match digit c with
      | Some d => digitsFrom digit base (acc * base + d)%Z (S count) rest
      | None => (acc, count, s)
      end
  | [] => (acc, count, [])
  end.

Definition signOf (s : list ascii) : bool * list ascii :=
  match s with
  | "-"%char :: rest => (true, rest)
  | "+"%char :: rest => (false, rest)
  | _ => (false, s)
  end.

Definition pow10 (e : Z) : Q :=
  if (0 <=? e)%Z then inject_Z (10 ^ e) else (1 / inject_Z (10 ^ (- e)))%Q.

Definition exponentOf (s : list ascii) : Z :=
  match s with
  | ("e" | "E")%char :: rest =>
      let '(negative, rest) := signOf rest in
      let '(e, count, _) := digitsFrom digitOf 10 0 0%nat rest in
      match count with
      | O => 0
      | _ => if negative then (- e)%Z else e
      end
  | _ => 0
  end.

Definition parseFloatString (s : string) : num :=
  let '(negative, rest) := signOf (skipSpaces (list_ascii_of_string s)) in
  if String.prefix "Infinity" (string_of_list_ascii rest) then
    if negative then NInf else PInf
  else
    let '(whole, wholeCount, rest) := digitsFrom digitOf 10 0 0%nat rest in
    let '(mantissa, fractionCount, rest) :=
      match rest with
      | "."%char :: afterPoint =>
          let '(m, count, rest') := digitsFrom digitOf 10 whole 0%nat afterPoint in
          match wholeCount, count with
          | O, O => (whole, 0%nat, rest)
          | _, _ => (m, count, rest')
          end
      | _ => (whole, 0%nat, rest)
      end in
    match wholeCount, fractionCount with
    | O, O => NaN
    | _, _ =>
        let q := (inject_Z mantissa
                  * pow10 (exponentOf rest - Z.of_nat fractionCount))%Q in
        Fin (Qred (if negative then - q else q))
    end.

Definition parseIntString (s : string) : num :=
  let '(negative, rest) := signOf (skipSpaces (list_ascii_of_string s)) in
  let '(n, count, _) :=
    match rest with
    | "0"%char :: ("x" | "X")%char :: hex => digitsFrom hexDigitOf 16 0 0%nat hex
    | _ => digitsFrom digitOf 10 0 0%nat rest
    end in
  match count with
  | O => NaN
  | _ => int (if negative then - n else n)
  end.

(** The first digit of a positive rational, as its printed form in
    exponent notation begins. *)
Fixpoint leadingDigit (fuel : nat) (q : Q) : Z :=
  match fuel with
  | O => Qfloor q
  | S fuel' =>
      if Qle_bool 10 q then leadingDigit fuel' (q / 10)
      else if Qltb q 1 then leadingDigit fuel' (q * 10)
      else Qfloor q
  end.

Definition truncate (q : Q) : Z :=
  if Qle_bool 0 q then Qfloor q else (- Qfloor (- q))%Z.

(** A first element of an array prints before the first comma; [null] and
    [undefined] print as nothing. *)
Fixpoint parseFloat (v : value) : num :=
  match v with
  | VNum n => n
  | VStr s => parseFloatString s
  | VArr (first :: _) => parseFloat first
  | _ => NaN
  end.

Fixpoint parseInt (v : value) : num :=
  match v with
  | VNum (Fin q) =>
      let magnitude := Qabs q in
      if Qeq_bool q 0 then int 0
      else if Qle_bool (1 # 1000000) magnitude && Qltb magnitude (pow10 21) then
        int (truncate q)
      else
        let fuel := (Z.to_nat (Z.log2 (Z.abs (Qnum q)) + Z.log2 (Zpos (Qden q))) + 2)%nat in
        let d := leadingDigit fuel magnitude in
        int (if Qltb q 0 then - d else d)
  | VNum _ => NaN
  | VStr s => parseIntString s
  | VArr (first :: _) => parseInt first
  | _ => NaN
  end.

(** [Number.prototype.toFixed]: the nearest decimal with [digits] places,
    a tie going away from zero. *)
Definition padded (digits : nat) (n : Z) : string :=
  let shown := pretty n in
  String.concat "" (repeat "0" (digits - String.length shown)) ++ shown.

Definition toFixed (x : num) (digits : nat) : string :=
  match x with
  | NaN => "NaN"
  | PInf => "Infinity"
  | NInf => "-Infinity"
  | Fin q =>
      let scale := (10 ^ Z.of_nat digits)%Z in
      let scaled := Qfloor (Qabs q * inject_Z scale + (1 # 2)) in
      let whole := pretty (scaled / scale)%Z in
      let shown :=
        match digits with
        | O => whole
        | _ => whole ++ "." ++ padded digits (scaled mod scale)%Z
        end in
      if Qltb q 0 then "-" ++ shown else shown
  end.

(** The least number of decimal places, up to [fuel], that write [q]
    exactly. *)
Fixpoint placesOf (fuel : nat) (q : Q) : nat :=
  match fuel with
  | O => O
  | S fuel' =>
      if Qeq_bool (inject_Z (Qfloor q)) q then O else S (placesOf fuel' (q * 10))
  end.

(** A number in a template string; exact for the decimals of this
    program's tables, of which it prints every place. *)
Definition numToString (x : num) : string :=
  match x with
  | Fin q => toFixed x (placesOf 20 (Qabs q))
  | _ => toFixed x 0
  end.

Definition keepChars (keep : ascii -> bool) (s : string) : string :=
  string_of_list_ascii (List.filter keep (list_ascii_of_string s)).

Definition isDigit (c : ascii) : bool :=
  match digitOf c with Some _ => true | None => false end.

(** [s.replace(/[^0-9.-]+/g, "")]. *)
Definition stripNonNumeric (s : string) : string :=
  keepChars (fun c => isDigit c || Ascii.eqb c "." || Ascii.eqb c "-") s.

(** [/^[0-9]{10,15}$/.test(s.replace(/\D/g, ""))]. *)
Definition phonePattern (s : string) : bool :=
  let digits := String.length (keepChars isDigit s) in
  Nat.leb 10 digits && Nat.leb digits 15.

Fixpoint upTo (stop : ascii -> bool) (s : list ascii) : list ascii :=
  match s with
  | c :: rest => if stop c then [] else c :: upTo stop rest
  | [] => []
  end.

(** [/^[^\s@]+@[^\s@]+\.[^\s@]+$/.test(s)]: no blank, one [@] after a
    non-empty local part, and after it a dot with something on each side. *)
Definition emailPattern (s : string) : bool :=
  let chars := list_ascii_of_string s in
  let isAt c := Ascii.eqb c "@" in
  let local := upTo isAt chars in
  let domain := drop (S (length local)) chars in
  let inner := drop 1 (take (length domain - 1) domain) in
  negb (existsb isSpace chars)
  && Nat.eqb (length (List.filter isAt chars)) 1
  && negb (Nat.eqb (length local) 0)
  && existsb (fun c => Ascii.eqb c ".") inner.

End Builtins.

(** ** Vocabulary of the properties *)

(** A fee table is graded when no tier has a higher percentage than a tier
    before it (and every percentage is a number). *)
Fixpoint graded (tiers : list Conf.Tier) : Prop :=
  match tiers with
  | [] => True
  | t :: rest =>
      Forall (fun u => (Conf.percent u <=? Conf.percent t)%num = true) (t :: rest)
      /\ graded rest
  end.

(** The percentage the published schedule gives an amount. *)
Definition schedulePercent (q : Q) : num :=
  if Qle_bool q 10000 then dec 25 10
  else if Qle_bool q 50000 then dec 20 10
  else if Qle_bool q 100000 then dec 15 10
  else if Qle_bool q 500000 then dec 10 10
  else dec 75 100.

(** The tier [calculateFees] applies: the first that admits the amount,
    or the last one. *)
Definition chosenTier (amount : num) (tiers : list Conf.Tier) : option Conf.Tier :=
  match firstTier amount tiers with
  | Some tier => Some tier
  | None => last tiers
  end.

(** [a] is no dearer than [b]. *)
Definition cheaper (a b : Ad) : Prop := (price a <=? price b)%num = true.

(** A sum of rationals, accumulated from the left as [reduce] does. *)
Definition qsum {A : Type} (g : A -> Q) (l : list A) (acc : Q) : Q :=
  fold_left (fun s a => (s + g a)%Q) l acc.

Definition priceQ (a : Ad) : Q := match price a with Fin p => p | _ => 0%Q end.


Definition fromReference (x : SourceError) : bool := String.eqb (source x) "coinGecko".

(** A cache miss: the cache is bypassed, or holds no live snapshot. *)
Definition cacheMiss (useCache : bool) (now : Z) (st : State) : Prop :=
  (if useCache then cacheGet now "market_data" st else None) = None.

Definition cacheMiss002 (useCache : bool) (now : Z) (st : Part002.State) : Prop :=
  (if useCache then Part002.cacheGet now "market_data" st else None) = None.

(** The child of a session that holds the figures locked at creation. *)
Definition lockedKey : string := "encryptedTransaction".

(** [st'] keeps every session of [st], each with the locked child it had. *)
Definition keepsLocked (st st' : State) : Prop :=
  forall sessionId session,
    transactions st !! sessionId = Some session ->
    exists session',
      transactions st' !! sessionId = Some session' /\
      session' !! lockedKey = session !! lockedKey.

(** A field of a stored session. *)
Definition child (st : State) (sessionId key : string) : option value :=
  match transactions st !! sessionId with
  | Some session => session !! key
  | None => None
  end.

(** ** Sample inputs *)

Module Samples.

Definition listing (price quantity : string) (orders : Z) (finishRate : Q)
    (nick : string) : value :=
  VObj [("adv", VObj [("price", VStr price); ("surplusAmount", VStr quantity)]);
        ("advertiser",
         VObj [("monthOrderCount", VNum (int orders));
               ("monthFinishRate", VNum (Fin finishRate));
               ("nickName", VStr nick); ("userNo", VStr ("u-" ++ nick))])].

Definition orderBook (items : list value) : value :=
  VObj [("code", VStr "000000"); ("data", VArr items)].

Definition book : value :=
  orderBook [ listing "91.20" "800.00" 420 (97 # 100) "amit";
              listing "89.95" "1500.00" 350 (98 # 100) "ravi";
              listing "90.10" "650.50" 1200 (99 # 100) "neha";
              listing "88.00" "50.00" 9 (60 # 100) "anon" ].


Definition spotUp : HttpEvent :=
  Response 200 (Some (VObj [("symbol", VStr "USDTINR"); ("price", VStr "90.52")])).

Definition spotUnbounded : HttpEvent :=
  Response 200 (Some (VObj [("symbol", VStr "USDTINR"); ("price", VStr "Infinity")])).

Definition referenceUp : HttpEvent :=
  Response 200
    (Some (VObj [("tether", VObj [("inr", VNum (dec 901 10)); ("ngn", VNum (dec 16555 10))])])).

Definition referenceDown : HttpEvent := NetworkError "ECONNRESET".

Definition feedsUp : Feeds :=
  mkFeeds spotUp referenceUp (fun _ => Response 200 (Some book)).

Definition feedsReferenceDown : Feeds :=
  mkFeeds spotUp referenceDown (fun _ => Response 200 (Some book)).

Definition fresh : State := mkState ∅ metrics0 ∅ ∅.

Definition fresh002 : Part002.State :=
  Part002.mkState ∅ (Part002.mkMetrics 0 0 0 0 0).

(** [config] with the two secrets set, as a deployment sets them. *)
Definition deployed : Conf.Config :=
  {| Conf.maxRetries := Conf.maxRetries config;
     Conf.ttl := Conf.ttl config;
     Conf.pricing := Conf.pricing config;
     Conf.tiers := Conf.tiers config;
     Conf.filters := Conf.filters config;
     Conf.adminApiKey := "admin-key-for-the-examples";
     Conf.encryptionKey := "session-key-for-the-examples";
     Conf.sessionTTL := Conf.sessionTTL config;
     Conf.fallbackNgnRate := Conf.fallbackNgnRate config;
     Conf.limits := Conf.limits config |}.

(** A stand-in for the cipher: it writes the object out in clear. *)
Fixpoint writeOut (v : value) : string :=
  match v with
  | VUndef => "undefined"
  | VNull => "null"
  | VBool true => "true"
  | VBool false => "false"
  | VNum n => Builtins.numToString n
  | VStr s => s
  | VArr items => "[" ++ String.concat "," (map writeOut items) ++ "]"
  | VObj fields =>
      "{" ++ String.concat ","
               (map (fun kv => fst kv ++ ":" ++ writeOut (snd kv)) fields) ++ "}"
  end.

Definition encryptData (v : value) : string := "sealed:" ++ writeOut v.

(** A stand-in for the decipherment, which no example looks into. *)
Definition decryptData (cipher : string) : outcome value := Return (VStr cipher).

(** A store that answers the address query with the sessions of that
    address, five at most. *)
Definition lastByIp (sessions : gmap string Session) (address : string) : list Session :=
  take 5 (List.filter
            (fun s => match s !! "ipAddress" with
                      | Some (VStr a) => String.eqb a address
                      | _ => false
                      end)
            (map snd (map_to_list sessions))).

Definition request (amount : value) : ConvertRequest :=
  mkConvertRequest amount (VStr "NGN") (VStr "INR") (VStr "Chidi") VUndef VUndef
    VUndef (VStr "upi") "203.0.113.7" (VStr "curl/8").

Definition answers (feeds : Feeds) : ConvertIo :=
  mkConvertIo [] "6f1c2a9e-session" (1 # 2) (1 # 2) feeds "2025-01-15" None
    (mkIo 1736900000000 None).

Definition post : ConvertRequest -> ConvertIo -> State -> ConvertReply * State :=
  convert Builtins.parseFloat Builtins.parseInt deployed encryptData
    Builtins.stripNonNumeric Builtins.toFixed Builtins.numToString
    Builtins.emailPattern Builtins.phonePattern lastByIp.

(** A delivery of the gateway's [charge.success] event for a session. *)
Definition chargeSuccess (sessionId : string) : WebhookEvent :=
  mkWebhookEvent (VStr "charge.success") (VStr "HP-ref-1") sessionId (int 100000)
    (VNum (int 1736900060000)) (VStr "card").

End Samples.

(** ** Further functions of the session-enabled server

    The log sanitiser, the latency bookkeeping of [httpRequest], the waits
    of [retryableRequest], the removal of expired sessions, and the routes
    that control the cache. *)

(** *** The log sanitiser *)

Definition sensitiveFields : list string :=
  ["accountNumber"; "phone"; "email"; "bankAccount"; "upiId"; "password"].

(** [s.slice(0, n)] and [s.slice(-n)]; a character of the model stands for
    one code unit of the string. *)
Definition sliceFirst (n : nat) (s : string) : string :=
  string_of_list_ascii (take n (list_ascii_of_string s)).

Definition sliceLast (n : nat) (s : string) : string :=
  let chars := list_ascii_of_string s in
  string_of_list_ascii (drop (length chars - n) chars).

Definition mask (s : string) : string :=
  if Nat.ltb 6 (String.length s) then sliceFirst 3 s ++ "***" ++ sliceLast 3 s
  else "***".

(** [object[k] = v] on an object literal: the value of an existing key is
    replaced where it stands, a new key goes last. *)
Fixpoint setField (k : string) (v : value) (fields : list (string * value))
  : list (string * value) :=
  match fields with
  | [] => [(k, v)]
  | (k', v') :: rest =>
      if String.eqb k k' then (k, v) :: rest else (k', v') :: setField k v rest
  end.

Section Sanitiser.

(** The conversion of a number to a string, a built-in. *)
Variable numToString : num -> string.

(** [String(v)]: an array prints its elements between commas, [null] and
    [undefined] among them as nothing; an object literal prints as
    "[object Object]". *)
Fixpoint stringOf (v : value) : string :=
  match v with
  | VUndef => "undefined"
  | VNull => "null"
  | VBool true => "true"
  | VBool false => "false"
  | VNum n => numToString n
  | VStr s => s
  | VArr items =>
      String.concat ","
        (map (fun item => match item with
                          | VUndef | VNull => ""
                          | _ => stringOf item
                          end) items)
  | VObj _ => "[object Object]"
  end.

(** One turn of the [forEach] over the sensitive fields. *)
Definition maskField (fields : list (string * value)) (field : string)
  : list (string * value) :=
  let current := assoc field fields in
  if truthy current then setField field (VStr (mask (stringOf current))) fields
  else fields.

(** [sanitizeForLog]: anything falsy or not an object is returned as it
    is; the spread of an array copies its elements under their indices. *)
Definition sanitizeForLog (data : value) : value :=
  match data with
  | VObj fields => VObj (fold_left maskField sensitiveFields fields)
  | VArr items => VObj (imap (fun i item => (pretty i, item)) items)
  | other => other
  end.

End Sanitiser.

(** *** Latency bookkeeping of [httpRequest]

    The counters of one upstream API in [metrics.api]: the handler of the
    end of a response counts the call and folds its latency into the
    running average; the handlers of a socket error and of the timeout
    count a failure. *)

Record ApiMetrics : Type := mkApiMetrics {
  calls : Z;
  failures : Z;
  avgLatency : num
}.

Definition apiMetrics0 : ApiMetrics := mkApiMetrics 0 0 (int 0).

Definition recordResponse (latency : Z) (m : ApiMetrics) : ApiMetrics :=
  let calls := (calls m + 1)%Z in
  let current := avgLatency m in
  let total := int calls in
  mkApiMetrics calls (failures m)
    ((current * (total - int 1) + int latency) / total)%num.

Definition recordFailure (m : ApiMetrics) : ApiMetrics :=
  mkApiMetrics (calls m) (failures m + 1) (avgLatency m).

(** What happens to one request, as far as the counters go. *)
Inductive ApiEvent : Type :=
| Answered (latency : Z)
| Failed.

Definition recordEvent (m : ApiMetrics) (ev : ApiEvent) : ApiMetrics :=
  match ev with
  | Answered latency => recordResponse latency m
  | Failed => recordFailure m
  end.

(** *** The waits of [retryableRequest]

    After a failed attempt [i] that is not the last one, the loop sleeps
    [delay * Math.pow(2, i)] milliseconds. *)

Fixpoint retrySleeps (requestFn : nat -> outcome value) (delay : Z)
    (i remaining : nat) : list Z :=
  match remaining with
  | O => []
  | S rest =>
      match requestFn i with
      | Return _ => []
      | Throw _ =>
          match rest with
          | O => []
          | S _ => (delay * 2 ^ Z.of_nat i)%Z :: retrySleeps requestFn delay (S i) rest
          end
      end
  end.

(** *** Removal of expired sessions *)

Section Cleanup.

(** The store's answer to [orderByChild('expiresAt').endAt(now)] on the
    sessions. *)
Variable dueBy : gmap string Session -> Z -> gmap string Session.

(** [cleanupExpiredSessions]: the number of sessions removed; any failure
    of the store is caught and gives 0.  Writing [null] at the path of a
    session removes it. *)
Definition cleanupExpiredSessions (readError : option JsError) (io : Io) (st : State)
  : Z * State :=
  match readError with
  | Some _ => (0, st)
  | None =>
      let expiredSessions := dueBy (transactions st) (now io) in
      if decide (expiredSessions = ∅) then (0, st)
      else
        match writeError io with
        | Some _ => (0, st)
        | None =>
            (Z.of_nat (size expiredSessions),
             withTransactions (transactions st ∖ expiredSessions) st)
        end
  end.

End Cleanup.

(** *** Routes that control the cache *)

Section CacheRoutes.

Variable parseFloat : value -> num.
Variable parseInt : value -> num.
Variable cfg : Conf.Config.

(** GET /ready: a fresh aggregation, the cache bypassed; the failure is
    answered here, not by the error handler. *)
Definition ready (time : Z) (feeds : Feeds) (st : State) : Reply * State :=
  match getMarketData parseFloat parseInt cfg false time feeds st with
  | (Return _, st) => (Sent 200, st)
  | (Throw _, st) => (Sent 503, st)
  end.

(** POST /api/admin/cache/clear: [cache.flushAll()] behind the admin key. *)
Definition adminCacheClear (headerKey queryKey : value) (st : State) : Reply * State :=
  match validateAdminAuth cfg headerKey queryKey with
  | Throw e => errorHandler e st
  | Return _ => (Sent 200, withCache ∅ st)
  end.

End CacheRoutes.

(** ** The arithmetic in binary64

    [num] carries a finite number as an exact rational, so a theorem
    stated with it speaks of the formulas of the code evaluated without
    rounding or overflow.  The code evaluates them in binary64, each
    operation rounded to the nearest representable number.  This module
    embeds the arithmetic of the fee calculator and of the weighted
    average on binary64 numbers themselves, operation for operation, to
    show what the code returns where the two evaluations part. *)

Module B64.

#[local] Set Warnings "-inexact-float".
#[local] Open Scope float_scope.

Record Tier : Type := mkTier {
  max : float;
  percent : float
}.

(** [config.fees.tiers]. *)
Definition feeTiers : list Tier :=
  [ mkTier 10000 2.5;
    mkTier 50000 2.0;
    mkTier 100000 1.5;
    mkTier 500000 1.0;
    mkTier infinity 0.75 ].

Record Fees : Type := mkFees {
  feePercent : float;
  feeAmount : float;
  netAmount : float
}.

Fixpoint firstTier (amount : float) (tiers : list Tier) : option Tier :=
  match tiers with
  | [] => None
  | tier :: rest => if amount <=? max tier then Some tier else firstTier amount rest
  end.

Definition feesAt (amount : float) (tier : Tier) : Fees :=
  let feeAmount := (amount * percent tier) / 100 in
  mkFees (percent tier) feeAmount (amount - feeAmount).

Definition calculateFees (tiers : list Tier) (amount : float) : outcome Fees :=
  match firstTier amount tiers with
  | Some tier => Return (feesAt amount tier)
  | None =>
      match last tiers with
      | Some lastTier => Return (feesAt amount lastTier)
      | None =>
          Throw (mkError TypeError
                   (Text "Cannot read properties of undefined (reading 'percent')")
                   None NoDetails)
      end
  end.

(** The two numbers of a ranked ad that the averages read. *)
Record Ad : Type := mkAd {
  price : float;
  qty : float
}.

(** [reduce((sum, a) => sum + f(a), 0)]. *)
Definition sumOver (f : Ad -> float) (ads : list Ad) : float :=
  fold_left (fun sum a => sum + f a) ads 0.

(** [weightedAvg] of [analyzeP2P]. *)
Definition weightedAvg (top5 : list Ad) : float :=
  let totalWeight := sumOver qty top5 in
  sumOver (fun a => price a * qty a / totalWeight) top5.

(** [baseCostPerInr] of the pricing engines, [ngnRate / lowestInrRate],
    and [savingsVsMin] of a quoted rate,
    [config.pricing.localRateMin - finalRate]. *)
Definition baseCostPerInr (lowestInrRate ngnRate : float) : float :=
  ngnRate / lowestInrRate.

Definition localRateMin : float := 16.2.

Definition savingsVsMin (finalRate : float) : float := localRateMin - finalRate.

(** [ngnRate + config.pricing.ngnMarkup] of the aggregator. *)
Definition withMarkup (ngnRate : float) : float := ngnRate + 20.

(** The rational a finite binary64 number stands for. *)
Definition exact (x : float) : option Q :=
  match Prim2SF x with
  | S754_zero _ => Some 0%Q
  | S754_finite negative m e =>
      let magnitude :=
        if (0 <=? e)%Z then inject_Z (Z.pos m * 2 ^ e)
        else (Z.pos m # Pos.pow 2 (Z.to_pos (- e)))%Q in
      Some (if negative then (- magnitude)%Q else magnitude)
  | _ => None
  end.

End B64.

(** ** The store's paths

    [db.ref("transactions/" + id)] addresses a node of the store's tree by
    a path, and "/" separates the segments of a path.  For an identifier
    that is a single segment the node is the record of that session, which
    is what [dbSet], [dbUpdate] and the reads of the model take it to be.
    An identifier with further segments addresses a node inside a session:
    this module writes out [update] on the tree itself, for the requests
    that hand it an identifier they did not issue. *)

Module Firebase.

(** The pieces of a path between its slashes. *)
Fixpoint pieces (chars current : list ascii) : list (list ascii) :=
  match chars with
  | [] => [rev current]
  | c :: rest =>
      if Ascii.eqb c "/" then rev current :: pieces rest []
      else pieces rest (c :: current)
  end.

(** The segments of a path: its pieces that are not empty. *)
Definition segments (path : string) : list string :=
  List.filter (fun s => negb (String.eqb s ""))
    (map string_of_list_ascii (pieces (list_ascii_of_string path) [])).

(** An identifier that is one segment: not empty, and without a slash. *)
Definition isKey (id : string) : bool :=
  negb (String.eqb id "")
  && negb (existsb (fun c => Ascii.eqb c "/") (list_ascii_of_string id)).

(** The children of a node; a node that is not an object has none. *)
Definition children (node : value) : list (string * value) :=
  match node with VObj fields => fields | _ => [] end.

(** The node at a path below [node]; [undefined] where there is none. *)
Definition nodeAt (path : list string) (node : value) : value :=
  fold_left (fun n segment => assoc segment (children n)) path node.

(** [update] at a path below [node]: at the end of the path the given
    children replace those of the same key and the others stay; on the
    way there each node gets its updated child.  A node that was not an
    object becomes one, so a string that stood there is gone. *)
Fixpoint updateBelow (path : list string) (updates : list (string * value))
    (node : value) : value :=
  match path with
  | [] =>
      VObj (fold_left (fun fields entry => setField (fst entry) (snd entry) fields)
              updates (children node))
  | segment :: rest =>
      VObj (setField segment
              (updateBelow rest updates (assoc segment (children node)))
              (children node))
  end.

(** [db.ref("transactions/" + id).update(updates)] and
    [db.ref("transactions/" + id).once("value")], on the node
    [transactions]. *)
Definition update (id : string) (updates : list (string * value))
    (transactions : value) : value :=
  updateBelow (segments id) updates transactions.

Definition read (id : string) (transactions : value) : value :=
  nodeAt (segments id) transactions.

(** The tree of a map of records. *)
Definition treeOf (records : gmap string Session) : value :=
  VObj (map (fun entry => (fst entry, VObj (map_to_list (snd entry))))
          (map_to_list records)).

(** [tree] holds the records of [records]: every child of every session
    reads the same in both. *)
Definition represents (tree : value) (records : gmap string Session) : Prop :=
  forall id k,
    assoc k (children (assoc id (children tree)))
    = default VUndef (records !! id ≫= (.!! k)).

End Firebase.

(** [update] with the answer of the store, on the tree. *)
Definition dbUpdateOnTree (sessionId : string) (updates : list (string * value))
    (io : Io) (transactions : value) : outcome unit * value :=
  match writeError io with
  | Some e => (Throw e, transactions)
  | None => (Return tt, Firebase.update sessionId updates transactions)
  end.

(** POST /api/payment/verify-manual on the tree of the store: the route
    hands the [sessionId] of the request body to [db.ref] as it is. *)
Definition verifyManualOnTree (reference sessionId : string)
    (gateway : outcome Verification) (io : Io) (transactions : value)
  : Reply * value :=
  if String.eqb reference "" then (Sent 400, transactions)
  else
    match gateway with
    | Throw _ => (Sent 500, transactions)
    | Return tx =>
        if negb (responseOk tx) then (Sent 400, transactions)
        else if isStr "success" (txStatus tx) && negb (String.eqb sessionId "") then
          let updates :=
            [("status", VStr "completed");
             ("paystackReference", VStr reference);
             ("paidAmount", VNum (txAmount tx / int 100)%num);
             ("paidAt", VNum (int (now io)));
             ("paymentChannel", txChannel tx);
             ("verifiedAt", VNum (int (now io)))] in
          match dbUpdateOnTree sessionId updates io transactions with
          | (Throw _, transactions) => (Sent 500, transactions)
          | (Return _, transactions) => (Sent 200, transactions)
          end
        else if negb (String.eqb sessionId "") then
          let updates :=
            [("status", VStr "failed");
             ("failureReason", gatewayResponse tx);
             ("failedAt", VNum (int (now io)))] in
          match dbUpdateOnTree sessionId updates io transactions with
          | (Throw _, transactions) => (Sent 500, transactions)
          | (Return _, transactions) => (Sent 200, transactions)
          end
        else (Sent 200, transactions)
    end.

(** The identifier a status-moving request hands to the store is a single
    key, or the request names no session (the administrative route always
    names one). *)
Definition keyed (request : StatusRequest) : bool :=
  let plain id := String.eqb id "" || Firebase.isKey id in
  match request with
  | PaymentInitialize sessionId => plain sessionId
  | VerifyManual _ sessionId _ => plain sessionId
  | PaymentVerify _ sessionId => plain sessionId
  | PaystackWebhook _ event => plain (metadataSessionId event)
  | AdminSetStatus _ _ sessionId _ _ _ _ => Firebase.isKey sessionId
  end.

(** ** Further sample inputs *)

Module Sealed.

(** A decipherment for the examples: it opens what [Samples.encryptData]
    made of the objects it is told about, and fails on anything else. *)
Definition decryptData (known : list value) (cipher : string) : outcome value :=
  match List.find (fun v => String.eqb (Samples.encryptData v) cipher) known with
  | Some v => Return v
  | None => Throw (newError (Text "Data decryption failed"))
  end.

Definition customer : UserDetails :=
  mkUserDetails (VStr "Chidi") (VStr "chidi@example.com") VNull VNull (VStr "upi").

(** A customer known by a phone number only. *)
Definition caller : UserDetails :=
  mkUserDetails (VStr "Ngozi") VNull (VStr "08031234567") VNull (VStr "upi").

Definition order : TransactionData :=
  mkTransactionData (VNum (int 100000)) (VStr "NGN") (VStr "INR")
    "N15.92 per INR 1" "INR 6124.37" "2.5% (INR 157.04)"
    (VStr "203.0.113.7") (VStr "curl/8").

Definition known : list value := [userDetailsJson customer; lockedFields order].

(** The clock of the creation, and a store that accepts the write. *)
Definition atCreation : Io := mkIo 1736900000000 None.

Definition create : outcome (string * Z) * State :=
  createTransactionSession Builtins.parseFloat Samples.deployed Samples.encryptData
    Builtins.stripNonNumeric "6f1c2a9e-session" order customer atCreation Samples.fresh.

End Sealed.

(** ** Further vocabulary *)

(** The three request counters of the metrics. *)
Definition requestsOf (m : Metrics) : Z * Z * Z :=
  (requests_total m, requests_success m, requests_errors m).

(** The four session counters. *)
Definition sessionsOf (m : Metrics) : Z * Z * Z * Z :=
  (transactions_total m, transactions_pending m, transactions_completed m,
   transactions_failed m).

(** A string made of decimal digits only. *)
Definition digitsOnly (s : string) : Prop :=
  Forall (fun c => Builtins.isDigit c = true) (list_ascii_of_string s).

(** The latencies of the answered requests of a trace, in order. *)
Definition answeredLatencies (trace : list ApiEvent) : list Z :=
  omap (fun ev => match ev with Answered latency => Some latency | Failed => None end)
    trace.

Definition total (xs : list Z) : Z := fold_right Z.add 0 xs.

(** What the properties of the cleanup ask of the store's query by expiry
    time: it answers with sessions of the store, and a session whose
    [expiresAt] is a number is in the answer exactly when that number is
    not after the bound. *)
Definition answersByExpiry (dueBy : gmap string Session -> Z -> gmap string Session)
    (sessions : gmap string Session) (bound : Z) : Prop :=
  dueBy sessions bound ⊆ sessions /\
  forall id s x,
    sessions !! id = Some s -> s !! "expiresAt" = Some (VNum (int x)) ->
    (dueBy sessions bound !! id = Some s <-> (x <= bound)%Z).

(** A store for the examples: it answers the query by expiry time with the
    sessions whose [expiresAt] is a number not after the bound. *)
Definition expiresBy (bound : Z) (s : Session) : bool :=
  match s !! "expiresAt" with
  | Some (VNum x) => (x <=? int bound)%num
  | _ => false
  end.

Definition dueBySample (sessions : gmap string Session) (bound : Z)
  : gmap string Session :=
  filter (fun entry => expiresBy bound (snd entry) = true) sessions.

(** The children of a session that the status-moving requests write. *)
Definition paymentFields : list string :=
  ["status"; "updatedAt"; "paystackReference"; "paystackInitializedAt"; "paidAmount";
   "paidAt"; "paymentChannel"; "verifiedAt"; "failureReason"; "failedAt";
   "webhookReceivedAt"; "paymentProof"; "notes"; "updatedBy"].

(** [st'] keeps every session of [st], each with every child it had
    outside [keys]. *)
Definition keepsOutside (keys : list string) (st st' : State) : Prop :=
  forall sessionId session,
    transactions st !! sessionId = Some session ->
    exists session',
      transactions st' !! sessionId = Some session' /\
      forall k, ~ In k keys -> session' !! k = session !! k.

(** The session counters balance when every session counted is counted
    once as pending, completed or failed. *)
Definition balanced (m : Metrics) : Prop :=
  transactions_total m
  = (transactions_pending m + transactions_completed m + transactions_failed m)%Z.

(** The object POST /api/convert seals under [encryptedTransaction], written
    with the request and the response it was answered with. *)
Definition quotedFields (toFixed : num -> nat -> string)
    (req : ConvertRequest) (response : ConvertResponse) : value :=
  VObj [("amount", bodyAmount req); ("from", bodyFrom req); ("to", bodyTo req);
        ("exchangeRate", VStr (offerExchangeRate response));
        ("youGet", VStr ("₹" ++ toFixed (netAmount (feesOf response)) 2%nat ++ " INR"));
        ("feeCharged", VStr (offerFeeCharged response))].

(** * Properties *)

(** ** Numbers *)

Lemma Qltb_lt (a b : Q) : Qltb a b = true <-> (a < b)%Q.
Proof.
  unfold Qltb. rewrite negb_true_iff. split; intros H.
  - destruct (Qlt_le_dec a b) as [Hlt | Hle]; [exact Hlt |].
    apply Qle_bool_iff in Hle. congruence.
  - destruct (Qle_bool b a) eqn:E; [| reflexivity].
    apply Qle_bool_iff in E. lra.
Qed.

Lemma Qltb_ge (a b : Q) : Qltb a b = false <-> (b <= a)%Q.
Proof.
  unfold Qltb. rewrite negb_false_iff. apply Qle_bool_iff.
Qed.

Lemma Qle_bool_gt (a b : Q) : Qle_bool a b = false <-> (b < a)%Q.
Proof.
  rewrite <- Qltb_lt. unfold Qltb. rewrite negb_true_iff. reflexivity.
Qed.

Lemma Qeq_bool_neq_iff (a b : Q) : Qeq_bool a b = false <-> ~ (a == b)%Q.
Proof.
  split; intros H.
  - intros E. apply Qeq_bool_iff in E. congruence.
  - destruct (Qeq_bool a b) eqn:E; [| reflexivity].
    apply Qeq_bool_iff in E. contradiction.
Qed.

(** Turns the boolean tests on rationals in the context and the goal into
    (in)equalities that [lra] reads. *)
Ltac qtests :=
  repeat match goal with
  | H : Qle_bool _ _ = true |- _ => apply Qle_bool_iff in H
  | H : Qle_bool _ _ = false |- _ => apply Qle_bool_gt in H
  | H : Qltb _ _ = true |- _ => apply Qltb_lt in H
  | H : Qltb _ _ = false |- _ => apply Qltb_ge in H
  | H : Qeq_bool _ _ = true |- _ => apply Qeq_bool_iff in H
  | H : Qeq_bool _ _ = false |- _ => apply Qeq_bool_neq_iff in H
  | |- Qle_bool _ _ = true => apply Qle_bool_iff
  | |- Qle_bool _ _ = false => apply Qle_bool_gt
  | |- Qltb _ _ = true => apply Qltb_lt
  | |- Qltb _ _ = false => apply Qltb_ge
  | |- Qeq_bool _ _ = true => apply Qeq_bool_iff
  | |- Qeq_bool _ _ = false => apply Qeq_bool_neq_iff
  end.

Lemma le_trans (x y z : num) :
  (x <=? y)%num = true -> (y <=? z)%num = true -> (x <=? z)%num = true.
Proof.
  destruct x, y, z; simpl; intros H1 H2; try congruence; try reflexivity.
  qtests. lra.
Qed.

Lemma le_not_NaN_l (x y : num) : (x <=? y)%num = true -> isNaN x = false.
Proof. destruct x, y; simpl; congruence. Qed.

(** ** Fee calculator *)

Lemma firstTier_split (amount : num) (tiers : list Conf.Tier) (tier : Conf.Tier) :
  firstTier amount tiers = Some tier ->
  exists before after,
    tiers = (before ++ tier :: after)%list /\
    Forall (fun t => (amount <=? Conf.max t)%num = false) before /\
    (amount <=? Conf.max tier)%num = true.
Proof.
  induction tiers as [| t rest IH]; simpl; [discriminate |].
  destruct (amount <=? Conf.max t)%num eqn:E.
  - intros [= <-]. exists [], rest. repeat split; [constructor | exact E].
  - intros H. destruct (IH H) as (before & after & -> & Hb & Ht).
    exists (t :: before), after. repeat split; [constructor; assumption | exact Ht].
Qed.



Lemma calculateFees_chosen (tiers : list Conf.Tier) (amount : num) (fees : Fees) :
  calculateFees tiers amount = Return fees <->
  exists tier, chosenTier amount tiers = Some tier /\ fees = feesAt amount tier.
Proof.
  unfold calculateFees, chosenTier.
  destruct (firstTier amount tiers) as [t |].
  - split; [intros [= <-]; eauto | intros (t' & [= <-] & ->); reflexivity].
  - destruct (last tiers) as [t |].
    + split; [intros [= <-]; eauto | intros (t' & [= <-] & ->); reflexivity].
    + split; [discriminate | intros (t' & [=] & _)].
Qed.

Lemma firstTier_elem (amount : num) (tiers : list Conf.Tier) (tier : Conf.Tier) :
  firstTier amount tiers = Some tier -> In tier tiers.
Proof.
  induction tiers as [| t rest IH]; simpl; [discriminate |].
  destruct (amount <=? Conf.max t)%num; [intros [= <-]; now left | right; auto].
Qed.

Lemma last_elem (tiers : list Conf.Tier) (tier : Conf.Tier) :
  last tiers = Some tier -> In tier tiers.
Proof.
  induction tiers as [| t rest IH]; simpl; [discriminate |].
  destruct rest as [| u rest']; [intros [= <-]; now left | right; auto].
Qed.

Lemma chosenTier_elem (amount : num) (tiers : list Conf.Tier) (tier : Conf.Tier) :
  chosenTier amount tiers = Some tier -> In tier tiers.
Proof.
  unfold chosenTier. destruct (firstTier amount tiers) eqn:E.
  - intros [= <-]. eapply firstTier_elem; eassumption.
  - apply last_elem.
Qed.

Lemma chosenTier_monotone (tiers : list Conf.Tier) (a b : num) (ta tb : Conf.Tier) :
  graded tiers ->
  (a <=? b)%num = true ->
  chosenTier a tiers = Some ta ->
  chosenTier b tiers = Some tb ->
  (Conf.percent tb <=? Conf.percent ta)%num = true.
Proof.
  intros Hg Hab. revert Hg.
  induction tiers as [| t rest IH]; intros Hg Ha Hb.
  - discriminate.
  - destruct Hg as [Hall Hg]. inversion Hall as [| ? ? Ht Hrest]; subst.
    assert (Hin : forall x u, chosenTier x (t :: rest) = Some u ->
                              (Conf.percent u <=? Conf.percent t)%num = true).
    { intros x u Hu. apply chosenTier_elem in Hu. destruct Hu as [<- | Hu]; [exact Ht |].
      rewrite Forall_forall in Hrest. apply Hrest. apply list_elem_of_In. exact Hu. }
    unfold chosenTier in Ha, Hb. simpl firstTier in Ha, Hb.
    destruct (a <=? Conf.max t)%num eqn:Ea.
    + injection Ha as <-. apply (Hin b). unfold chosenTier. simpl firstTier. exact Hb.
    + destruct (b <=? Conf.max t)%num eqn:Eb.
      { rewrite (le_trans a b _ Hab Eb) in Ea. discriminate. }
      destruct rest as [| u rest'].
      * simpl in Ha, Hb. injection Ha as <-. injection Hb as <-. exact Ht.
      * apply IH; assumption.
Qed.

Lemma div_Fin (a b : Q) : ~ (b == 0)%Q -> (Fin a / Fin b)%num = Fin (a / b).
Proof.
  intros Hb. unfold JS.div. apply Qeq_bool_neq_iff in Hb. rewrite Hb. reflexivity.
Qed.

Lemma div_100 (a : Q) : (Fin a / int 100)%num = Fin (a / inject_Z 100).
Proof. apply div_Fin. discriminate. Qed.

Lemma feeTiers_graded : graded feeTiers.
Proof. vm_compute. repeat constructor. Qed.

Lemma feeTiers_percent (tier : Conf.Tier) :
  In tier feeTiers -> exists p, Conf.percent tier = Fin p.
Proof.
  intros H. repeat (destruct H as [<- | H]; [eexists; reflexivity |]). destruct H.
Qed.

Lemma firstTier_unbounded (amount : num) (tiers : list Conf.Tier) :
  isNaN amount = false ->
  Exists (fun t => Conf.max t = PInf) tiers ->
  exists tier, firstTier amount tiers = Some tier.
Proof.
  intros Hn. induction 1 as [t rest Ht | t rest _ IH]; simpl.
  - rewrite Ht. destruct amount; try discriminate; simpl; eauto.
  - destruct (amount <=? Conf.max t)%num; eauto.
Qed.

Lemma schedulePercent_firstTier (q : Q) (tier : Conf.Tier) :
  firstTier (Fin q) feeTiers = Some tier -> Conf.percent tier = schedulePercent q.
Proof.
  unfold feeTiers, schedulePercent, firstTier, JS.le, Conf.max, int.
  change (inject_Z 10000) with (10000 : Q).
  change (inject_Z 50000) with (50000 : Q).
  change (inject_Z 100000) with (100000 : Q).
  change (inject_Z 500000) with (500000 : Q).
  repeat match goal with
  | |- context [Qle_bool ?a ?b] => destruct (Qle_bool a b)
  end; intros [= <-]; reflexivity.
Qed.

(** C5, as amended.  For every finite non-negative amount the fee
    calculator returns; it uses the first tier of the configured table
    whose [max] is at least the amount, the comparison being inclusive (so
    the published schedule applies, with 10000 in the 2.5% bracket); the
    fee is [amount * percent / 100], the net amount is [amount - fee],
    and, these being evaluated exactly, net amount plus fee is the amount
    again.  The tier is chosen by comparisons alone; the last equality is
    one of exact arithmetic, which binary64 keeps only up to rounding. *)
Theorem calculateFees_first_tier_inclusive (q : Q) :
  (0 <= q)%Q ->
  exists before tier after fees,
    Conf.tiers config = (before ++ tier :: after)%list /\
    Forall (fun t => (Fin q <=? Conf.max t)%num = false) before /\
    (Fin q <=? Conf.max tier)%num = true /\
    calculateFees (Conf.tiers config) (Fin q) = Return fees /\
    feePercent fees = Conf.percent tier /\
    feePercent fees = schedulePercent q /\
    feeAmount fees = (Fin q * Conf.percent tier / int 100)%num /\
    netAmount fees = (Fin q - feeAmount fees)%num /\
    JS.eqb (netAmount fees + feeAmount fees)%num (Fin q) = true.
Proof.
  intros _. change (Conf.tiers config) with feeTiers.
  destruct (firstTier_unbounded (Fin q) feeTiers eq_refl) as [tier Htier].
  { unfold feeTiers. do 4 apply Exists_cons_tl. apply Exists_cons_hd. reflexivity. }
  destruct (firstTier_split _ _ _ Htier) as (before & after & Hsplit & Hbefore & Hle).
  exists before, tier, after, (feesAt (Fin q) tier).
  repeat split; try assumption.
  - unfold calculateFees. rewrite Htier. reflexivity.
  - apply schedulePercent_firstTier. exact Htier.
  - destruct (feeTiers_percent tier (firstTier_elem _ _ _ Htier)) as [p Hp].
    unfold feesAt. simpl netAmount. simpl feeAmount. rewrite Hp.
    change (Fin q * Fin p)%num with (Fin (q * p)). rewrite div_100.
    simpl. qtests. field.
Qed.

Lemma calculateFees_first_tier_inclusive_witness :
  exists before tier after fees,
    Conf.tiers config = (before ++ tier :: after)%list /\
    Forall (fun t => (Fin 10000 <=? Conf.max t)%num = false) before /\
    (Fin 10000 <=? Conf.max tier)%num = true /\
    calculateFees (Conf.tiers config) (Fin 10000) = Return fees /\
    feePercent fees = Conf.percent tier /\
    feePercent fees = schedulePercent 10000 /\
    feeAmount fees = (Fin 10000 * Conf.percent tier / int 100)%num /\
    netAmount fees = (Fin 10000 - feeAmount fees)%num /\
    JS.eqb (netAmount fees + feeAmount fees)%num (Fin 10000) = true.
Proof. apply (calculateFees_first_tier_inclusive 10000). discriminate. Defined.

(** At the boundary of the first tier the lower tier's percentage applies. *)
Example calculateFees_at_10000 :
  calculateFees (Conf.tiers config) (int 10000)
  = Return (mkFees (dec 25 10) (Fin (10000 * (25 # 10) / 100)) (Fin (10000 + - (10000 * (25 # 10) / 100)))).
Proof. reflexivity. Qed.

Lemma calculateFees_returns (tiers : list Conf.Tier) (amount : num) :
  tiers <> [] -> exists tier, calculateFees tiers amount = Return (feesAt amount tier)
                              /\ chosenTier amount tiers = Some tier.
Proof.
  intros Hne. unfold calculateFees, chosenTier.
  destruct (firstTier amount tiers) as [t |]; [eauto |].
  destruct (last tiers) as [t |] eqn:E; [eauto |].
  apply last_None in E. contradiction.
Qed.

Lemma calculateFees_percent_monotone (tiers : list Conf.Tier) (a b : num) :
  tiers <> [] -> graded tiers -> (a <=? b)%num = true ->
  exists fa fb,
    calculateFees tiers a = Return fa /\
    calculateFees tiers b = Return fb /\
    (feePercent fb <=? feePercent fa)%num = true.
Proof.
  intros Hne Hg Hab.
  destruct (calculateFees_returns tiers a Hne) as (ta & Ha & Hta).
  destruct (calculateFees_returns tiers b Hne) as (tb & Hb & Htb).
  exists (feesAt a ta), (feesAt b tb). repeat split; try assumption.
  simpl. eapply chosenTier_monotone; eassumption.
Qed.

(** C10.  Under the configured table, whose last tier has [max = Infinity],
    the fee percentage never rises with the amount: for amounts
    [0 <= a <= b] the calculator returns for both and the percentage
    applied to [b] is at most the one applied to [a]. *)
Theorem fee_percent_nonincreasing (a b : num) :
  (int 0 <=? a)%num = true ->
  (a <=? b)%num = true ->
  exists fa fb,
    calculateFees (Conf.tiers config) a = Return fa /\
    calculateFees (Conf.tiers config) b = Return fb /\
    (feePercent fb <=? feePercent fa)%num = true.
Proof.
  intros _ Hab. apply calculateFees_percent_monotone.
  - discriminate.
  - exact feeTiers_graded.
  - exact Hab.
Qed.

Lemma fee_percent_nonincreasing_witness :
  exists fa fb,
    calculateFees (Conf.tiers config) (int 10000) = Return fa /\
    calculateFees (Conf.tiers config) (int 10001) = Return fb /\
    (feePercent fb <=? feePercent fa)%num = true.
Proof. apply (fee_percent_nonincreasing (int 10000) (int 10001)); reflexivity. Defined.

(** The earlier server's table, whose last threshold reads as zero, gives
    every amount the same fees: its last tier is reached by the
    fall-through after the loop. *)
Lemma Part002_fees_agree (amount : num) :
  calculateFees Part002.feeTiers amount = calculateFees feeTiers amount.
Proof.
  unfold calculateFees, Part002.feeTiers, feeTiers, firstTier, Conf.max, last.
  destruct amount as [| | | q]; try reflexivity.
  unfold JS.le, int.
  destruct (Qle_bool q (inject_Z 10000)) eqn:E1; [reflexivity |].
  destruct (Qle_bool q (inject_Z 50000)) eqn:E2; [reflexivity |].
  destruct (Qle_bool q (inject_Z 100000)) eqn:E3; [reflexivity |].
  destruct (Qle_bool q (inject_Z 500000)) eqn:E4; [reflexivity |].
  destruct (Qle_bool q (inject_Z 0)) eqn:E5; [| reflexivity].
  exfalso. qtests. revert E1 E5. unfold Qle, Qlt. simpl. lia.
Qed.

(** ** Order-book analyser *)

#[local] Arguments JS.le : simpl never.
#[local] Arguments JS.lt : simpl never.
#[local] Arguments JS.gt : simpl never.
#[local] Arguments JS.ge : simpl never.

Lemma insertByPrice_perm (a : Ad) (l : list Ad) : insertByPrice a l ≡ₚ a :: l.
Proof.
  induction l as [| b rest IH]; simpl; [reflexivity |].
  destruct (comparator a b >? int 0)%num; [| reflexivity].
  rewrite IH. apply perm_swap.
Qed.

Lemma sortByPrice_perm (l : list Ad) : sortByPrice l ≡ₚ l.
Proof.
  induction l as [| a rest IH]; simpl; [reflexivity |].
  rewrite insertByPrice_perm. now rewrite IH.
Qed.

Lemma top5_subset (l : list Ad) (a : Ad) : In a (take 5 (sortByPrice l)) -> In a l.
Proof.
  intros H. apply list_elem_of_In in H. apply list_elem_of_In.
  rewrite <- (sortByPrice_perm l). eapply subseteq_take; eassumption.
Qed.

Lemma top5_nonempty (l : list Ad) : l <> [] -> take 5 (sortByPrice l) <> [].
Proof.
  intros Hne Htake. apply Hne.
  destruct (sortByPrice l) as [| a rest] eqn:E; [| discriminate].
  apply Permutation_nil_r. rewrite <- E. symmetry. apply sortByPrice_perm.
Qed.

Lemma statistics_returns (total good : nat) (top5 : list Ad) :
  top5 <> [] ->
  exists stats,
    statistics total good top5 = Return stats /\
    totalAds stats = total /\ goodAds stats = good /\ topAds stats = top5 /\
    weightedAvg stats =
      sumOver (fun a => price a * qty a / sumOver qty top5)%num top5.
Proof.
  destruct top5 as [| best rest]; [congruence |]. intros _.
  eexists. split; [reflexivity |]. simpl. repeat split.
Qed.

Lemma length_zero_nil {A : Type} (l : list A) : Nat.eqb (length l) 0 = true <-> l = [].
Proof.
  destruct l; simpl; split; congruence.
Qed.

Lemma filter_In_passes (f : Conf.Filter) (ads : list Ad) (a : Ad) :
  In a (List.filter (passes f) ads) -> passes f a = true.
Proof. intros H. apply List.filter_In in H. tauto. Qed.

Section AnalyserFacts.

Variable parseFloat : value -> num.
Variable parseInt : value -> num.
Variable filters : Conf.Filters.


End AnalyserFacts.


(** Whatever the payload, a returned result is built from the survivors of
    one of the two filters, and there is at least one of them. *)
Lemma analyzeP2P_returned (parseFloat parseInt : value -> num)
    (filters : Conf.Filters) (data : value) (stats : P2PStats) :
  analyzeP2P parseFloat parseInt filters data = Return stats ->
  exists ads f kept,
    (f = Conf.strict filters \/ f = Conf.relaxed filters) /\
    kept = List.filter (passes f) ads /\ kept <> [] /\
    statistics (length ads) (length kept) (take 5 (sortByPrice kept)) = Return stats.
Proof.
  unfold analyzeP2P.
  destruct (negb (truthy data) || negb (nonEmptyArray (field data "data"))); [discriminate |].
  set (ads := parseAds parseFloat parseInt _).
  destruct (Nat.eqb (length ads) 0); [discriminate |].
  destruct (Nat.eqb (length (List.filter (passes (Conf.strict filters)) ads)) 0) eqn:Es.
  - destruct (Nat.eqb (length (List.filter (passes (Conf.relaxed filters)) ads)) 0) eqn:Er;
      [discriminate |].
    intros H. exists ads, (Conf.relaxed filters), (List.filter (passes (Conf.relaxed filters)) ads).
    repeat split; try tauto.
    intros E. rewrite E in Er. discriminate.
  - intros H. exists ads, (Conf.strict filters), (List.filter (passes (Conf.strict filters)) ads).
    repeat split; try tauto.
    intros E. rewrite E in Es. discriminate.
Qed.

(** *** The weighted average *)


Lemma qsum_acc {A : Type} (g : A -> Q) (l : list A) (acc : Q) :
  (qsum g l acc == acc + qsum g l 0)%Q.
Proof.
  revert acc. induction l as [| a rest IH]; intros acc; simpl.
  - unfold qsum; simpl. ring.
  - unfold qsum in *. simpl. rewrite (IH (acc + g a)%Q), (IH (0 + g a)%Q). ring.
Qed.

Lemma qsum_cons {A : Type} (g : A -> Q) (a : A) (l : list A) :
  (qsum g (a :: l) 0 == g a + qsum g l 0)%Q.
Proof.
  unfold qsum at 1. simpl. fold (qsum g l (0 + g a)). rewrite qsum_acc. ring.
Qed.





Lemma sumOver_Fin (f : Ad -> num) (g : Ad -> Q) (l : list Ad) :
  (forall a, In a l -> f a = Fin (g a)) ->
  sumOver f l = Fin (qsum g l (inject_Z 0)).
Proof.
  unfold sumOver, qsum, int. generalize (inject_Z 0).
  induction l as [| a rest IH]; intros acc H; simpl; [reflexivity |].
  rewrite (H a (or_introl eq_refl)). simpl JS.add.
  apply IH. intros b Hb. apply H. now right.
Qed.



Lemma price_extremes (top : list Ad) :
  top <> [] ->
  exists lo hi,
    In lo top /\ In hi top /\
    forall a, In a top -> (priceQ lo <= priceQ a /\ priceQ a <= priceQ hi)%Q.
Proof.
  destruct top as [| a rest]; [congruence |]. intros _.
  revert a. induction rest as [| b rest IH]; intros a.
  - exists a, a. repeat split; try (now left).
    + destruct H as [<- | []]. lra.
    + destruct H as [<- | []]. lra.
  - destruct (IH b) as (lo & hi & Hlo & Hhi & Hall).
    exists (if Qle_bool (priceQ a) (priceQ lo) then a else lo),
           (if Qle_bool (priceQ hi) (priceQ a) then a else hi).
    split; [| split].
    + destruct (Qle_bool (priceQ a) (priceQ lo)); [now left | now right].
    + destruct (Qle_bool (priceQ hi) (priceQ a)); [now left | now right].
    + intros c Hc.
      assert (Hc' : c = a \/ In c (b :: rest)) by (destruct Hc; auto).
      pose proof (Hall lo Hlo) as Hlo'. pose proof (Hall hi Hhi) as Hhi'.
      destruct (Qle_bool (priceQ a) (priceQ lo)) eqn:E1;
      destruct (Qle_bool (priceQ hi) (priceQ a)) eqn:E2; qtests;
      (destruct Hc' as [-> | Hc']; [| specialize (Hall c Hc')]); lra.
Qed.

Lemma andb5 (a b c d e : bool) :
  a && b && c && d && e = true -> a = true /\ b = true /\ c = true /\ d = true /\ e = true.
Proof. destruct a, b, c, d, e; simpl; intuition congruence. Qed.

Lemma passes_quality (f : Conf.Filter) (a : Ad) :
  f = Conf.strict qualityFilters \/ f = Conf.relaxed qualityFilters ->
  passes f a = true ->
  price a = Fin (priceQ a) /\ (70 <= priceQ a <= 120)%Q /\
  (int 100 <=? qty a)%num = true.
Proof.
  intros Hf Hp. apply andb5 in Hp. destruct Hp as (_ & _ & Hq & Hlo & Hhi).
  unfold priceQ.
  assert (Hbounds : Conf.minPrice f = int 70 /\ Conf.maxPrice f = int 120 /\
                    (int 100 <=? Conf.minQty f)%num = true).
  { destruct Hf as [-> | ->]; repeat split. }
  destruct Hbounds as (Hmin & Hmax & Hminq).
  rewrite Hmin in Hlo. rewrite Hmax in Hhi.
  split; [| split].
  - destruct (price a); try discriminate; reflexivity.
  - unfold JS.ge, JS.le, int in Hlo, Hhi.
    destruct (price a) as [| | | p]; try discriminate.
    qtests. split; [exact Hlo | exact Hhi].
  - eapply le_trans; [exact Hminq | exact Hq].
Qed.






(** ** Fetchers *)

Lemma httpRequest_rejects_typed (ev : HttpEvent) (e : JsError) :
  httpRequest ev = Throw e -> name e = ExternalAPIError.
Proof.
  destruct ev as [reason | timeout | status [data |]]; simpl.
  - intros [= <-]. reflexivity.
  - intros [= <-]. reflexivity.
  - destruct ((200 <=? status)%Z && (status <? 300)%Z); [discriminate |].
    intros [= <-]. reflexivity.
  - intros [= <-]. reflexivity.
Qed.

(** C9, as amended.  Whatever the upstream answers, when the [price]
    field of a decoded payload converts to a string (every string, number
    and boolean does), the spot fetcher either returns a number that is not
    [NaN] and is strictly positive, read from a [price] field that is
    present, or fails with an ExternalAPIError.  The number may be
    [Infinity]: the check is [isNaN], not finiteness. *)
Theorem fetchBinanceSpot_positive_or_typed_error
    (parseFloat : value -> num) (ev : HttpEvent) :
  (forall data, httpRequest ev = Return data -> convertible (field data "price") = true) ->
  match fetchBinanceSpot parseFloat ev with
  | Return price =>
      isNaN price = false /\ (price >? int 0)%num = true /\
      exists data, httpRequest ev = Return data /\
                   truthy (field data "price") = true /\
                   price = parseFloat (field data "price")
  | Throw e => name e = ExternalAPIError
  end.
Proof.
  intros Hprice. unfold fetchBinanceSpot, bind.
  destruct (httpRequest ev) as [data | e] eqn:E.
  - destruct (truthy data); simpl; [| reflexivity].
    destruct (truthy (field data "price")) eqn:Ep; simpl; [| reflexivity].
    unfold parsed. rewrite (Hprice data eq_refl).
    destruct (isNaN (parseFloat (field data "price"))) eqn:En; simpl; [reflexivity |].
    destruct (parseFloat (field data "price") <=? int 0)%num eqn:El; [reflexivity |].
    split; [exact En |]. split.
    + unfold JS.gt, JS.lt. unfold JS.le in El.
      destruct (parseFloat (field data "price")) as [| | | p]; try discriminate; try reflexivity.
      unfold int in *. qtests. exact El.
    + exists data. auto.
  - apply (httpRequest_rejects_typed ev e E).
Qed.

Lemma fetchBinanceSpot_positive_or_typed_error_witness :
  match fetchBinanceSpot Builtins.parseFloat Samples.spotUp with
  | Return price =>
      isNaN price = false /\ (price >? int 0)%num = true /\
      exists data, httpRequest Samples.spotUp = Return data /\
                   truthy (field data "price") = true /\
                   price = Builtins.parseFloat (field data "price")
  | Throw e => name e = ExternalAPIError
  end.
Proof.
  apply (fetchBinanceSpot_positive_or_typed_error Builtins.parseFloat Samples.spotUp).
  intros data [= <-]. reflexivity.
Defined.

(** C9, the claim as stated fails: a payload whose price reads as
    [Infinity] is returned as it is. *)
Lemma fetchBinanceSpot_returns_Infinity :
  fetchBinanceSpot Builtins.parseFloat
    (Response 200 (Some (VObj [("symbol", VStr "USDTINR"); ("price", VStr "Infinity")])))
  = Return PInf
  /\ isFinite PInf = false.
Proof. split; reflexivity. Qed.

(** A price that is an object with a [toString] entry of its own is
    truthy, so it reaches [parseFloat], whose TypeError the [catch]
    rethrows: here the fetcher fails with an error that is not an
    ExternalAPIError, for every [parseFloat]. *)
Example fetchBinanceSpot_rethrows_TypeError (parseFloat : value -> num) :
  exists e,
    fetchBinanceSpot parseFloat
      (Response 200 (Some (VObj [("symbol", VStr "USDTINR");
                                 ("price", VObj [("toString", VNum (int 1))])])))
    = Throw e /\ name e = TypeError.
Proof. eexists. split; reflexivity. Qed.

(** ** Aggregator *)

Lemma fetchBinanceP2P_truthy (retries : nat) (events : nat -> HttpEvent) (data : value) :
  fetchBinanceP2P retries events = Return data -> truthy data = true.
Proof.
  unfold fetchBinanceP2P, bind.
  destruct (retryableRequest _ retries) as [d | e]; [| discriminate].
  destruct (truthy d) eqn:E; simpl; [| discriminate].
  destruct (nonEmptyArray (field d "data")); simpl; [| discriminate].
  intros [= <-]. exact E.
Qed.


(** C2, as amended.  On a cache miss of the session-enabled server: when
    the reference fetch fails while the order-book fetch and its analysis
    succeed, [getMarketData] returns a snapshot whose markup-currency rate
    is the fallback constant plus the flat markup, with [usedFallback]
    set and exactly one entry for the reference source in [errors]; and
    when the order-book fetch fails it throws the ExternalAPIError
    "Critical: P2P data unavailable".  The earlier server has no fallback
    constant: on a miss with the same feeds it throws
    "Critical: NGN rate unavailable". *)
Theorem getMarketData_reference_failure
    (parseFloat parseInt : value -> num) (cfg : Conf.Config) (cfg2 : Part002.Config)
    (useCache : bool) (now : Z) (feeds : Feeds) (st : State) (st2 : Part002.State) :
  cacheMiss useCache now st ->
  (forall e p2pData stats,
     fetchCoinGecko parseFloat (geckoFeed feeds) = Throw e ->
     fetchBinanceP2P (Conf.maxRetries cfg) (p2pFeed feeds) = Return p2pData ->
     analyzeP2P parseFloat parseInt (Conf.filters cfg) p2pData = Return stats ->
     exists snapshot st' errs,
       getMarketData parseFloat parseInt cfg useCache now feeds st = (Return snapshot, st') /\
       ngnRateWithMarkup (rates snapshot)
         = (Conf.fallbackNgnRate cfg + Conf.ngnMarkup (Conf.pricing cfg))%num /\
       usedFallback (rates snapshot) = true /\
       p2p snapshot = stats /\
       errors snapshot = Some errs /\
       List.filter fromReference errs = [mkSourceError "coinGecko" (message e)]) /\
  (forall e,
     fetchBinanceP2P (Conf.maxRetries cfg) (p2pFeed feeds) = Throw e ->
     exists d st',
       getMarketData parseFloat parseInt cfg useCache now feeds st
       = (Throw (newExternalAPIError (Text "Critical: P2P data unavailable") d), st')) /\
  (forall e p2pData,
     cacheMiss002 useCache now st2 ->
     fetchCoinGecko parseFloat (geckoFeed feeds) = Throw e ->
     fetchBinanceP2P (Part002.maxRetries cfg2) (p2pFeed feeds) = Return p2pData ->
     exists d st',
       Part002.getMarketData parseFloat parseInt cfg2 useCache now feeds st2
       = (Throw (newExternalAPIError (Text "Critical: NGN rate unavailable") d), st')).
Proof.
  intros Hmiss. unfold cacheMiss in Hmiss. split; [| split].
  - intros e p2pData stats Hg Hp Ha.
    pose proof (fetchBinanceP2P_truthy _ _ _ Hp) as Ht.
    unfold getMarketData. rewrite Hmiss, Hg, Hp.
    destruct (fetchBinanceSpot parseFloat (spotFeed feeds)) as [spot | es];
      simpl; rewrite Ht; simpl; rewrite Ha; simpl; do 3 eexists; repeat split.
  - intros e Hp. unfold getMarketData. rewrite Hmiss, Hp.
    destruct (fetchBinanceSpot parseFloat (spotFeed feeds)) as [spot | es];
      destruct (fetchCoinGecko parseFloat (geckoFeed feeds)) as [g | eg];
      simpl; do 2 eexists; reflexivity.
  - intros e p2pData Hmiss2 Hg Hp. unfold cacheMiss002 in Hmiss2.
    pose proof (fetchBinanceP2P_truthy _ _ _ Hp) as Ht.
    unfold Part002.getMarketData. rewrite Hmiss2, Hg, Hp.
    destruct (fetchBinanceSpot parseFloat (spotFeed feeds)) as [spot | es];
      simpl; rewrite Ht; simpl; do 2 eexists; reflexivity.
Qed.

(** ** Sessions *)


Lemma keepsLocked_refl (st : State) : keepsLocked st st.
Proof. intros sid s H. eauto. Qed.

Lemma keepsLocked_trans (st1 st2 st3 : State) :
  keepsLocked st1 st2 -> keepsLocked st2 st3 -> keepsLocked st1 st3.
Proof.
  intros H12 H23 sid s H.
  destruct (H12 sid s H) as (s2 & H2 & E2).
  destruct (H23 sid s2 H2) as (s3 & H3 & E3).
  exists s3. split; [exact H3 | congruence].
Qed.

Lemma keepsLocked_metrics (st : State) (m : Metrics) : keepsLocked st (withMetrics m st).
Proof. intros sid s H. simpl. eauto. Qed.

Lemma dbUpdate_keepsLocked (sessionId : string) (updates : Session) (io : Io) (st : State) :
  updates !! lockedKey = None ->
  keepsLocked st (snd (dbUpdate sessionId updates io st)).
Proof.
  intros Hu. unfold dbUpdate. destruct (writeError io); [apply keepsLocked_refl |].
  intros sid s H. simpl.
  destruct (decide (sessionId = sid)) as [-> | Hne].
  - rewrite lookup_insert_eq. rewrite H. simpl.
    eexists. split; [reflexivity |].
    rewrite lookup_union_r; [reflexivity | exact Hu].
  - rewrite lookup_insert_ne by exact Hne. eauto.
Qed.

Lemma errorHandler_keepsLocked (e : JsError) (st : State) :
  keepsLocked st (snd (errorHandler e st)).
Proof.
  unfold errorHandler. destruct (name e); simpl; apply keepsLocked_metrics.
Qed.

Section SessionFacts.

Variable cfg : Conf.Config.
Variable decryptData : string -> outcome value.

Lemma updateTransactionStatus_keepsLocked
    (sessionId status : string) (additionalData : Session) (io : Io) (st : State) :
  additionalData !! lockedKey = None ->
  keepsLocked st (snd (updateTransactionStatus sessionId status additionalData io st)).
Proof.
  intros Ha. unfold updateTransactionStatus.
  set (updates := additionalData ∪ _).
  assert (Hu : updates !! lockedKey = None).
  { unfold updates. rewrite lookup_union_r by exact Ha.
    rewrite lookup_insert_ne by discriminate. rewrite lookup_singleton_ne by discriminate.
    reflexivity. }
  pose proof (dbUpdate_keepsLocked sessionId updates io st Hu) as K.
  destruct (dbUpdate sessionId updates io st) as [[u | e] st']; simpl in *.
  - eapply keepsLocked_trans; [exact K | apply keepsLocked_metrics].
  - exact K.
Qed.

Ltac no_locked_key :=
  unfold lockedKey; simpl;
  repeat (rewrite lookup_insert_ne by discriminate); apply lookup_empty.

Lemma serve_keepsLocked (request : StatusRequest) (io : Io) (st : State) :
  keepsLocked st (snd (serve cfg decryptData request io st)).
Proof.
  destruct request as [sid | reference sid gateway | reference sid | valid event
                      | headerKey queryKey sid status proof notes ip]; simpl.
  - unfold paymentInitialize.
    destruct (String.eqb sid ""); [apply errorHandler_keepsLocked |].
    destruct (getTransactionSession decryptData sid io st) as [session | e];
      [| apply errorHandler_keepsLocked].
    destruct (negb (isStr "pending" _)); [apply errorHandler_keepsLocked |].
    match goal with |- context [dbUpdate sid ?u io st] =>
      pose proof (dbUpdate_keepsLocked sid u io st) as K;
      destruct (dbUpdate sid u io st) as [[x | e] st'] end.
    + simpl in *. apply K. no_locked_key.
    + simpl in K. eapply keepsLocked_trans; [apply K; no_locked_key |].
      apply errorHandler_keepsLocked.
  - unfold verifyManual.
    destruct (String.eqb reference ""); [apply keepsLocked_refl |].
    destruct gateway as [tx | e]; [| apply keepsLocked_refl].
    destruct (negb (responseOk tx)); [apply keepsLocked_refl |].
    destruct (isStr "success" (txStatus tx) && negb (String.eqb sid "")).
    + match goal with |- context [dbUpdate sid ?u io st] =>
        pose proof (dbUpdate_keepsLocked sid u io st) as K;
        destruct (dbUpdate sid u io st) as [[x | e] st'] end;
        simpl in *; apply K; no_locked_key.
    + destruct (negb (String.eqb sid "")); [| apply keepsLocked_refl].
      match goal with |- context [dbUpdate sid ?u io st] =>
        pose proof (dbUpdate_keepsLocked sid u io st) as K;
        destruct (dbUpdate sid u io st) as [[x | e] st'] end;
        simpl in *; apply K; no_locked_key.
  - apply keepsLocked_refl.
  - unfold paystackWebhook.
    destruct (negb valid); [apply keepsLocked_refl |].
    destruct (isStr "charge.success" (eventName event)
              && negb (String.eqb (metadataSessionId event) ""));
      [| apply keepsLocked_refl].
    match goal with |- context [updateTransactionStatus ?s ?t ?a io st] =>
      pose proof (updateTransactionStatus_keepsLocked s t a io st) as K;
      destruct (updateTransactionStatus s t a io st) as [[x | e] st'] end;
      simpl in *; apply K; no_locked_key.
  - unfold adminSetStatus.
    destruct (validateAdminAuth cfg headerKey queryKey) as [ok | e];
      [| apply errorHandler_keepsLocked].
    destruct (negb _); [apply errorHandler_keepsLocked |].
    match goal with |- context [updateTransactionStatus ?s ?t ?a io st] =>
      pose proof (updateTransactionStatus_keepsLocked s t a io st) as K;
      destruct (updateTransactionStatus s t a io st) as [[x | e] st'] end.
    + simpl in *. apply K. no_locked_key.
    + simpl in K. eapply keepsLocked_trans; [apply K; no_locked_key |].
      apply errorHandler_keepsLocked.
Qed.

Lemma serveAll_keepsLocked (requests : list (StatusRequest * Io)) (st : State) :
  keepsLocked st (serveAll cfg decryptData requests st).
Proof.
  revert st. induction requests as [| [request io] rest IH]; intros st.
  - apply keepsLocked_refl.
  - unfold serveAll. simpl. eapply keepsLocked_trans; [apply serve_keepsLocked |].
    apply IH.
Qed.

End SessionFacts.

Lemma createTransactionSession_stores
    (parseFloat : value -> num) (cfg : Conf.Config) (encryptData : value -> string)
    (stripNonNumeric : string -> string) (sessionId : string)
    (transactionData : TransactionData) (userDetails : UserDetails)
    (io : Io) (st st1 : State) (created : string * Z) :
  createTransactionSession parseFloat cfg encryptData stripNonNumeric sessionId
    transactionData userDetails io st = (Return created, st1) ->
  created = (sessionId, now io + Conf.sessionTTL cfg) /\
  exists session,
    transactions st1 !! sessionId = Some session /\
    session !! "status" = Some (VStr "pending") /\
    session !! lockedKey = Some (VStr (encryptData (lockedFields transactionData))).
Proof.
  unfold createTransactionSession.
  destruct (String.eqb (Conf.encryptionKey cfg) "" || _); [discriminate |].
  unfold dbSet. destruct (writeError io); [discriminate |].
  intros [= <- <-]. split; [reflexivity |].
  simpl. rewrite lookup_insert_eq. eexists. split; [reflexivity |].
  split; reflexivity.
Qed.

(** Where the locked fields are kept.  Once [createTransactionSession]
    has stored a session, after any run of status-moving requests (payment
    initialisation, manual verification, gateway callback, webhook,
    administrative status change) whose session identifiers are single
    keys of the store, whatever the clock and the store answer, the
    session is still stored and its [encryptedTransaction] child is the
    ciphertext written at creation, of the amount, currencies, exchange
    rate, [youGet] and [feeCharged] captured then.  On such identifiers
    the record-level [update] of these routes is the store's own. *)
Theorem locked_fields_survive_status_updates
    (parseFloat : value -> num) (cfg : Conf.Config)
    (encryptData : value -> string) (decryptData : string -> outcome value)
    (stripNonNumeric : string -> string) (sessionId : string)
    (transactionData : TransactionData) (userDetails : UserDetails)
    (io : Io) (st st1 : State) (created : string * Z)
    (requests : list (StatusRequest * Io)) :
  createTransactionSession parseFloat cfg encryptData stripNonNumeric sessionId
    transactionData userDetails io st = (Return created, st1) ->
  Forall (fun request => keyed (fst request) = true) requests ->
  exists session,
    transactions (serveAll cfg decryptData requests st1) !! sessionId = Some session /\
    session !! "encryptedTransaction"
      = Some (VStr (encryptData (lockedFields transactionData))).
Proof.
  intros Hc _. apply createTransactionSession_stores in Hc.
  destruct Hc as (_ & session & Hs & _ & Hl).
  destruct (serveAll_keepsLocked cfg decryptData requests st1 sessionId session Hs)
    as (session' & Hs' & E).
  exists session'. split; [exact Hs' |]. unfold lockedKey in *. congruence.
Qed.

(** ** Pricing engine *)

(** C1, where the code departs from the claim.  Valid inputs (a lowest
    order-book rate of 90, a markup-currency rate of 2060, a reference
    rate of 20000, random draws 0.5 and 0.25) lead to the reference rung
    and its forced-minimum step; the rate forced to
    [cost * (1 + 0.8% + 0.5%)] is then rounded to two decimals, from
    0.104339 down to 0.10, below the base cost 0.103 that is returned with
    it, and the returned margin is -3%. *)
Lemma calculateCompetitiveRate_forced_rate_below_cost :
  let result :=
    fst (calculateCompetitiveRate config (int 90) (int 2060) (Some (int 20000))
           (1 # 2) (1 # 4) metrics0) in
  rateSource result = "CoinGecko (Fallback)" /\
  JS.eqb (baseCost result) (dec 103 1000) = true /\
  JS.eqb (targetRate result) (dec 10 100) = true /\
  JS.eqb (profitMargin result) (int (-3)) = true /\
  (targetRate result <? baseCost result)%num = true /\
  (profitMargin result <? int 0)%num = true /\
  (profitMargin result
     <? Conf.minProfitMargin (Conf.pricing config) - dec 1 1000000)%num = true.
Proof. vm_compute. repeat split. Qed.

(** ** Status updates and the metrics *)

(** C4, where the code departs from the claim.  A pending session is
    created, and the gateway delivers the same [charge.success] event for
    it twice.  The status is "completed" after each delivery, but each one
    moves the counters: [completed] goes 0, 1, 2 and [pending] goes
    1, 0, -1. *)
Lemma webhook_twice_counts_twice :
  let sessionId := "6f1c2a9e-session" in
  let created :=
    snd (Samples.post (Samples.request (VNum (int 100000)))
           (Samples.answers Samples.feedsUp) Samples.fresh) in
  let deliver time st :=
    snd (serve Samples.deployed Samples.decryptData
           (PaystackWebhook true (Samples.chargeSuccess sessionId)) (mkIo time None) st) in
  let first := deliver 1736900061000 created in
  let second := deliver 1736900062000 first in
  child created sessionId "status" = Some (VStr "pending") /\
  child first sessionId "status" = Some (VStr "completed") /\
  child second sessionId "status" = Some (VStr "completed") /\
  (transactions_completed (metrics created), transactions_pending (metrics created)) = (0, 1) /\
  (transactions_completed (metrics first), transactions_pending (metrics first)) = (1, 0) /\
  (transactions_completed (metrics second), transactions_pending (metrics second)) = (2, -1).
Proof. vm_compute. repeat split. Qed.

(** Every accepted delivery counts, whatever the session's status was. *)
Lemma paystackWebhook_counts_each_delivery (cfg : Conf.Config)
    (event : WebhookEvent) (io : Io) (st : State) :
  isStr "charge.success" (eventName event) = true ->
  metadataSessionId event <> "" ->
  writeError io = None ->
  let st' := snd (paystackWebhook true event io st) in
  metrics st' = sessionCompleted (metrics st) /\
  child st' (metadataSessionId event) "status" = Some (VStr "completed").
Proof.
  intros He Hs Hw. unfold paystackWebhook. rewrite He.
  apply String.eqb_neq in Hs. rewrite Hs. simpl negb. simpl andb. cbv iota.
  unfold updateTransactionStatus, dbUpdate. rewrite Hw. simpl.
  split; [reflexivity |].
  unfold child. simpl. rewrite lookup_insert_eq.
  apply lookup_union_Some_l. rewrite lookup_union_r.
  - rewrite lookup_insert_eq. reflexivity.
  - repeat (rewrite lookup_insert_ne by discriminate). apply lookup_empty.
Qed.

(** ** POST /api/convert *)

Lemma validateConversionRequest_below_minimum (cfg : Conf.Config) (n : num)
    (from to : value) :
  (n <? Conf.minTransaction (Conf.limits cfg))%num = true ->
  exists e,
    validateConversionRequest cfg (VNum n) from to = Throw e /\
    name e = ValidationError /\ statusCode e = Some 400 /\
    ((n >? int 0)%num = true ->
     message e = Template "Amount must be at least ₦" (Conf.minTransaction (Conf.limits cfg))
     /\ details e = DMinAmount (Conf.minTransaction (Conf.limits cfg))).
Proof.
  intros Hlt. unfold validateConversionRequest.
  assert (Hn : isNaN n = false) by (destruct n; try reflexivity; discriminate).
  rewrite Hn. destruct (n <=? int 0)%num eqn:E0.
  - eexists. split; [reflexivity |]. split; [reflexivity |]. split; [reflexivity |].
    intros Hpos. exfalso.
    unfold JS.gt, JS.lt, JS.le in *. destruct n as [| | | q]; try discriminate.
    unfold int in *. qtests. lra.
  - rewrite Hlt. eexists. split; [reflexivity |]. split; [reflexivity |].
    split; [reflexivity |]. intros _. split; reflexivity.
Qed.

(** C8, as amended.  A POST /api/convert whose amount is a number below
    the configured minimum transaction is refused with status 400 and a
    ValidationError, and the stored sessions are what they were before the
    request; when the amount is strictly positive and the validator chain
    found nothing, the message is the one that names the minimum, with the
    minimum in its details. *)
Theorem convert_rejects_below_minimum
    (parseFloat parseInt : value -> num) (cfg : Conf.Config)
    (encryptData : value -> string) (stripNonNumeric : string -> string)
    (toFixed : num -> nat -> string) (numToString : num -> string)
    (emailPattern phonePattern : string -> bool)
    (lastByIp : gmap string Session -> string -> list Session)
    (req : ConvertRequest) (c : ConvertIo) (st : State) (n : num) :
  bodyAmount req = VNum n ->
  (n <? Conf.minTransaction (Conf.limits cfg))%num = true ->
  exists e st',
    convert parseFloat parseInt cfg encryptData stripNonNumeric toFixed numToString
      emailPattern phonePattern lastByIp req c st
    = (NotConverted (Refused 400 e "validation_error"), st') /\
    name e = ValidationError /\
    transactions st' = transactions st /\
    (findings c = [] -> (n >? int 0)%num = true ->
     message e = Template "Amount must be at least ₦" (Conf.minTransaction (Conf.limits cfg))
     /\ details e = DMinAmount (Conf.minTransaction (Conf.limits cfg))).
Proof.
  intros Ha Hlt. unfold convert, convertBody.
  destruct (findings c) as [| finding more] eqn:Ef.
  - rewrite Ha.
    destruct (validateConversionRequest_below_minimum cfg n (bodyFrom req) (bodyTo req) Hlt)
      as (e & He & Hname & Hcode & Hmsg).
    rewrite He. unfold errorHandler. rewrite Hname, Hcode. simpl.
    exists e. eexists. split; [reflexivity |]. split; [exact Hname |].
    split; [reflexivity |]. intros _ Hpos. apply Hmsg. exact Hpos.
  - simpl. eexists. eexists. split; [reflexivity |]. split; [reflexivity |].
    split; [reflexivity |]. discriminate.
Qed.

Lemma convert_rejects_below_minimum_witness :
  exists e st',
    Samples.post (Samples.request (VNum (int 500))) (Samples.answers Samples.feedsUp)
      Samples.fresh
    = (NotConverted (Refused 400 e "validation_error"), st') /\
    name e = ValidationError /\
    transactions st' = transactions Samples.fresh /\
    (findings (Samples.answers Samples.feedsUp) = [] -> (int 500 >? int 0)%num = true ->
     message e = Template "Amount must be at least ₦"
                   (Conf.minTransaction (Conf.limits Samples.deployed))
     /\ details e = DMinAmount (Conf.minTransaction (Conf.limits Samples.deployed))).
Proof.
  apply (convert_rejects_below_minimum Builtins.parseFloat Builtins.parseInt
           Samples.deployed Samples.encryptData Builtins.stripNonNumeric Builtins.toFixed
           Builtins.numToString Builtins.emailPattern Builtins.phonePattern
           Samples.lastByIp (Samples.request (VNum (int 500)))
           (Samples.answers Samples.feedsUp) Samples.fresh (int 500)).
  - reflexivity.
  - reflexivity.
Defined.

(** C8, the claim as stated fails: an amount of zero is below the minimum
    of 1000, and the refusal names no minimum. *)
Lemma convert_zero_amount_message :
  fst (Samples.post (Samples.request (VNum (int 0))) (Samples.answers Samples.feedsUp)
         Samples.fresh)
  = NotConverted
      (Refused 400 (newValidationError (Text "Amount must be greater than 0") NoDetails)
         "validation_error")
  /\ (int 0 <? Conf.minTransaction (Conf.limits Samples.deployed))%num = true.
Proof. split; reflexivity. Qed.

(** The earlier server configures no minimum: 500 passes its validation. *)
Example Part002_accepts_500 :
  Part002.validateConversionRequest (VNum (int 500)) (VStr "NGN") (VStr "INR") = Return true.
Proof. reflexivity. Qed.

(** ** The properties at the sample inputs *)


(** The sample order book: four entries parse, three pass the strict
    filter, and the lowest of their prices is 89.95. *)
Example analyzeP2P_sample :
  exists stats,
    analyzeP2P Builtins.parseFloat Builtins.parseInt qualityFilters Samples.book
      = Return stats /\
    totalAds stats = 4%nat /\ goodAds stats = 3%nat /\
    JS.eqb (lowestRate stats) (dec 8995 100) = true /\
    map nickname (topAds stats) = [VStr "ravi"; VStr "neha"; VStr "amit"].
Proof. eexists. split; [vm_compute; reflexivity |]. repeat split. Qed.

Lemma getMarketData_reference_failure_witness :
  cacheMiss true 0 Samples.fresh /\
  exists snapshot st' errs,
    getMarketData Builtins.parseFloat Builtins.parseInt config true 0
      Samples.feedsReferenceDown Samples.fresh = (Return snapshot, st') /\
    ngnRateWithMarkup (rates snapshot)
      = (Conf.fallbackNgnRate config + Conf.ngnMarkup (Conf.pricing config))%num /\
    usedFallback (rates snapshot) = true /\
    errors snapshot = Some errs /\
    List.filter fromReference errs
      = [mkSourceError "coinGecko" (Text "Network request failed")].
Proof.
  split; [reflexivity |].
  destruct (getMarketData_reference_failure Builtins.parseFloat Builtins.parseInt
              config Part002.config true 0 Samples.feedsReferenceDown Samples.fresh
              Samples.fresh002 eq_refl) as (Hfallback & _ & _).
  destruct (analyzeP2P_sample) as (stats & Hstats & _).
  destruct (Hfallback (newExternalAPIError (Text "Network request failed")
                         (DOther [("error", VStr "ECONNRESET")]))
              Samples.book stats eq_refl eq_refl Hstats)
    as (snapshot & st' & errs & H1 & H2 & H3 & _ & H5 & H6).
  exists snapshot, st', errs. repeat split; assumption.
Defined.

(** C2, the claim as stated fails on the earlier server: with the
    reference source down and the order book up, its aggregation throws. *)
Lemma Part002_getMarketData_reference_down_throws :
  fst (Part002.getMarketData Builtins.parseFloat Builtins.parseInt Part002.config true 0
         Samples.feedsReferenceDown Samples.fresh002)
  = Throw (newExternalAPIError (Text "Critical: NGN rate unavailable")
             (DUpstream [mkSourceError "coinGecko" (Text "Network request failed")]
                "Try again in a few moments"))
  /\ exists p2pData stats,
       fetchBinanceP2P (Part002.maxRetries Part002.config)
         (p2pFeed Samples.feedsReferenceDown) = Return p2pData /\
       analyzeP2P Builtins.parseFloat Builtins.parseInt
         (Part002.filters Part002.config) p2pData = Return stats.
Proof.
  split; [reflexivity |].
  destruct analyzeP2P_sample as (stats & Hstats & _).
  exists Samples.book, stats. split; [reflexivity | exact Hstats].
Qed.

Lemma locked_fields_survive_status_updates_witness :
  let sessionId := "6f1c2a9e-session" in
  let transactionData :=
    mkTransactionData (VNum (int 100000)) (VStr "NGN") (VStr "INR")
      "₦19.06 per ₹1" "₹5115.42 INR" "2.5% (₹131.16)" (VStr "203.0.113.7") (VStr "curl/8") in
  let userDetails := mkUserDetails (VStr "Chidi") VNull VNull VNull (VStr "upi") in
  let requests :=
    [ (PaymentInitialize sessionId, mkIo 1736900010000 None);
      (PaystackWebhook true (Samples.chargeSuccess sessionId), mkIo 1736900061000 None);
      (VerifyManual "HP-ref-1" sessionId
         (Return (mkVerification true (VStr "success") (int 10000000) (VStr "card") VNull)),
       mkIo 1736900062000 None);
      (AdminSetStatus (VStr "admin-key-for-the-examples") VUndef sessionId
         (VStr "failed") (VStr "none") (VStr "reversed") "198.51.100.2",
       mkIo 1736900063000 None) ] in
  let created :=
    createTransactionSession Builtins.parseFloat Samples.deployed Samples.encryptData
      Builtins.stripNonNumeric sessionId transactionData userDetails
      (mkIo 1736900000000 None) Samples.fresh in
  fst created = Return (sessionId, 1736900300000) /\
  exists session,
    transactions (serveAll Samples.deployed Samples.decryptData requests (snd created))
      !! sessionId = Some session /\
    session !! "encryptedTransaction"
      = Some (VStr (Samples.encryptData (lockedFields transactionData))).
Proof.
  intros sessionId transactionData userDetails requests created.
  split; [reflexivity |].
  apply (locked_fields_survive_status_updates Builtins.parseFloat Samples.deployed
           Samples.encryptData Samples.decryptData Builtins.stripNonNumeric sessionId
           transactionData userDetails (mkIo 1736900000000 None) Samples.fresh
           (snd created) (sessionId, 1736900300000) requests).
  - reflexivity.
  - repeat constructor.
Defined.

(** The run of the example: the session ends "failed", the status the
    last request set, with the ciphertext of its creation. *)
Example status_updates_sample :
  let sessionId := "6f1c2a9e-session" in
  let created :=
    snd (Samples.post (Samples.request (VNum (int 100000)))
           (Samples.answers Samples.feedsUp) Samples.fresh) in
  let after :=
    serveAll Samples.deployed Samples.decryptData
      [ (PaymentInitialize sessionId, mkIo 1736900010000 None);
        (PaystackWebhook true (Samples.chargeSuccess sessionId), mkIo 1736900061000 None);
        (AdminSetStatus (VStr "admin-key-for-the-examples") VUndef sessionId
           (VStr "failed") (VStr "none") (VStr "reversed") "198.51.100.2",
         mkIo 1736900063000 None) ] created in
  child after sessionId "status" = Some (VStr "failed") /\
  child after sessionId "encryptedTransaction"
    = child created sessionId "encryptedTransaction".
Proof. vm_compute. split; reflexivity. Qed.

(** ** Where the pricing engine keeps its margin *)

Lemma round2_Fin (x : Q) :
  round2 (Fin x) = Fin (inject_Z (Qfloor (x * inject_Z 100 + (1 # 2))) / inject_Z 100).
Proof. unfold round2. simpl JS.mul. simpl JS.round. apply div_100. Qed.

Lemma round2_bounds (x : Q) :
  let r := (inject_Z (Qfloor (x * inject_Z 100 + (1 # 2))) / inject_Z 100)%Q in
  (x - (1 # 200) < r /\ r <= x + (1 # 200))%Q.
Proof.
  intros r. unfold r.
  pose proof (Qfloor_le (x * inject_Z 100 + (1 # 2))) as Hle.
  pose proof (Qlt_floor (x * inject_Z 100 + (1 # 2))) as Hlt.
  rewrite inject_Z_plus in Hlt.
  change (inject_Z 1) with 1%Q in Hlt. change (inject_Z 100) with 100%Q in *.
  set (k := inject_Z (Qfloor (x * 100 + (1 # 2)))) in *.
  split.
  - apply Qlt_shift_div_l; lra.
  - apply Qle_shift_div_r; lra.
Qed.

Lemma marginPct_Fin (f b : Q) :
  ~ (f == 0)%Q ->
  marginPct (Fin f) (Fin b) = Fin ((f + - b) / f * inject_Z 100).
Proof.
  intros Hf. unfold marginPct. simpl JS.sub. rewrite div_Fin by exact Hf. reflexivity.
Qed.

(** A rate [f] above the cost [b] by the share [s] of the rate earns a
    margin of at least [100 s] percent. *)
Lemma margin_at_least (f b s : Q) :
  (0 < f)%Q -> (b <= (1 - s) * f)%Q -> (s * inject_Z 100 <= (f + - b) / f * inject_Z 100)%Q.
Proof.
  intros Hf Hb. change (inject_Z 100) with 100%Q.
  assert (s <= (f + - b) / f)%Q; [| lra].
  apply Qle_shift_div_l; [exact Hf | lra].
Qed.

(** The forced-minimum step: the cost times [k], rounded to two decimals,
    still earns 0.8% when [k] and the cost are large enough. *)
Lemma forced_step (b k : Q) :
  (0 < b)%Q -> (496 # 100000 <= (992 # 1000) * k * b - b)%Q ->
  exists f,
    round2 (Fin (b * k)) = Fin f /\ (b < f)%Q /\
    exists pm, marginPct (Fin f) (Fin b) = Fin pm /\ (8 # 10 <= pm)%Q.
Proof.
  intros Hb Hk. rewrite round2_Fin.
  pose proof (round2_bounds (b * k)) as [Hlo _]. cbv zeta in Hlo.
  set (f := (inject_Z (Qfloor (b * k * inject_Z 100 + (1 # 2))) / inject_Z 100)%Q) in *.
  assert (Hbf : (b <= (1 - (8 # 1000)) * f)%Q) by lra.
  assert (Hf : (0 < f)%Q) by lra.
  exists f. split; [reflexivity |]. split; [lra |].
  eexists. split; [apply marginPct_Fin; lra |].
  pose proof (margin_at_least f b (8 # 1000) Hf Hbf) as Hm.
  change (inject_Z 100) with 100%Q in *. lra.
Qed.

#[local] Arguments JS.add : simpl never.
#[local] Arguments JS.sub : simpl never.
#[local] Arguments JS.mul : simpl never.
#[local] Arguments JS.div : simpl never.
#[local] Arguments round2 : simpl never.
#[local] Arguments marginPct : simpl never.

Lemma margin_positive (f b pm : Q) :
  (0 < f)%Q -> (8 # 10 <= (f + - b) / f * inject_Z 100)%Q -> (b < f)%Q.
Proof.
  intros Hf Hm. change (inject_Z 100) with 100%Q in Hm.
  assert (H : (8 # 1000 <= (f + - b) / f)%Q) by lra.
  assert (H' : ((8 # 1000) * f <= (f + - b) / f * f)%Q)
    by (apply Qmult_le_compat_r; [exact H | lra]).
  assert (E : ((f + - b) / f * f == f + - b)%Q) by (field; lra).
  lra.
Qed.

(** Where the engine does keep its margin, its formulas being evaluated
    exactly (without the rounding and the overflow of binary64).  With
    the default configuration, for strictly positive rates and draws in
    [0, 1): when no reference rate is given, or when the reference base
    cost [ngnRate / reference] is at least 155/153, the result carries a
    finite margin of at least 0.8% and a rate above the base cost it
    reports. *)
Theorem calculateCompetitiveRate_margin_kept
    (l n : Q) (reference : option Q) (u1 u2 : Q) (m : Metrics) :
  (0 < l)%Q -> (0 < n)%Q -> (0 <= u1 < 1)%Q -> (0 <= u2 < 1)%Q ->
  (forall c, reference = Some c -> (0 < c /\ 155 * c <= 153 * n)%Q) ->
  let result :=
    fst (calculateCompetitiveRate config (Fin l) (Fin n) (option_map Fin reference)
           u1 u2 m) in
  exists cost rate margin,
    baseCost result = Fin cost /\ targetRate result = Fin rate /\
    profitMargin result = Fin margin /\
    (cost < rate)%Q /\ (8 # 10 <= margin)%Q.
Proof.
  intros Hl Hn Hu1 Hu2 Href result. unfold result. clear result.
  unfold calculateCompetitiveRate. simpl.
  set (b := (n / l)%Q).
  assert (Hb : (Fin n / Fin l)%num = Fin b) by (apply div_Fin; lra).
  assert (Hbpos : (0 < b)%Q) by (apply Qlt_shift_div_l; lra).
  rewrite Hb.
  set (rr := ((1585 # 100) + u1 * ((1598 # 100) + - (1585 # 100)))%Q).
  change (dec 1585 100 + Fin u1 * (dec 1598 100 - dec 1585 100))%num with (Fin rr).
  rewrite round2_Fin.
  pose proof (round2_bounds rr) as [Hf0lo Hf0hi]. cbv zeta in Hf0lo, Hf0hi.
  set (f0 := (inject_Z (Qfloor (rr * inject_Z 100 + (1 # 2))) / inject_Z 100)%Q) in *.
  assert (Hrr : (1585 # 100 <= rr < 1598 # 100)%Q) by (unfold rr; lra).
  assert (Hf0 : (0 < f0)%Q) by lra.
  rewrite (marginPct_Fin f0 b) by lra.
  set (pm0 := ((f0 + - b) / f0 * inject_Z 100)%Q).
  change (Fin pm0 <? dec 8 10)%num with (Qltb pm0 (8 # 10)).
  destruct (Qltb pm0 (8 # 10)) eqn:Elow.
  - (* the primary rate earns too little: the cost is above 15.7 *)
    apply Qltb_lt in Elow.
    assert (Hbbig : ((992 # 1000) * f0 < b)%Q).
    { destruct (Qlt_le_dec ((992 # 1000) * f0) b) as [H | H]; [exact H | exfalso].
      pose proof (margin_at_least f0 b (8 # 1000) Hf0) as Hm.
      unfold pm0 in Elow. change (inject_Z 100) with 100%Q in *.
      assert ((8 # 1000) * 100 <= (f0 + - b) / f0 * 100)%Q by (apply Hm; lra). lra. }
    assert (forced :
      exists cost rate margin,
        Fin b = Fin cost /\
        round2 (Fin b * (int 1 + dec 8 10 / int 100 + dec 1 100))%num = Fin rate /\
        marginPct (round2 (Fin b * (int 1 + dec 8 10 / int 100 + dec 1 100))%num) (Fin b)
          = Fin margin /\
        (cost < rate)%Q /\ (8 # 10 <= margin)%Q).
    { set (k := (inject_Z 1 + (8 # 10) / inject_Z 100 + (1 # 100))%Q).
      change (Fin b * (int 1 + dec 8 10 / int 100 + dec 1 100))%num with (Fin (b * k)).
      destruct (forced_step b k Hbpos) as (f & Hf & Hbf & pm & Hpm & Hpm8).
      { unfold k. change (inject_Z 1) with 1%Q. change (inject_Z 100) with 100%Q.
        assert (E : (1 + (8 # 10) / 100 + (1 # 100) == 1018 # 1000)%Q) by reflexivity.
        rewrite E. lra. }
      exists b, f, pm. rewrite Hf. repeat split; assumption. }
    destruct reference as [c |]; simpl option_map; cbv iota.
    + destruct (Href c eq_refl) as [Hc Hcn].
      assert (Ht : truthy_num (Fin c) && (Fin c >? int 0)%num = true).
      { unfold truthy_num, JS.gt, JS.lt, int. apply andb_true_intro. split.
        - apply negb_true_iff. qtests. lra.
        - qtests. change (inject_Z 0) with 0%Q. lra. }
      rewrite Ht. simpl fst.
      set (cb := (n / c)%Q).
      assert (Hcb : (Fin n / Fin c)%num = Fin cb) by (apply div_Fin; lra).
      assert (Hcbbig : (155 # 153 <= cb)%Q) by (apply Qle_shift_div_l; lra).
      rewrite Hcb.
      set (x := (cb * (inject_Z 1 + (25 # 10) / inject_Z 100)
                 + (u2 * (1 # 10) + - (5 # 100)))%Q).
      change (Fin cb * (int 1 + dec 25 10 / int 100) + (Fin u2 * dec 1 10 - dec 5 100))%num
        with (Fin x).
      rewrite round2_Fin.
      pose proof (round2_bounds x) as [Hf1lo Hf1hi]. cbv zeta in Hf1lo, Hf1hi.
      set (f1 := (inject_Z (Qfloor (x * inject_Z 100 + (1 # 2))) / inject_Z 100)%Q) in *.
      assert (Hx : (cb * (1025 # 1000) - (5 # 100) <= x)%Q).
      { unfold x. change (inject_Z 1) with 1%Q. change (inject_Z 100) with 100%Q.
        assert (E : (1 + (25 # 10) / 100 == 1025 # 1000)%Q) by reflexivity.
        rewrite E. lra. }
      assert (Hf1 : (0 < f1)%Q) by lra.
      rewrite (marginPct_Fin f1 cb) by lra.
      set (pm1 := ((f1 + - cb) / f1 * inject_Z 100)%Q).
      change (Fin pm1 <? dec 8 10)%num with (Qltb pm1 (8 # 10)).
      destruct (Qltb pm1 (8 # 10)) eqn:Elow1.
      * set (k := (inject_Z 1 + (8 # 10) / inject_Z 100 + (5 # 1000))%Q).
        change (Fin cb * (int 1 + dec 8 10 / int 100 + dec 5 1000))%num with (Fin (cb * k)).
        destruct (forced_step cb k) as (f & Hf & Hbf & pm & Hpm & Hpm8).
        { lra. }
        { unfold k. change (inject_Z 1) with 1%Q. change (inject_Z 100) with 100%Q.
          assert (E : (1 + (8 # 10) / 100 + (5 # 1000) == 1013 # 1000)%Q) by reflexivity.
          rewrite E. lra. }
        exists cb, f, pm. rewrite Hf. repeat split; assumption.
      * apply Qltb_ge in Elow1.
        exists cb, f1, pm1. rewrite (marginPct_Fin f1 cb) by lra.
        repeat split; try assumption. fold pm1.
        apply (margin_positive f1 cb pm1 Hf1). exact Elow1.
    + simpl fst. exact forced.
  - apply Qltb_ge in Elow. simpl fst.
    exists b, f0, pm0. repeat split; try assumption.
    apply (margin_positive f0 b pm0 Hf0). exact Elow.
Qed.

Lemma calculateCompetitiveRate_margin_kept_witness :
  let result :=
    fst (calculateCompetitiveRate config (Fin 90) (Fin 1670) (option_map Fin (Some (901 # 10)))
           (1 # 2) (1 # 2) metrics0) in
  exists cost rate margin,
    baseCost result = Fin cost /\ targetRate result = Fin rate /\
    profitMargin result = Fin margin /\
    (cost < rate)%Q /\ (8 # 10 <= margin)%Q.
Proof.
  apply (calculateCompetitiveRate_margin_kept 90 1670 (Some (901 # 10)) (1 # 2) (1 # 2)
           metrics0); try lra.
  intros c [= <-]. lra.
Defined.

(** ** Further properties of the analyser, the cache and the earlier engine *)

Lemma insertByPrice_sorted (a : Ad) (l : list Ad) :
  price a = Fin (priceQ a) ->
  Forall (fun b => price b = Fin (priceQ b)) l ->
  StronglySorted cheaper l ->
  StronglySorted cheaper (insertByPrice a l).
Proof.
  intros Ha Hl Hs. induction Hs as [| b rest Hs IH Hb]; simpl.
  - constructor; constructor.
  - inversion Hl as [| ? ? Pb Prest]; subst.
    assert (Hcmp : (comparator a b >? int 0)%num
                   = Qltb (inject_Z 0) (priceQ a + - priceQ b))
      by (unfold comparator; rewrite Ha, Pb; reflexivity).
    rewrite Hcmp.
    destruct (Qltb (inject_Z 0) (priceQ a + - priceQ b)) eqn:E.
    + apply Qltb_lt in E. change (inject_Z 0) with 0%Q in E.
      constructor; [apply IH; exact Prest |].
      apply List.Forall_forall. intros c Hc.
      apply list_elem_of_In in Hc. rewrite (insertByPrice_perm a rest) in Hc.
      apply list_elem_of_In in Hc. destruct Hc as [<- | Hc].
      * unfold cheaper. rewrite Ha, Pb. unfold JS.le. qtests. lra.
      * rewrite List.Forall_forall in Hb. apply Hb. exact Hc.
    + apply Qltb_ge in E. change (inject_Z 0) with 0%Q in E.
      assert (Hab : cheaper a b) by (unfold cheaper; rewrite Ha, Pb; unfold JS.le; qtests; lra).
      constructor; [constructor; assumption |].
      constructor; [exact Hab |].
      apply List.Forall_forall. intros c Hc. rewrite List.Forall_forall in Hb.
      unfold cheaper. eapply le_trans; [exact Hab | apply Hb; exact Hc].
Qed.

Lemma sortByPrice_sorted (l : list Ad) :
  Forall (fun b => price b = Fin (priceQ b)) l ->
  StronglySorted cheaper (sortByPrice l).
Proof.
  induction 1 as [| a rest Ha Hrest IH]; simpl; [constructor |].
  apply insertByPrice_sorted; [exact Ha | | exact IH].
  rewrite sortByPrice_perm. exact Hrest.
Qed.

Lemma StronglySorted_take {A : Type} (R : A -> A -> Prop) (n : nat) (l : list A) :
  StronglySorted R l -> StronglySorted R (take n l).
Proof.
  intros Hs. revert n. induction Hs as [| a rest Hs IH Ha]; intros [| n]; simpl;
    try constructor.
  - apply IH.
  - apply List.Forall_forall. intros c Hc. rewrite List.Forall_forall in Ha.
    apply Ha. apply list_elem_of_In. apply list_elem_of_In in Hc.
    eapply subseteq_take; eassumption.
Qed.

(** The ranked ads of a result under the configured filters: five at most,
    in ascending order of price, the first of them priced at
    [lowestRate]. *)
Theorem topAds_ranked
    (parseFloat parseInt : value -> num) (data : value) (stats : P2PStats) :
  analyzeP2P parseFloat parseInt (Conf.filters config) data = Return stats ->
  (length (topAds stats) <= 5)%nat /\
  StronglySorted cheaper (topAds stats) /\
  exists best rest, topAds stats = best :: rest /\ lowestRate stats = price best.
Proof.
  intros H. apply analyzeP2P_returned in H.
  destruct H as (ads & f & kept & Hf & Hkept & Hne & Hs).
  pose proof (top5_nonempty kept Hne) as Htop.
  assert (Htops : topAds stats = take 5 (sortByPrice kept)).
  { destruct (statistics_returns (length ads) (length kept) _ Htop)
      as (stats' & Hs' & _ & _ & Ht & _). congruence. }
  rewrite Htops. split; [| split].
  - rewrite length_take. lia.
  - apply StronglySorted_take. apply sortByPrice_sorted.
    apply List.Forall_forall. intros a Ha. rewrite Hkept in Ha.
    apply filter_In_passes in Ha. apply (passes_quality f a Hf Ha).
  - unfold statistics in Hs.
    destruct (take 5 (sortByPrice kept)) as [| best rest]; [congruence |].
    injection Hs as <-. exists best, rest. split; reflexivity.
Qed.

Lemma topAds_ranked_witness :
  exists stats,
    analyzeP2P Builtins.parseFloat Builtins.parseInt (Conf.filters config) Samples.book
      = Return stats /\
    (length (topAds stats) <= 5)%nat /\
    StronglySorted cheaper (topAds stats) /\
    exists best rest, topAds stats = best :: rest /\ lowestRate stats = price best.
Proof.
  eexists. split; [vm_compute; reflexivity |].
  apply (topAds_ranked Builtins.parseFloat Builtins.parseInt Samples.book).
  vm_compute. reflexivity.
Defined.

(** Within the time to live, a snapshot stored on a miss is what the next
    cached read returns, whatever the upstream would answer then: the
    feeds are not consulted. *)
Theorem getMarketData_cached_within_ttl
    (parseFloat parseInt : value -> num) (cfg : Conf.Config)
    (useCache : bool) (now later : Z) (feeds feeds' : Feeds)
    (st st1 : State) (snapshot : MarketData) :
  cacheMiss useCache now st ->
  getMarketData parseFloat parseInt cfg useCache now feeds st = (Return snapshot, st1) ->
  (later <= now + Conf.ttl cfg * 1000)%Z ->
  getMarketData parseFloat parseInt cfg true later feeds' st1
  = (Return snapshot, withMetrics (hit (metrics st1)) st1).
Proof.
  intros Hmiss Hfirst Hlater. unfold cacheMiss in Hmiss.
  unfold getMarketData in Hfirst. rewrite Hmiss in Hfirst.
  destruct (settle "binanceSpot" _ _) as [spot e0].
  destruct (settle "coinGecko" _ _) as [gecko e1].
  destruct (settle "binanceP2P" _ _) as [p2pData e2].
  destruct (negb _); [discriminate |].
  destruct (analyzeP2P _ _ _ _) as [stats | e]; [| discriminate].
  injection Hfirst as <- <-.
  unfold getMarketData, cacheGet, cacheSet. simpl.
  rewrite lookup_insert_eq.
  destruct (later <=? now + Conf.ttl cfg * 1000)%Z eqn:E; [reflexivity | lia].
Qed.

Lemma getMarketData_cached_within_ttl_witness :
  exists snapshot st1,
    getMarketData Builtins.parseFloat Builtins.parseInt config true 0 Samples.feedsUp
      Samples.fresh = (Return snapshot, st1) /\
    getMarketData Builtins.parseFloat Builtins.parseInt config true 1799999
      Samples.feedsReferenceDown st1
    = (Return snapshot, withMetrics (hit (metrics st1)) st1).
Proof.
  eexists. eexists. split; [reflexivity |].
  eapply (getMarketData_cached_within_ttl Builtins.parseFloat Builtins.parseInt config
            true 0 1799999 Samples.feedsUp Samples.feedsReferenceDown Samples.fresh).
  - reflexivity.
  - reflexivity.
  - vm_compute. discriminate.
Defined.

(** The earlier engine returns only what earns the minimum, its formulas
    being evaluated exactly (without the rounding and the overflow of
    binary64): with its default configuration and strictly positive rates,
    a returned result has a finite margin of at least 0.5% and a rate
    above its base cost. *)
Theorem Part002_returned_margin_kept (l n u : Q) (result : Part002.PricingResult) :
  (0 < l)%Q -> (0 < n)%Q ->
  Part002.calculateCompetitiveRate Part002.config (Fin l) (Fin n) u = Return result ->
  exists cost rate margin,
    Part002.baseCost result = Fin cost /\ Part002.targetRate result = Fin rate /\
    Part002.profitMargin result = Fin margin /\
    (cost < rate)%Q /\ (5 # 10 <= margin)%Q.
Proof.
  intros Hl Hn. unfold Part002.calculateCompetitiveRate. simpl.
  set (b := (n / l)%Q).
  assert (Hb : (Fin n / Fin l)%num = Fin b) by (apply div_Fin; lra).
  assert (Hbpos : (0 < b)%Q) by (apply Qlt_shift_div_l; lra).
  rewrite Hb.
  set (x := (b * (inject_Z 1 + (5 # 10) / inject_Z 100)
             + ((20 # 100) + u * ((40 # 100) + - (20 # 100))) * (1 # 10))%Q).
  change (Fin b * (int 1 + dec 5 10 / int 100)
          + (dec 20 100 + Fin u * (dec 40 100 - dec 20 100)) * dec 1 10)%num with (Fin x).
  set (y := if (Fin x >? dec 165 10)%num then (dec 165 10 - dec 1 10)%num else Fin x).
  assert (Hy : exists yq, y = Fin yq).
  { unfold y. destruct (Fin x >? dec 165 10)%num; eexists; reflexivity. }
  destruct Hy as [yq Hy]. rewrite Hy.
  change (Fin b * dec 1005 1000)%num with (Fin (b * (1005 # 1000))).
  change (Fin yq <? Fin (b * (1005 # 1000)))%num with (Qltb yq (b * (1005 # 1000))).
  set (f := if Qltb yq (b * (1005 # 1000)) then (b * (1005 # 1000))%Q else yq).
  assert (Hf : (if Qltb yq (b * (1005 # 1000)) then Fin (b * (1005 # 1000)) else Fin yq)
               = Fin f).
  { unfold f. destruct (Qltb yq (b * (1005 # 1000))); reflexivity. }
  rewrite Hf.
  assert (Hfb : (b * (1005 # 1000) <= f)%Q).
  { unfold f. destruct (Qltb yq (b * (1005 # 1000))) eqn:E; [lra |].
    apply Qltb_ge in E. exact E. }
  assert (Hfpos : (0 < f)%Q) by lra.
  rewrite (marginPct_Fin f b) by lra.
  set (pm := ((f + - b) / f * inject_Z 100)%Q).
  change (Fin pm <? dec 5 10)%num with (Qltb pm (5 # 10)).
  destruct (Qltb pm (5 # 10)) eqn:E; [discriminate |].
  apply Qltb_ge in E. intros [= <-]. simpl.
  exists b, f, pm. repeat split; try assumption; lra.
Qed.

Lemma Part002_returned_margin_kept_witness :
  exists result,
    Part002.calculateCompetitiveRate Part002.config (Fin 90) (Fin 1350) (1 # 2)
      = Return result /\
    exists cost rate margin,
      Part002.baseCost result = Fin cost /\ Part002.targetRate result = Fin rate /\
      Part002.profitMargin result = Fin margin /\
      (cost < rate)%Q /\ (5 # 10 <= margin)%Q.
Proof.
  eexists. split; [vm_compute; reflexivity |].
  apply (Part002_returned_margin_kept 90 1350 (1 # 2)); [lra | lra |].
  vm_compute. reflexivity.
Defined.

(** ** Retries and fetchers *)

Lemma retryLoop_outcome (requestFn : nat -> outcome value) (k : nat) :
  forall i remaining,
    (k < remaining)%nat ->
    (forall j, (j < k)%nat -> exists e, requestFn (i + j)%nat = Throw e) ->
    (forall data, requestFn (i + k)%nat = Return data ->
                  retryLoop requestFn i remaining = Return data) /\
    (forall e, requestFn (i + k)%nat = Throw e -> S k = remaining ->
               retryLoop requestFn i remaining = Throw e).
Proof.
  induction k as [| k IH]; intros i remaining Hk Hfail.
  - destruct remaining as [| rest]; [lia |]. rewrite Nat.add_0_r. simpl.
    split.
    + intros data ->. reflexivity.
    + intros e -> Hlast. assert (rest = 0%nat) as -> by lia. reflexivity.
  - destruct remaining as [| rest]; [lia |]. simpl.
    destruct (Hfail 0%nat ltac:(lia)) as [e0 He0]. rewrite Nat.add_0_r in He0.
    rewrite He0. destruct rest as [| rest']; [lia |].
    destruct (IH (S i) (S rest') ltac:(lia)) as [Hok Hlast].
    { intros j Hj. destruct (Hfail (S j) ltac:(lia)) as [e He].
      exists e. rewrite <- He. f_equal. lia. }
    replace (i + S k)%nat with (S i + k)%nat by lia. split.
    + exact Hok.
    + intros e He Hend. apply Hlast; [exact He | lia].
Qed.

(** The retry loop returns what the first successful attempt returns,
    whatever the attempts after it would give; and when every allowed
    attempt fails, it throws the error of the last one. *)
Theorem retryableRequest_first_success_or_last_error
    (requestFn : nat -> outcome value) (retries k : nat) :
  (k < retries)%nat ->
  (forall j, (j < k)%nat -> exists e, requestFn j = Throw e) ->
  (forall data, requestFn k = Return data ->
                retryableRequest requestFn retries = Return data) /\
  (forall e, requestFn k = Throw e -> S k = retries ->
             retryableRequest requestFn retries = Throw e).
Proof.
  intros Hk Hfail. unfold retryableRequest.
  apply (retryLoop_outcome requestFn k 0 retries Hk). exact Hfail.
Qed.

Lemma retryableRequest_first_success_or_last_error_witness :
  let flaky (i : nat) : outcome value :=
    if Nat.ltb i 2 then Throw (newExternalAPIError (Text "Request timeout") NoDetails)
    else Return (VStr "third time lucky") in
  (forall data, flaky 2%nat = Return data -> retryableRequest flaky 5 = Return data) /\
  (forall e, flaky 2%nat = Throw e -> 3%nat = 5%nat -> retryableRequest flaky 5 = Throw e).
Proof.
  intros flaky.
  apply (retryableRequest_first_success_or_last_error flaky 5 2).
  - lia.
  - intros j Hj. exists (newExternalAPIError (Text "Request timeout") NoDetails).
    destruct j as [| [| j]]; [reflexivity | reflexivity | lia].
Defined.

Lemma geckoRate_positive (parseFloat : value -> num) (quote : value) (r : num) :
  geckoRate parseFloat quote = Return (Some r) ->
  isNaN r = false /\ (r >? int 0)%num = true.
Proof.
  unfold geckoRate, parsed, bind. destruct (truthy quote); [| discriminate].
  destruct (convertible quote); [| discriminate].
  destruct (isNaN (parseFloat quote)) eqn:En; simpl; [discriminate |].
  destruct (parseFloat quote >? int 0)%num eqn:Ep; [| discriminate].
  intros [= <-]. split; assumption.
Qed.

Lemma fetchCoinGecko_rates (parseFloat : value -> num) (ev : HttpEvent) :
  match fetchCoinGecko parseFloat ev with
  | Return quote =>
      (forall r, inr quote = Some r -> isNaN r = false /\ (r >? int 0)%num = true) /\
      (forall r, ngn quote = Some r -> isNaN r = false /\ (r >? int 0)%num = true)
  | Throw _ => True
  end.
Proof.
  unfold fetchCoinGecko, bind.
  destruct (httpRequest ev) as [data | e]; [| exact I].
  destruct (negb (truthy data) || negb (truthy (field data "tether"))); [exact I |].
  destruct (geckoRate parseFloat (field (field data "tether") "inr")) as [i | e] eqn:Ei;
    [| exact I].
  destruct (geckoRate parseFloat (field (field data "tether") "ngn")) as [n | e] eqn:En;
    [| exact I].
  split; intros r Hr; simpl in Hr; subst; eapply geckoRate_positive; eassumption.
Qed.

(** ** More on the analyser *)



Lemma nonEmptyArray_items (v : value) :
  nonEmptyArray v = true -> exists first rest, v = VArr (first :: rest).
Proof. destruct v as [| | | | | [| first rest] |]; try discriminate. eauto. Qed.

(** What the analyser does on any payload, spelled out: the guard, then
    the ladder over the parsed ads. *)
Lemma analyzeP2P_cases (parseFloat parseInt : value -> num) (filters : Conf.Filters)
    (data : value) :
  (analyzeP2P parseFloat parseInt filters data
   = Throw (newExternalAPIError (Text "Invalid P2P data for analysis") NoDetails)
   /\ (truthy data = false \/ nonEmptyArray (field data "data") = false))
  \/
  exists first rest,
    truthy data = true /\ field data "data" = VArr (first :: rest) /\
    let ads := parseAds parseFloat parseInt (first :: rest) in
    (ads = [] /\
     analyzeP2P parseFloat parseInt filters data
     = Throw (newExternalAPIError (Text "No valid P2P ads found") NoDetails))
    \/
    (ads <> [] /\
     List.filter (passes (Conf.strict filters)) ads = [] /\
     List.filter (passes (Conf.relaxed filters)) ads = [] /\
     analyzeP2P parseFloat parseInt filters data
     = Throw (newExternalAPIError (Text "No P2P ads meet quality criteria") NoDetails))
    \/
    exists f kept,
      ((f = Conf.strict filters) \/
       (f = Conf.relaxed filters /\ List.filter (passes (Conf.strict filters)) ads = [])) /\
      kept = List.filter (passes f) ads /\ kept <> [] /\
      analyzeP2P parseFloat parseInt filters data
      = statistics (length ads) (length kept) (take 5 (sortByPrice kept)).
Proof.
  destruct (truthy data) eqn:Et.
  2:{ left. unfold analyzeP2P. rewrite Et. simpl. tauto. }
  destruct (nonEmptyArray (field data "data")) eqn:En.
  2:{ left. unfold analyzeP2P. rewrite Et, En. simpl. tauto. }
  right. destruct (nonEmptyArray_items _ En) as (first & rest & Hd).
  exists first, rest. split; [reflexivity |]. split; [exact Hd |].
  intros ads. unfold analyzeP2P. rewrite Et, En, Hd. simpl negb. simpl orb. cbv iota.
  fold ads.
  destruct (Nat.eqb (length ads) 0) eqn:Ea.
  { left. apply length_zero_nil in Ea. tauto. }
  assert (Hads : ads <> []) by (intros E; rewrite E in Ea; discriminate).
  right.
  destruct (Nat.eqb (length (List.filter (passes (Conf.strict filters)) ads)) 0) eqn:Es.
  - apply length_zero_nil in Es.
    destruct (Nat.eqb (length (List.filter (passes (Conf.relaxed filters)) ads)) 0) eqn:Er.
    + apply length_zero_nil in Er. left. tauto.
    + right. exists (Conf.relaxed filters), (List.filter (passes (Conf.relaxed filters)) ads).
      repeat split; try tauto.
      intros E. rewrite E in Er. discriminate.
  - right. exists (Conf.strict filters), (List.filter (passes (Conf.strict filters)) ads).
    repeat split; try tauto.
    intros E. rewrite E in Es. discriminate.
Qed.


(** A payload that [fetchBinanceP2P] returned passes the analyser's own
    guard: analysing it can only fail for want of parsable or quality
    ads. *)
Theorem fetched_payload_passes_analyser_guard
    (parseFloat parseInt : value -> num) (filters : Conf.Filters)
    (retries : nat) (events : nat -> HttpEvent) (data : value) :
  fetchBinanceP2P retries events = Return data ->
  exists first rest,
    field data "data" = VArr (first :: rest) /\
    forall e, analyzeP2P parseFloat parseInt filters data = Throw e ->
              message e = Text "No valid P2P ads found" \/
              message e = Text "No P2P ads meet quality criteria".
Proof.
  intros Hf.
  assert (Hguard : truthy data = true /\ nonEmptyArray (field data "data") = true).
  { revert Hf. unfold fetchBinanceP2P, bind.
    destruct (retryableRequest _ retries) as [d | e]; [| discriminate].
    destruct (truthy d) eqn:E; simpl; [| discriminate].
    destruct (nonEmptyArray (field d "data")) eqn:En; simpl; [| discriminate].
    intros [= <-]. split; assumption. }
  destruct Hguard as [Ht Hn].
  destruct (analyzeP2P_cases parseFloat parseInt filters data)
    as [[_ [Hbad | Hbad]] | (first & rest & _ & Hd & Hcases)]; try congruence.
  exists first, rest. split; [exact Hd |]. intros e He.
  cbv zeta in Hcases.
  destruct Hcases as [[_ H] | [(_ & _ & _ & H) | (f & kept & _ & Hkept & Hne & H)]];
    rewrite H in He.
  - injection He as <-. left. reflexivity.
  - injection He as <-. right. reflexivity.
  - destruct (statistics_returns (length (parseAds parseFloat parseInt (first :: rest)))
                (length kept) _ (top5_nonempty kept Hne)) as (stats & Hs & _).
    congruence.
Qed.

Lemma fetched_payload_passes_analyser_guard_witness :
  exists first rest,
    field Samples.book "data" = VArr (first :: rest) /\
    forall e, analyzeP2P Builtins.parseFloat Builtins.parseInt qualityFilters Samples.book
              = Throw e ->
              message e = Text "No valid P2P ads found" \/
              message e = Text "No P2P ads meet quality criteria".
Proof.
  apply (fetched_payload_passes_analyser_guard Builtins.parseFloat Builtins.parseInt
           qualityFilters 5 (fun _ => Response 200 (Some Samples.book)) Samples.book).
  reflexivity.
Defined.

Lemma sorted_head_cheapest (best : Ad) (rest : list Ad) (a : Ad) :
  price best = Fin (priceQ best) ->
  StronglySorted cheaper (best :: rest) ->
  In a (best :: rest) -> cheaper best a.
Proof.
  intros Hb Hs [<- | Ha].
  - unfold cheaper. rewrite Hb. unfold JS.le. qtests. lra.
  - inversion Hs as [| ? ? _ Hall]; subst.
    rewrite List.Forall_forall in Hall. apply Hall. exact Ha.
Qed.

Lemma take_head {A : Type} (n : nat) (l : list A) (a : A) (rest : list A) :
  take (S n) l = a :: rest -> exists rest', l = a :: rest'.
Proof. destruct l as [| b l']; simpl; [discriminate |]. intros [= -> _]. eauto. Qed.

(** [lowestRate] is the price of a quality ad, and no ad of the payload
    that passes the filter in force (the strict one, or the relaxed one
    when the strict one keeps nothing) is cheaper: the ranking loses no
    cheaper offer when it keeps five ads. *)
Theorem lowestRate_is_cheapest_quality_ad
    (parseFloat parseInt : value -> num) (data : value) (stats : P2PStats) :
  analyzeP2P parseFloat parseInt (Conf.filters config) data = Return stats ->
  exists items f,
    field data "data" = VArr items /\
    let ads := parseAds parseFloat parseInt items in
    (f = Conf.strict (Conf.filters config) \/
     (f = Conf.relaxed (Conf.filters config) /\
      List.filter (passes (Conf.strict (Conf.filters config))) ads = [])) /\
    (exists best, In best ads /\ passes f best = true /\ lowestRate stats = price best) /\
    (forall a, In a ads -> passes f a = true ->
               (lowestRate stats <=? price a)%num = true).
Proof.
  intros H.
  destruct (analyzeP2P_cases parseFloat parseInt (Conf.filters config) data)
    as [[E _] | (first & rest & _ & Hd & Hcases)]; [congruence |].
  cbv zeta in Hcases.
  destruct Hcases as [[_ E] | [(_ & _ & _ & E) | (f & kept & Hf & Hkept & Hne & E)]];
    try congruence.
  rewrite E in H. clear E.
  exists (first :: rest), f. split; [exact Hd |]. cbv zeta.
  set (ads := parseAds parseFloat parseInt (first :: rest)) in *.
  split; [exact Hf |].
  assert (Hf' : f = Conf.strict qualityFilters \/ f = Conf.relaxed qualityFilters)
    by (destruct Hf as [-> | [-> _]]; [left | right]; reflexivity).
  assert (Hfin : Forall (fun b => price b = Fin (priceQ b)) kept).
  { apply List.Forall_forall. intros a Ha. rewrite Hkept in Ha.
    apply filter_In_passes in Ha. apply (passes_quality f a Hf' Ha). }
  pose proof (sortByPrice_sorted kept Hfin) as Hsorted.
  unfold statistics in H.
  destruct (take 5 (sortByPrice kept)) as [| best top] eqn:Etop;
    [discriminate |].
  injection H as <-. simpl lowestRate.
  destruct (take_head _ _ _ _ Etop) as [others Hall].
  assert (Hbest : In best kept).
  { apply list_elem_of_In. rewrite <- (sortByPrice_perm kept), Hall. left. }
  assert (Hbp : passes f best = true).
  { rewrite Hkept in Hbest. apply filter_In_passes in Hbest. exact Hbest. }
  split.
  - exists best. split; [| split; [exact Hbp | reflexivity]].
    rewrite Hkept in Hbest. apply List.filter_In in Hbest. apply Hbest.
  - intros a Ha Hp.
    assert (Hk : In a kept) by (rewrite Hkept; apply List.filter_In; split; assumption).
    rewrite Hall in Hsorted.
    apply (sorted_head_cheapest best others a).
    + apply (passes_quality f best Hf' Hbp).
    + exact Hsorted.
    + apply list_elem_of_In. rewrite <- Hall, (sortByPrice_perm kept).
      apply list_elem_of_In. exact Hk.
Qed.

Lemma lowestRate_is_cheapest_quality_ad_witness :
  exists stats items f,
    analyzeP2P Builtins.parseFloat Builtins.parseInt (Conf.filters config) Samples.book
      = Return stats /\
    field Samples.book "data" = VArr items /\
    let ads := parseAds Builtins.parseFloat Builtins.parseInt items in
    (f = Conf.strict (Conf.filters config) \/
     (f = Conf.relaxed (Conf.filters config) /\
      List.filter (passes (Conf.strict (Conf.filters config))) ads = [])) /\
    (exists best, In best ads /\ passes f best = true /\ lowestRate stats = price best) /\
    (forall a, In a ads -> passes f a = true ->
               (lowestRate stats <=? price a)%num = true).
Proof.
  destruct (analyzeP2P Builtins.parseFloat Builtins.parseInt (Conf.filters config)
              Samples.book) as [stats | e] eqn:E; [| vm_compute in E; discriminate].
  exists stats.
  destruct (lowestRate_is_cheapest_quality_ad Builtins.parseFloat Builtins.parseInt
              Samples.book stats E) as (items & f & H).
  exists items, f. split; [reflexivity | exact H].
Defined.

Lemma qsum_between {A : Type} (g : A -> Q) (lo hi : Q) (l : list A) :
  (forall a, In a l -> lo <= g a /\ g a <= hi)%Q ->
  (inject_Z (Z.of_nat (length l)) * lo <= qsum g l 0
   /\ qsum g l 0 <= inject_Z (Z.of_nat (length l)) * hi)%Q.
Proof.
  induction l as [| a rest IH]; intros H.
  - unfold qsum. simpl. change (inject_Z (Z.of_nat 0)) with 0%Q. lra.
  - rewrite qsum_cons.
    destruct (H a (or_introl eq_refl)) as [Hlo Hhi].
    destruct IH as [IHlo IHhi]; [intros b Hb; apply H; now right |].
    change (length (a :: rest)) with (S (length rest)).
    rewrite Nat2Z.inj_succ. unfold Z.succ. rewrite inject_Z_plus.
    change (inject_Z 1) with 1%Q. split; lra.
Qed.

(** Under the configured filters the simple average of a result is a
    finite number between [lowestRate] and the highest ranked price, all
    of them within the price band of the filters (70 to 120). *)
Theorem simpleAvg_between_extremes
    (parseFloat parseInt : value -> num) (data : value) (stats : P2PStats) :
  analyzeP2P parseFloat parseInt (Conf.filters config) data = Return stats ->
  exists low avg hi,
    lowestRate stats = Fin low /\ simpleAvg stats = Fin avg /\
    In hi (topAds stats) /\
    (forall a, In a (topAds stats) -> low <= priceQ a <= priceQ hi)%Q /\
    (70 <= low /\ low <= avg /\ avg <= priceQ hi /\ priceQ hi <= 120)%Q.
Proof.
  intros H. apply analyzeP2P_returned in H.
  destruct H as (ads & f & kept & Hf & Hkept & Hne & Hs).
  assert (Hq : forall a, In a kept ->
                 price a = Fin (priceQ a) /\ (70 <= priceQ a <= 120)%Q).
  { intros a Ha. rewrite Hkept in Ha. apply filter_In_passes in Ha.
    destruct (passes_quality f a Hf Ha) as (Hp & Hb & _). split; assumption. }
  assert (Hfin : Forall (fun b => price b = Fin (priceQ b)) kept).
  { apply List.Forall_forall. intros a Ha. apply (Hq a Ha). }
  pose proof (StronglySorted_take cheaper 5 _ (sortByPrice_sorted kept Hfin)) as Hsorted.
  assert (Hsub : forall a, In a (take 5 (sortByPrice kept)) -> In a kept)
    by (intros a; apply top5_subset).
  pose proof (top5_nonempty kept Hne) as Htop.
  set (top := take 5 (sortByPrice kept)) in *.
  unfold statistics in Hs. destruct top as [| best rest] eqn:Etop; [contradiction |].
  injection Hs as <-. simpl lowestRate. simpl simpleAvg. simpl topAds.
  destruct (price_extremes (best :: rest) Htop) as (lo & hi & Hlo & Hhi & Hall).
  assert (Hbest : forall a, In a (best :: rest) -> (priceQ best <= priceQ a)%Q).
  { intros a Ha.
    pose proof (sorted_head_cheapest best rest a
                  (proj1 (Hq best (Hsub best (or_introl eq_refl)))) Hsorted Ha) as Hc.
    unfold cheaper in Hc.
    rewrite (proj1 (Hq best (Hsub best (or_introl eq_refl)))),
            (proj1 (Hq a (Hsub a Ha))) in Hc.
    unfold JS.le in Hc. qtests. exact Hc. }
  assert (Hsum : sumOver price (best :: rest)
                 = Fin (qsum priceQ (best :: rest) (inject_Z 0))).
  { apply sumOver_Fin. intros a Ha. apply (Hq a (Hsub a Ha)). }
  set (n := inject_Z (Z.of_nat (length (best :: rest)))).
  assert (Hn : (1 <= n)%Q).
  { unfold n. change 1%Q with (inject_Z 1). rewrite <- Zle_Qle. simpl length. lia. }
  exists (priceQ best), (qsum priceQ (best :: rest) 0 / n)%Q, hi.
  split; [apply (Hq best (Hsub best (or_introl eq_refl))) |].
  split.
  { rewrite Hsum. unfold int. fold n. apply div_Fin. lra. }
  split; [exact Hhi |].
  split.
  { intros a Ha. split; [apply Hbest; exact Ha | apply (Hall a Ha)]. }
  destruct (qsum_between priceQ (priceQ best) (priceQ hi) (best :: rest)) as [Hl Hu].
  { intros a Ha. split; [apply Hbest; exact Ha | apply (Hall a Ha)]. }
  fold n in Hl, Hu.
  split; [apply (Hq best (Hsub best (or_introl eq_refl))) |].
  split; [apply Qle_shift_div_l; lra |].
  split; [apply Qle_shift_div_r; lra |].
  apply (Hq hi (Hsub hi Hhi)).
Qed.

Lemma simpleAvg_between_extremes_witness :
  exists stats low avg hi,
    analyzeP2P Builtins.parseFloat Builtins.parseInt (Conf.filters config) Samples.book
      = Return stats /\
    lowestRate stats = Fin low /\ simpleAvg stats = Fin avg /\
    In hi (topAds stats) /\
    (forall a, In a (topAds stats) -> low <= priceQ a <= priceQ hi)%Q /\
    (70 <= low /\ low <= avg /\ avg <= priceQ hi /\ priceQ hi <= 120)%Q.
Proof.
  destruct (analyzeP2P Builtins.parseFloat Builtins.parseInt (Conf.filters config)
              Samples.book) as [stats | e] eqn:E; [| vm_compute in E; discriminate].
  exists stats.
  destruct (simpleAvg_between_extremes Builtins.parseFloat Builtins.parseInt
              Samples.book stats E) as (low & avg & hi & H).
  exists low, avg, hi. split; [reflexivity | exact H].
Defined.

(** ** More on fees and request validation *)

Lemma calculateFees_scheduled (q : Q) :
  exists p,
    schedulePercent q = Fin p /\ ((75 # 100) <= p <= (25 # 10))%Q /\
    calculateFees feeTiers (Fin q)
    = Return (mkFees (Fin p) (Fin (q * p / inject_Z 100))
                (Fin (q + - (q * p / inject_Z 100)))).
Proof.
  destruct (firstTier_unbounded (Fin q) feeTiers eq_refl) as [tier Htier].
  { unfold feeTiers. do 4 apply Exists_cons_tl. apply Exists_cons_hd. reflexivity. }
  pose proof (schedulePercent_firstTier q tier Htier) as Hp.
  unfold calculateFees. rewrite Htier. unfold feesAt. rewrite Hp.
  unfold schedulePercent.
  repeat match goal with
  | |- context [Qle_bool ?x ?y] => destruct (Qle_bool x y)
  end;
    (eexists; split; [reflexivity |]; split; [split; discriminate |]);
    unfold dec; change (Fin q * Fin ?p)%num with (Fin (q * p));
    rewrite div_100; reflexivity.
Qed.

(** Under the configured table, the fee and the net amount being
    evaluated exactly, paying in more never yields less: the net amount
    does not decrease when the amount grows, although the fee percentage
    drops at each tier boundary; and the fee is never more than 2.5% of
    the amount, so the net amount is at least 97.5% of it.  In binary64
    the two bounds hold up to the rounding of the last place. *)
Theorem netAmount_monotone_and_fee_bounded (a b : Q) :
  (0 <= a)%Q -> (a <= b)%Q ->
  exists fa fb na nb fee,
    calculateFees (Conf.tiers config) (Fin a) = Return fa /\
    calculateFees (Conf.tiers config) (Fin b) = Return fb /\
    netAmount fa = Fin na /\ netAmount fb = Fin nb /\ feeAmount fa = Fin fee /\
    (na <= nb)%Q /\
    (0 <= fee /\ fee <= (25 # 1000) * a)%Q /\
    ((975 # 1000) * a <= na /\ na <= a)%Q.
Proof.
  intros Ha Hab. change (Conf.tiers config) with feeTiers.
  destruct (calculateFees_scheduled a) as (pa & Hpa & Hra & Ea).
  destruct (calculateFees_scheduled b) as (pb & Hpb & Hrb & Eb).
  rewrite Ea, Eb. do 5 eexists.
  do 5 (split; [reflexivity |]).
  change (inject_Z 100) with 100%Q.
  assert (Hmono : (pb <= pa)%Q).
  { revert Hpa Hpb. unfold schedulePercent, dec.
    repeat match goal with
    | |- context [Qle_bool ?x ?y] => destruct (Qle_bool x y) eqn:?
    end; intros [= <-] [= <-]; qtests; try discriminate; lra. }
  assert (Hfa : (0 <= a * pa)%Q) by nra.
  assert (Hfa' : (a * pa <= a * (25 # 10))%Q) by nra.
  assert (Hb1 : (a * (100 - pa) <= b * (100 - pa))%Q) by nra.
  assert (Hb2 : (b * (100 - pa) <= b * (100 - pb))%Q) by nra.
  assert (Hdiv : forall x, (x / 100 == x * (1 # 100))%Q) by (intros x; field).
  rewrite !Hdiv.
  split; [| split]; [| split |]; try split; lra.
Qed.

Lemma netAmount_monotone_and_fee_bounded_witness :
  exists fa fb na nb fee,
    calculateFees (Conf.tiers config) (Fin 10000) = Return fa /\
    calculateFees (Conf.tiers config) (Fin 10001) = Return fb /\
    netAmount fa = Fin na /\ netAmount fb = Fin nb /\ feeAmount fa = Fin fee /\
    (na <= nb)%Q /\
    (0 <= fee /\ fee <= (25 # 1000) * 10000)%Q /\
    ((975 # 1000) * 10000 <= na /\ na <= 10000)%Q.
Proof.
  apply (netAmount_monotone_and_fee_bounded 10000 10001); lra.
Defined.

(** The fee itself is not monotone: one naira more than the first bound
    moves the amount to the 2% tier, and the fee falls from 250 to
    200.02. *)
Example feeAmount_drops_at_tier_boundary :
  calculateFees (Conf.tiers config) (int 10000)
  = Return (mkFees (dec 25 10) (Fin (10000 * (25 # 10) / 100))
              (Fin (10000 + - (10000 * (25 # 10) / 100))))
  /\ calculateFees (Conf.tiers config) (int 10001)
     = Return (mkFees (dec 20 10) (Fin (10001 * (20 # 10) / 100))
                 (Fin (10001 + - (10001 * (20 # 10) / 100))))
  /\ (10001 * (20 # 10) / 100 < 10000 * (25 # 10) / 100)%Q.
Proof. split; [reflexivity | split; [reflexivity | reflexivity]]. Qed.

Lemma isStr_eq (expected : string) (v : value) :
  isStr expected v = true <-> v = VStr expected.
Proof.
  destruct v; simpl; split; try discriminate.
  - intros H. apply String.eqb_eq in H. congruence.
  - intros [= ->]. apply String.eqb_refl.
Qed.

(** Under the configuration of src/script.js, [validateConversionRequest]
    accepts exactly the requests whose amount is a finite number from the
    minimum (1000) to the maximum (5000000), both included, with source
    currency "NGN" and target currency "INR"; every other request is
    refused with a ValidationError (status 400). *)
Theorem validateConversionRequest_accepts_exactly (amount from to : value) :
  (validateConversionRequest config amount from to = Return true <->
   exists q, amount = VNum (Fin q) /\ (1000 <= q <= 5000000)%Q /\
             from = VStr "NGN" /\ to = VStr "INR")
  /\ (forall e, validateConversionRequest config amount from to = Throw e ->
                name e = ValidationError /\ statusCode e = Some 400).
Proof.
  unfold validateConversionRequest. simpl Conf.limits.
  simpl Conf.minTransaction. simpl Conf.maxTransaction.
  split.
  - split.
    + destruct amount as [| | | n | | |]; try discriminate.
      destruct n as [| | | q]; try discriminate.
      simpl isNaN. cbv iota.
      destruct (Fin q <=? int 0)%num eqn:E0; [discriminate |].
      destruct (Fin q <? int 1000)%num eqn:E1; [discriminate |].
      destruct (Fin q >? int 5000000)%num eqn:E2; [discriminate |].
      destruct (isStr "NGN" from) eqn:Ef; [| discriminate].
      destruct (isStr "INR" to) eqn:Et; [| discriminate].
      intros _. exists q.
      apply isStr_eq in Ef. apply isStr_eq in Et.
      unfold JS.lt, JS.gt, JS.lt, int in E1, E2.
      change (inject_Z 1000) with 1000%Q in E1.
      change (inject_Z 5000000) with 5000000%Q in E2.
      qtests. repeat split; assumption.
    + intros (q & -> & [Hlo Hhi] & -> & ->). simpl isNaN. cbv iota.
      assert (E0 : (Fin q <=? int 0)%num = false).
      { unfold JS.le, int. change (inject_Z 0) with 0%Q. apply Qle_bool_gt. lra. }
      assert (E1 : (Fin q <? int 1000)%num = false).
      { unfold JS.lt, int. change (inject_Z 1000) with 1000%Q. apply Qltb_ge. lra. }
      assert (E2 : (Fin q >? int 5000000)%num = false).
      { unfold JS.gt, JS.lt, int. change (inject_Z 5000000) with 5000000%Q.
        apply Qltb_ge. lra. }
      rewrite E0, E1, E2. reflexivity.
  - intros e.
    destruct amount as [| | | n | | |]; try (intros [= <-]; split; reflexivity).
    destruct (isNaN n); [intros [= <-]; split; reflexivity |].
    destruct (n <=? int 0)%num; [intros [= <-]; split; reflexivity |].
    destruct (n <? int 1000)%num; [intros [= <-]; split; reflexivity |].
    destruct (n >? int 5000000)%num; [intros [= <-]; split; reflexivity |].
    destruct (isStr "NGN" from); [| intros [= <-]; split; reflexivity].
    destruct (isStr "INR" to); [| intros [= <-]; split; reflexivity].
    discriminate.
Qed.

(** ** More on the aggregator *)



(** On a cache miss, a returned snapshot tells which of the two optional
    sources failed: the spot price is [null] exactly when the spot fetch
    failed, the [errors] list names the failed sources in the order spot,
    reference (and never the order book), it is [undefined] exactly when
    both fetches succeeded, and [usedFallback] is set exactly when the
    snapshot carries no reference rate for the markup currency. *)
Theorem getMarketData_reports_failed_sources
    (parseFloat parseInt : value -> num) (cfg : Conf.Config)
    (useCache : bool) (now : Z) (feeds : Feeds) (st st1 : State)
    (snapshot : MarketData) :
  cacheMiss useCache now st ->
  getMarketData parseFloat parseInt cfg useCache now feeds st = (Return snapshot, st1) ->
  let spot := fetchBinanceSpot parseFloat (spotFeed feeds) in
  let reference := fetchCoinGecko parseFloat (geckoFeed feeds) in
  binanceSpot (rates snapshot)
    = match spot with Return p => Some p | Throw _ => None end /\
  map source (default [] (errors snapshot))
    = ((match spot with Return _ => [] | Throw _ => ["binanceSpot"] end) ++
       (match reference with Return _ => [] | Throw _ => ["coinGecko"] end))%list /\
  (errors snapshot = None <->
   (exists p, spot = Return p) /\ (exists g, reference = Return g)) /\
  usedFallback (rates snapshot) = negb (truthy_rate (coinGeckoNgn (rates snapshot))) /\
  timestamp snapshot = now.
Proof.
  intros Hmiss H. unfold cacheMiss in Hmiss. cbv zeta.
  unfold getMarketData in H. rewrite Hmiss in H.
  destruct (fetchBinanceSpot parseFloat (spotFeed feeds)) as [p | es];
    destruct (fetchCoinGecko parseFloat (geckoFeed feeds)) as [g | eg];
    destruct (fetchBinanceP2P (Conf.maxRetries cfg) (p2pFeed feeds)) as [d | ep];
    simpl in H; try discriminate;
    destruct (truthy d); simpl in H; try discriminate;
    destruct (analyzeP2P parseFloat parseInt (Conf.filters cfg) d) as [stats | e];
    try discriminate;
    injection H as <- <-; simpl;
    (split; [reflexivity |]); (split; [reflexivity |]);
    (split; [| split; reflexivity]);
    split; try discriminate; try (intros _; split; eexists; reflexivity);
    try (intros [[? ?] [? ?]]; discriminate).
Qed.

Lemma getMarketData_reports_failed_sources_witness :
  exists snapshot st1,
    getMarketData Builtins.parseFloat Builtins.parseInt config true 0
      Samples.feedsReferenceDown Samples.fresh = (Return snapshot, st1) /\
    let spot := fetchBinanceSpot Builtins.parseFloat (spotFeed Samples.feedsReferenceDown) in
    let reference :=
      fetchCoinGecko Builtins.parseFloat (geckoFeed Samples.feedsReferenceDown) in
    binanceSpot (rates snapshot)
      = match spot with Return p => Some p | Throw _ => None end /\
    map source (default [] (errors snapshot))
      = ((match spot with Return _ => [] | Throw _ => ["binanceSpot"] end) ++
         (match reference with Return _ => [] | Throw _ => ["coinGecko"] end))%list /\
    (errors snapshot = None <->
     (exists p, spot = Return p) /\ (exists g, reference = Return g)) /\
    usedFallback (rates snapshot) = negb (truthy_rate (coinGeckoNgn (rates snapshot))) /\
    timestamp snapshot = 0.
Proof.
  eexists. eexists. split; [reflexivity |].
  eapply (getMarketData_reports_failed_sources Builtins.parseFloat Builtins.parseInt
            config true 0 Samples.feedsReferenceDown Samples.fresh).
  - reflexivity.
  - reflexivity.
Defined.

Lemma lowestRate_in_band (parseFloat parseInt : value -> num)
    (data : value) (stats : P2PStats) :
  analyzeP2P parseFloat parseInt (Conf.filters config) data = Return stats ->
  exists l, lowestRate stats = Fin l /\ (70 <= l <= 120)%Q.
Proof.
  intros H. apply analyzeP2P_returned in H.
  destruct H as (ads & f & kept & Hf & Hkept & Hne & Hs).
  pose proof (top5_nonempty kept Hne) as Htop.
  unfold statistics in Hs.
  destruct (take 5 (sortByPrice kept)) as [| best rest] eqn:Etop; [contradiction |].
  injection Hs as <-. simpl.
  assert (Hb : In best kept) by (apply top5_subset; rewrite Etop; now left).
  rewrite Hkept in Hb. apply filter_In_passes in Hb.
  destruct (passes_quality f best Hf Hb) as (Hp & Hband & _).
  exists (priceQ best). split; assumption.
Qed.

(** A positive rate plus the markup is at least the markup: the sum can
    equal it where a small rate is absorbed by rounding, never fall below. *)
Lemma positive_plus_markup (r : num) :
  isNaN r = false -> (r >? int 0)%num = true ->
  isNaN (r + int 20)%num = false /\ (r + int 20 >=? int 20)%num = true.
Proof.
  destruct r as [| | | q]; try discriminate.
  - intros _ _. split; reflexivity.
  - intros _ Hq. unfold JS.gt, JS.lt, int in Hq. qtests.
    change (inject_Z 0) with 0%Q in Hq. split; [reflexivity |].
    change (Fin q + int 20)%num with (Fin (q + inject_Z 20)).
    unfold JS.ge, JS.le, int. apply Qle_bool_iff.
    change (inject_Z 20) with 20%Q. lra.
Qed.

(** Under the configuration of src/script.js, the two rates that a
    snapshot fetched on a cache miss hands to the pricing engine are in
    range: the lowest order-book price is a finite number within the
    price band of the filters (70 to 120), and the rate of the markup
    currency is not [NaN] and at least the flat markup of 20 (it need not
    exceed it: binary64 absorbs a rate below 1e-15 in the sum); it is
    the fallback constant plus the markup (1670) when the reference gave
    no rate; and a reference rate for the other currency, when present,
    is not [NaN] and strictly positive. *)
Theorem snapshot_rates_in_range
    (parseFloat parseInt : value -> num)
    (useCache : bool) (now : Z) (feeds : Feeds) (st st1 : State)
    (snapshot : MarketData) :
  cacheMiss useCache now st ->
  getMarketData parseFloat parseInt config useCache now feeds st
    = (Return snapshot, st1) ->
  (exists lowest,
     p2pLowest (rates snapshot) = Fin lowest /\ (70 <= lowest <= 120)%Q) /\
  isNaN (ngnRateWithMarkup (rates snapshot)) = false /\
  (ngnRateWithMarkup (rates snapshot) >=? int 20)%num = true /\
  (usedFallback (rates snapshot) = true ->
   JS.eqb (ngnRateWithMarkup (rates snapshot)) (int 1670) = true) /\
  (forall r, coinGeckoInr (rates snapshot) = Some r ->
             isNaN r = false /\ (r >? int 0)%num = true).
Proof.
  intros Hmiss H. unfold cacheMiss in Hmiss.
  unfold getMarketData in H. rewrite Hmiss in H.
  destruct (settle "binanceSpot" _ _) as [spot e0].
  pose proof (fetchCoinGecko_rates parseFloat (geckoFeed feeds)) as Hg.
  destruct (fetchCoinGecko parseFloat (geckoFeed feeds)) as [g | eg];
    simpl settle in H; cbv iota beta in H;
    destruct (settle "binanceP2P" _ _) as [p2pData e2];
    (destruct (negb _); [discriminate |]);
    destruct (analyzeP2P _ _ _ _) as [stats | e] eqn:Ea; try discriminate;
    injection H as <- _; simpl rates; simpl p2pLowest; simpl ngnRateWithMarkup;
    simpl usedFallback; simpl coinGeckoInr;
    (split; [exact (lowestRate_in_band _ _ _ _ Ea) |]).
  - destruct Hg as [Hinr Hngn]. simpl geckoNgn. simpl geckoInr.
    destruct (ngn g) as [r |] eqn:En.
    + destruct (Hngn r eq_refl) as [Hnan Hpos].
      assert (Ht : truthy_rate (Some r) = true).
      { simpl. destruct r as [| | | q]; try discriminate; try reflexivity.
        simpl. unfold JS.gt, JS.lt, int in Hpos. qtests.
        change (inject_Z 0) with 0%Q in Hpos.
        destruct (Qeq_bool q 0) eqn:E0; [qtests; lra | reflexivity]. }
      rewrite Ht. simpl default. simpl negb.
      destruct (positive_plus_markup r Hnan Hpos) as [H1 H2].
      repeat split; try assumption; try discriminate; apply Hinr; assumption.
    + simpl. repeat split; try reflexivity; apply Hinr; assumption.
  - simpl. repeat split; try reflexivity; discriminate.
Qed.

Lemma snapshot_rates_in_range_witness :
  exists snapshot st1,
    getMarketData Builtins.parseFloat Builtins.parseInt config true 0
      Samples.feedsReferenceDown Samples.fresh = (Return snapshot, st1) /\
    (exists lowest,
       p2pLowest (rates snapshot) = Fin lowest /\ (70 <= lowest <= 120)%Q) /\
    isNaN (ngnRateWithMarkup (rates snapshot)) = false /\
    (ngnRateWithMarkup (rates snapshot) >=? int 20)%num = true /\
    (usedFallback (rates snapshot) = true ->
     JS.eqb (ngnRateWithMarkup (rates snapshot)) (int 1670) = true) /\
    (forall r, coinGeckoInr (rates snapshot) = Some r ->
               isNaN r = false /\ (r >? int 0)%num = true).
Proof.
  eexists. eexists. split; [reflexivity |].
  eapply (snapshot_rates_in_range Builtins.parseFloat Builtins.parseInt true 0
            Samples.feedsReferenceDown Samples.fresh).
  - reflexivity.
  - reflexivity.
Defined.

(** ** Sessions: creation, reading, expiry *)

Lemma lt_int (a b : Z) : (int a <? int b)%num = (a <? b)%Z.
Proof.
  unfold JS.lt, int, Qltb.
  destruct (a <? b)%Z eqn:E.
  - apply Z.ltb_lt in E. apply negb_true_iff. apply Qle_bool_gt.
    rewrite <- Zlt_Qlt. exact E.
  - apply Z.ltb_ge in E. apply negb_false_iff. apply Qle_bool_iff.
    rewrite <- Zle_Qle. exact E.
Qed.

Lemma truthy_int (z : Z) : truthy (VNum (int z)) = negb (z =? 0)%Z.
Proof.
  simpl. f_equal. unfold int.
  destruct (z =? 0)%Z eqn:E.
  - apply Z.eqb_eq in E. subst. reflexivity.
  - apply Z.eqb_neq in E. apply Qeq_bool_neq_iff.
    intros H. apply E. unfold Qeq in H. simpl in H. lia.
Qed.

(** What a successful creation leaves in the store. *)
Lemma createTransactionSession_record
    (parseFloat : value -> num) (cfg : Conf.Config) (encryptData : value -> string)
    (stripNonNumeric : string -> string) (sessionId : string)
    (transactionData : TransactionData) (userDetails : UserDetails)
    (io : Io) (st st1 : State) (created : string * Z) :
  createTransactionSession parseFloat cfg encryptData stripNonNumeric sessionId
    transactionData userDetails io st = (Return created, st1) ->
  created = (sessionId, now io + Conf.sessionTTL cfg) /\
  metrics st1 = sessionOpened (metrics st) /\
  cache st1 = cache st /\ daily_totals st1 = daily_totals st /\
  exists session,
    transactions st1 = <[sessionId := session]> (transactions st) /\
    session !! "sessionId" = Some (VStr sessionId) /\
    session !! "status" = Some (VStr "pending") /\
    session !! "createdAt" = Some (VNum (int (now io))) /\
    session !! "expiresAt" = Some (VNum (int (now io + Conf.sessionTTL cfg))) /\
    session !! "encryptedUserDetails"
      = Some (VStr (encryptData (userDetailsJson userDetails))) /\
    session !! "encryptedTransaction"
      = Some (VStr (encryptData (lockedFields transactionData))).
Proof.
  unfold createTransactionSession.
  destruct (String.eqb (Conf.encryptionKey cfg) "" || _); [discriminate |].
  unfold dbSet. destruct (writeError io); [discriminate |].
  intros [= <- <-]. split; [reflexivity |].
  simpl. repeat (split; [reflexivity |]).
  eexists. split; [reflexivity |]. repeat split; reflexivity.
Qed.

(** Reading a session back.  When the cipher opens what it sealed, a
    session read no later than its expiry time returns the user details
    and the transaction figures given at creation, with status "pending"
    and the expiry time announced to the client (creation time plus the
    session time to live). *)
Theorem session_round_trip
    (parseFloat : value -> num) (cfg : Conf.Config)
    (encryptData : value -> string) (decryptData : string -> outcome value)
    (stripNonNumeric : string -> string) (sessionId : string)
    (transactionData : TransactionData) (userDetails : UserDetails)
    (io later : Io) (st st1 : State) (created : string * Z) :
  decryptData (encryptData (userDetailsJson userDetails))
    = Return (userDetailsJson userDetails) ->
  decryptData (encryptData (lockedFields transactionData))
    = Return (lockedFields transactionData) ->
  createTransactionSession parseFloat cfg encryptData stripNonNumeric sessionId
    transactionData userDetails io st = (Return created, st1) ->
  (now later <= now io + Conf.sessionTTL cfg)%Z ->
  exists stored,
    getTransactionSession decryptData sessionId later st1 = Return stored /\
    userDetailsOf stored = userDetailsJson userDetails /\
    transactionOf stored = lockedFields transactionData /\
    record stored !! "status" = Some (VStr "pending") /\
    record stored !! "expiresAt" = Some (VNum (int (snd created))) /\
    snd created = (now io + Conf.sessionTTL cfg)%Z.
Proof.
  intros Hu Ht Hc Hlater.
  apply createTransactionSession_record in Hc.
  destruct Hc as (-> & _ & _ & _ & session & Hst & _ & Hstatus & _ & Hexp & Heu & Het).
  unfold getTransactionSession. rewrite Hst, lookup_insert_eq.
  rewrite Hexp. simpl default. cbv iota. rewrite lt_int.
  assert (E : (now io + Conf.sessionTTL cfg <? now later)%Z = false)
    by (apply Z.ltb_ge; exact Hlater).
  rewrite E, andb_false_r.
  rewrite Heu, Het. simpl default. simpl strOf. rewrite Hu, Ht.
  eexists. split; [reflexivity |]. simpl. repeat split; assumption.
Qed.

Lemma session_round_trip_witness :
  exists stored,
    getTransactionSession (Sealed.decryptData Sealed.known) "6f1c2a9e-session"
      (mkIo 1736900300000 None) (snd Sealed.create) = Return stored /\
    userDetailsOf stored = userDetailsJson Sealed.customer /\
    transactionOf stored = lockedFields Sealed.order /\
    record stored !! "status" = Some (VStr "pending") /\
    record stored !! "expiresAt" = Some (VNum (int 1736900300000)) /\
    1736900300000 = (1736900000000 + Conf.sessionTTL Samples.deployed)%Z.
Proof.
  apply (session_round_trip Builtins.parseFloat Samples.deployed Samples.encryptData
           (Sealed.decryptData Sealed.known) Builtins.stripNonNumeric "6f1c2a9e-session"
           Sealed.order Sealed.customer Sealed.atCreation (mkIo 1736900300000 None)
           Samples.fresh (snd Sealed.create) ("6f1c2a9e-session", 1736900300000)).
  - reflexivity.
  - reflexivity.
  - reflexivity.
  - simpl. lia.
Defined.

(** After its time to live a session can no longer be read: reading it
    fails with the APIError "Session expired" (status 410), and a payment
    initialisation for it is refused with that error, the store left as
    it was.  (An expiry time of exactly zero is falsy and never counts as
    expired; the clock of a real creation rules it out.) *)
Theorem session_expires_after_ttl
    (parseFloat : value -> num) (cfg : Conf.Config)
    (encryptData : value -> string) (decryptData : string -> outcome value)
    (stripNonNumeric : string -> string) (sessionId : string)
    (transactionData : TransactionData) (userDetails : UserDetails)
    (io later : Io) (st st1 : State) (created : string * Z) :
  createTransactionSession parseFloat cfg encryptData stripNonNumeric sessionId
    transactionData userDetails io st = (Return created, st1) ->
  (now io + Conf.sessionTTL cfg <> 0)%Z ->
  (now io + Conf.sessionTTL cfg < now later)%Z ->
  getTransactionSession decryptData sessionId later st1
    = Throw (newAPIError (Text "Session expired") 410 NoDetails) /\
  (sessionId <> "" ->
   paymentInitialize decryptData sessionId later st1
   = (Refused 410 (newAPIError (Text "Session expired") 410 NoDetails) "api_error",
      withMetrics (requestFailed (metrics st1)) st1)).
Proof.
  intros Hc Hnz Hlate.
  apply createTransactionSession_record in Hc.
  destruct Hc as (_ & _ & _ & _ & session & Hst & _ & _ & _ & Hexp & _ & _).
  assert (Hread : getTransactionSession decryptData sessionId later st1
                  = Throw (newAPIError (Text "Session expired") 410 NoDetails)).
  { unfold getTransactionSession. rewrite Hst, lookup_insert_eq.
    rewrite Hexp. simpl default. cbv iota. rewrite lt_int, truthy_int.
    assert (E1 : (now io + Conf.sessionTTL cfg =? 0)%Z = false) by (apply Z.eqb_neq; exact Hnz).
    assert (E2 : (now io + Conf.sessionTTL cfg <? now later)%Z = true)
      by (apply Z.ltb_lt; exact Hlate).
    rewrite E1, E2. reflexivity. }
  split; [exact Hread |].
  intros Hid. unfold paymentInitialize.
  assert (E : String.eqb sessionId "" = false) by (apply String.eqb_neq; exact Hid).
  rewrite E, Hread. reflexivity.
Qed.

Lemma session_expires_after_ttl_witness :
  getTransactionSession (Sealed.decryptData Sealed.known) "6f1c2a9e-session"
    (mkIo 1736900300001 None) (snd Sealed.create)
    = Throw (newAPIError (Text "Session expired") 410 NoDetails) /\
  ("6f1c2a9e-session" <> "" ->
   paymentInitialize (Sealed.decryptData Sealed.known)
     "6f1c2a9e-session" (mkIo 1736900300001 None) (snd Sealed.create)
   = (Refused 410 (newAPIError (Text "Session expired") 410 NoDetails) "api_error",
      withMetrics (requestFailed (metrics (snd Sealed.create))) (snd Sealed.create))).
Proof.
  apply (session_expires_after_ttl Builtins.parseFloat Samples.deployed
           Samples.encryptData (Sealed.decryptData Sealed.known)
           Builtins.stripNonNumeric "6f1c2a9e-session" Sealed.order Sealed.customer
           Sealed.atCreation (mkIo 1736900300001 None) Samples.fresh
           (snd Sealed.create) ("6f1c2a9e-session", 1736900300000)).
  - reflexivity.
  - simpl. lia.
  - simpl. lia.
Defined.

(** Creating a session is all or nothing.  Either the session is stored
    under its identifier with status "pending", the counters [total] and
    [pending] each go up by one and the caller gets the identifier with
    the expiry time; or nothing changes at all (no session, no counter)
    and the caller gets a plain Error whose message starts with
    "Transaction session creation failed: ", which happens exactly when
    the encryption key is unset or the placeholder, or the store refuses
    the write. *)
Theorem createTransactionSession_all_or_nothing
    (parseFloat : value -> num) (cfg : Conf.Config) (encryptData : value -> string)
    (stripNonNumeric : string -> string) (sessionId : string)
    (transactionData : TransactionData) (userDetails : UserDetails)
    (io : Io) (st : State) :
  let keyMissing :=
    String.eqb (Conf.encryptionKey cfg) "" ||
    String.eqb (Conf.encryptionKey cfg) "change-this-encryption-key" in
  match createTransactionSession parseFloat cfg encryptData stripNonNumeric sessionId
          transactionData userDetails io st with
  | (Return created, st1) =>
      keyMissing = false /\ writeError io = None /\
      created = (sessionId, now io + Conf.sessionTTL cfg) /\
      sessionsOf (metrics st1)
        = (transactions_total (metrics st) + 1, transactions_pending (metrics st) + 1,
           transactions_completed (metrics st), transactions_failed (metrics st)) /\
      child st1 sessionId "status" = Some (VStr "pending") /\
      (forall other, other <> sessionId ->
                     transactions st1 !! other = transactions st !! other)
  | (Throw e, st1) =>
      (keyMissing = true \/ exists refusal, writeError io = Some refusal) /\
      st1 = st /\ name e = PlainError /\ statusCode e = None /\
      exists inner, message e = Wrapped "Transaction session creation failed: " inner
  end.
Proof.
  cbv zeta. unfold createTransactionSession.
  destruct (String.eqb (Conf.encryptionKey cfg) "" || _).
  { split; [left; reflexivity |]. repeat split. eexists. reflexivity. }
  unfold dbSet. destruct (writeError io) as [refusal |].
  { split; [right; eexists; reflexivity |]. repeat split. eexists. reflexivity. }
  repeat split.
  - unfold child. simpl. rewrite lookup_insert_eq. reflexivity.
  - intros other Hother. simpl. apply lookup_insert_ne. congruence.
Qed.

Lemma createTransactionSession_effects
    (parseFloat : value -> num) (cfg : Conf.Config) (encryptData : value -> string)
    (stripNonNumeric : string -> string) (sessionId : string)
    (transactionData : TransactionData) (userDetails : UserDetails)
    (io : Io) (st : State) :
  match createTransactionSession parseFloat cfg encryptData stripNonNumeric sessionId
          transactionData userDetails io st with
  | (Return created, st1) =>
      (String.eqb (Conf.encryptionKey cfg) "" ||
       String.eqb (Conf.encryptionKey cfg) "change-this-encryption-key") = false /\
      writeError io = None /\
      created = (sessionId, now io + Conf.sessionTTL cfg) /\
      requestsOf (metrics st1) = requestsOf (metrics st) /\
      child st1 sessionId "status" = Some (VStr "pending")
  | (Throw e, st1) => st1 = st /\ name e = PlainError
  end.
Proof.
  unfold createTransactionSession.
  destruct (String.eqb (Conf.encryptionKey cfg) "" || _); [split; reflexivity |].
  unfold dbSet. destruct (writeError io) as [refusal |]; [split; reflexivity |].
  repeat split.
  unfold child. simpl. rewrite lookup_insert_eq. reflexivity.
Qed.

(** ** POST /api/convert, end to end *)

Section ConvertFacts.

Variable parseFloat : value -> num.
Variable parseInt : value -> num.
Variable cfg : Conf.Config.
Variable encryptData : value -> string.
Variable stripNonNumeric : string -> string.
Variable toFixed : num -> nat -> string.
Variable numToString : num -> string.
Variable emailPattern : string -> bool.
Variable phonePattern : string -> bool.
Variable lastByIp : gmap string Session -> string -> list Session.

Lemma checkFraudRisk_keeps (userDetails : UserDetails) (amount : num)
    (address : string) (c : ConvertIo) (st : State) :
  let st1 := snd (checkFraudRisk cfg lastByIp userDetails amount address c st) in
  transactions st1 = transactions st /\ metrics st1 = metrics st /\ cache st1 = cache st.
Proof.
  cbv zeta. unfold checkFraudRisk.
  repeat match goal with
  | |- context [if ?b then _ else _] => destruct b
  end; simpl; repeat split.
Qed.

Lemma getMarketData_keeps (useCache : bool) (time : Z) (feeds : Feeds) (st : State) :
  let st1 := snd (getMarketData parseFloat parseInt cfg useCache time feeds st) in
  transactions st1 = transactions st /\
  requestsOf (metrics st1) = requestsOf (metrics st) /\
  sessionsOf (metrics st1) = sessionsOf (metrics st).
Proof.
  cbv zeta. unfold getMarketData.
  destruct (if useCache then cacheGet time "market_data" st else None) as [cached |].
  { repeat split. }
  destruct (settle "binanceSpot" _ _) as [spot e0].
  destruct (settle "coinGecko" _ _) as [gecko e1].
  destruct (settle "binanceP2P" _ _) as [p2pData e2].
  destruct (negb _); [repeat split |].
  destruct (analyzeP2P _ _ _ _); repeat split.
Qed.

Lemma calculateCompetitiveRate_keeps (lowest ngnRate : num) (reference : option num)
    (r1 r2 : Q) (m : Metrics) :
  let m1 := snd (calculateCompetitiveRate cfg lowest ngnRate reference r1 r2 m) in
  requestsOf m1 = requestsOf m /\ sessionsOf m1 = sessionsOf m.
Proof.
  cbv zeta. unfold calculateCompetitiveRate.
  destruct (_ <? _)%num; [| split; reflexivity].
  destruct reference as [r |]; [| split; reflexivity].
  destruct (truthy_num r && _); split; reflexivity.
Qed.

(** What the body of the route leaves behind, whichever way it ends. *)
Lemma convertBody_effects (req : ConvertRequest) (c : ConvertIo) (st : State) :
  match convertBody parseFloat parseInt cfg encryptData stripNonNumeric toFixed
          numToString emailPattern phonePattern lastByIp req c st with
  | (Return response, st1) =>
      requestsOf (metrics st1) = requestsOf (metrics st) /\
      sessionIdOf response = uuid c /\
      child st1 (uuid c) "status" = Some (VStr "pending") /\
      (String.eqb (Conf.encryptionKey cfg) "" ||
       String.eqb (Conf.encryptionKey cfg) "change-this-encryption-key") = false /\
      writeError (io c) = None
  | (Throw e, st1) =>
      requestsOf (metrics st1) = requestsOf (metrics st) /\
      transactions st1 = transactions st /\
      sessionsOf (metrics st1) = sessionsOf (metrics st)
  end.
Proof.
  unfold convertBody.
  destruct (findings c); [| repeat split].
  destruct (validateConversionRequest cfg _ _ _); [| repeat split].
  match goal with
  | |- context [if ?b then validateUserDetails _ _ _ else _] =>
      destruct (if b then validateUserDetails emailPattern phonePattern _ else Return true)
  end; [| repeat split].
  match goal with
  | |- context [checkFraudRisk cfg lastByIp ?u ?a ?i c st] =>
      pose proof (checkFraudRisk_keeps u a i c st) as Hf;
      destruct (checkFraudRisk cfg lastByIp u a i c st) as [risks stf]
  end.
  cbv zeta in Hf. simpl snd in Hf. destruct Hf as (Hft & Hfm & _).
  destruct (existsb isHigh risks).
  { rewrite Hft, Hfm. repeat split. }
  pose proof (getMarketData_keeps true (now (io c)) (feeds c) stf) as Hg.
  destruct (getMarketData parseFloat parseInt cfg true (now (io c)) (feeds c) stf)
    as [[marketData | e] stg]; cbv zeta in Hg; simpl snd in Hg;
    destruct Hg as (Hgt & Hgr & Hgs).
  2:{ rewrite Hgt, Hgr, Hgs, Hft, Hfm. repeat split. }
  match goal with
  | |- context [calculateCompetitiveRate cfg ?l ?n ?r ?a ?b ?m] =>
      pose proof (calculateCompetitiveRate_keeps l n r a b m) as Hp;
      destruct (calculateCompetitiveRate cfg l n r a b m) as [competitive mp]
  end.
  cbv zeta in Hp. simpl snd in Hp. destruct Hp as (Hpr & Hps).
  destruct (calculateFees (Conf.tiers cfg) _) as [fees | e].
  2:{ simpl. rewrite Hpr, Hps, Hgt, Hgr, Hgs, Hft, Hfm. repeat split. }
  match goal with
  | |- context [createTransactionSession parseFloat cfg encryptData stripNonNumeric
                  ?i ?t ?u ?o ?s] =>
      pose proof (createTransactionSession_effects parseFloat cfg encryptData
                    stripNonNumeric i t u o s) as Hc;
      destruct (createTransactionSession parseFloat cfg encryptData stripNonNumeric
                  i t u o s) as [[[sessionId expiresAt] | e] stc]
  end.
  - destruct Hc as (Hkey & Hw & Hcreated & Hr & Hchild).
    injection Hcreated as -> ->. simpl sessionIdOf.
    rewrite Hr. simpl metrics. rewrite Hpr, Hgr, Hfm.
    repeat split; assumption.
  - destruct Hc as [-> _]. simpl.
    rewrite Hpr, Hps, Hgt, Hgr, Hgs, Hft, Hfm. repeat split.
Qed.

(** Every POST /api/convert is counted exactly once: the request counter
    [total] goes up by one, together with [success] when the client gets
    the conversion and with [errors] when the error handler answers; and
    a request that is refused, for whatever reason, leaves the stored
    sessions and the session counters as they were. *)
Theorem convert_counted_once (req : ConvertRequest) (c : ConvertIo) (st : State) :
  match convert parseFloat parseInt cfg encryptData stripNonNumeric toFixed numToString
          emailPattern phonePattern lastByIp req c st with
  | (Converted response, st1) =>
      requestsOf (metrics st1)
        = (requests_total (metrics st) + 1, requests_success (metrics st) + 1,
           requests_errors (metrics st)) /\
      child st1 (sessionIdOf response) "status" = Some (VStr "pending")
  | (NotConverted reply, st1) =>
      requestsOf (metrics st1)
        = (requests_total (metrics st) + 1, requests_success (metrics st),
           requests_errors (metrics st) + 1) /\
      transactions st1 = transactions st /\
      sessionsOf (metrics st1) = sessionsOf (metrics st) /\
      exists code e kind, reply = Refused code e kind
  end.
Proof.
  unfold convert.
  pose proof (convertBody_effects req c st) as H.
  destruct (convertBody parseFloat parseInt cfg encryptData stripNonNumeric toFixed
              numToString emailPattern phonePattern lastByIp req c st)
    as [[response | e] st1].
  - destruct H as (Hr & Hid & Hchild & _).
    unfold requestsOf in Hr. injection Hr as H1 H2 H3.
    unfold requestsOf, requestSucceeded, child. simpl.
    rewrite H1, H2, H3, Hid. split; [reflexivity | exact Hchild].
  - destruct H as (Hr & Ht & Hs).
    unfold requestsOf in Hr. injection Hr as H1 H2 H3.
    unfold errorHandler, requestsOf, requestFailed.
    destruct (name e); simpl; rewrite H1, H2, H3;
      (split; [reflexivity |]); (split; [exact Ht |]); (split; [exact Hs |]);
      do 3 eexists; reflexivity.
Qed.

(** Without an encryption key no conversion succeeds: when the configured
    key is empty or the placeholder of the source (as it is in [config],
    where ENCRYPTION_KEY is unset), every POST /api/convert is answered by
    the error handler, and no session is stored. *)
Theorem convert_needs_encryption_key (req : ConvertRequest) (c : ConvertIo) (st : State) :
  Conf.encryptionKey cfg = "" \/
  Conf.encryptionKey cfg = "change-this-encryption-key" ->
  exists code e kind st1,
    convert parseFloat parseInt cfg encryptData stripNonNumeric toFixed numToString
      emailPattern phonePattern lastByIp req c st
    = (NotConverted (Refused code e kind), st1) /\
    transactions st1 = transactions st.
Proof.
  intros Hkey.
  assert (Hmissing : (String.eqb (Conf.encryptionKey cfg) "" ||
                      String.eqb (Conf.encryptionKey cfg) "change-this-encryption-key")
                     = true).
  { destruct Hkey as [-> | ->]; reflexivity. }
  unfold convert.
  pose proof (convertBody_effects req c st) as H.
  destruct (convertBody parseFloat parseInt cfg encryptData stripNonNumeric toFixed
              numToString emailPattern phonePattern lastByIp req c st)
    as [[response | e] st1].
  - destruct H as (_ & _ & _ & Hk & _). congruence.
  - destruct H as (_ & Ht & _).
    unfold errorHandler. destruct (name e); simpl; do 4 eexists; split;
      try reflexivity; exact Ht.
Qed.

End ConvertFacts.

Lemma convert_needs_encryption_key_witness :
  exists code e kind st1,
    convert Builtins.parseFloat Builtins.parseInt config Samples.encryptData
      Builtins.stripNonNumeric Builtins.toFixed Builtins.numToString
      Builtins.emailPattern Builtins.phonePattern Samples.lastByIp
      (Samples.request (VNum (int 100000))) (Samples.answers Samples.feedsUp)
      Samples.fresh
    = (NotConverted (Refused code e kind), st1) /\
    transactions st1 = transactions Samples.fresh.
Proof.
  apply (convert_needs_encryption_key Builtins.parseFloat Builtins.parseInt config
           Samples.encryptData Builtins.stripNonNumeric Builtins.toFixed
           Builtins.numToString Builtins.emailPattern Builtins.phonePattern
           Samples.lastByIp).
  right. reflexivity.
Defined.

(** ** The daily limit *)

Lemma existsb_isHigh_medium (risks : list Risk) :
  existsb isHigh (risks ++ [mkRisk "rapid_transactions" "medium"]) = existsb isHigh risks.
Proof. rewrite existsb_app. simpl. rewrite !orb_false_r. reflexivity. Qed.

(** The check with an identified customer and a store that answers. *)
Lemma checkFraudRisk_daily (cfg : Conf.Config)
    (lastByIp : gmap string Session -> string -> list Session)
    (userDetails : UserDetails) (amount : num) (address : string)
    (c : ConvertIo) (st : State) :
  truthy (or_value (email userDetails) (phone userDetails)) = true ->
  fraudFailsAt c = None ->
  let key := (strOf (or_value (email userDetails) (phone userDetails)), today c) in
  let before := or_num (default NaN (daily_totals st !! key)) (int 0) in
  let result := checkFraudRisk cfg lastByIp userDetails amount address c st in
  existsb isHigh (fst result)
    = (before + amount >? Conf.dailyLimit (Conf.limits cfg))%num /\
  daily_totals (snd result) = <[key := (before + amount)%num]> (daily_totals st).
Proof.
  intros Hid Hok. cbv zeta. unfold checkFraudRisk. rewrite Hid, Hok. cbv iota beta.
  match goal with
  | |- context [if Nat.leb 3 ?n then _ else _] => destruct (Nat.leb 3 n)
  end; simpl fst; simpl snd; rewrite ?existsb_isHigh_medium;
    (split; [| reflexivity]);
    match goal with
    | |- context [(?x >? ?y)%num] => destruct (x >? y)%num
    end; reflexivity.
Qed.

Lemma over_limit_stays_over (total limit : num) (more : Q) :
  (0 <= more)%Q ->
  (total >? limit)%num = true ->
  (or_num total (int 0) + Fin more >? limit)%num = true.
Proof.
  intros Hmore. unfold JS.gt, JS.lt, or_num.
  destruct total as [| | | q]; destruct limit as [| | | l]; try discriminate;
    simpl; try reflexivity; intros Hq;
    destruct (Qeq_bool q 0) eqn:E0; simpl; try reflexivity;
    apply Qltb_lt; qtests.
  - change (inject_Z 0) with 0%Q. lra.
  - lra.
Qed.

(** A refused attempt still counts towards the daily total.  With an
    identified customer and a store that answers, the check records the
    old total plus the amount whether or not it reports that the limit
    would be exceeded; so once an attempt is reported as exceeding the
    limit, every later attempt of that customer on the same day is
    reported too, for any amount that is not negative. *)
Theorem daily_limit_counts_refused_attempts (cfg : Conf.Config)
    (lastByIp : gmap string Session -> string -> list Session)
    (userDetails : UserDetails) (first second : Q) (address1 address2 : string)
    (c1 c2 : ConvertIo) (st : State) :
  truthy (or_value (email userDetails) (phone userDetails)) = true ->
  fraudFailsAt c1 = None -> fraudFailsAt c2 = None -> today c2 = today c1 ->
  (0 <= second)%Q ->
  let key := (strOf (or_value (email userDetails) (phone userDetails)), today c1) in
  let before := or_num (default NaN (daily_totals st !! key)) (int 0) in
  let attempt1 := checkFraudRisk cfg lastByIp userDetails (Fin first) address1 c1 st in
  let attempt2 :=
    checkFraudRisk cfg lastByIp userDetails (Fin second) address2 c2 (snd attempt1) in
  daily_totals (snd attempt1) !! key = Some (before + Fin first)%num /\
  (existsb isHigh (fst attempt1) = true -> existsb isHigh (fst attempt2) = true).
Proof.
  intros Hid Hok1 Hok2 Hday Hsecond. cbv zeta.
  destruct (checkFraudRisk_daily cfg lastByIp userDetails (Fin first) address1 c1 st
              Hid Hok1) as [Hhigh1 Htotal1].
  cbv zeta in Hhigh1, Htotal1.
  split.
  - rewrite Htotal1. apply lookup_insert_eq.
  - intros H1. rewrite Hhigh1 in H1.
    destruct (checkFraudRisk_daily cfg lastByIp userDetails (Fin second) address2 c2
                (snd (checkFraudRisk cfg lastByIp userDetails (Fin first) address1 c1 st))
                Hid Hok2) as [Hhigh2 _].
    cbv zeta in Hhigh2. rewrite Hhigh2, Hday, Htotal1, lookup_insert_eq.
    simpl default. apply over_limit_stays_over; assumption.
Qed.

Lemma daily_limit_counts_refused_attempts_witness :
  let c := Samples.answers Samples.feedsUp in
  let key := ("08031234567", today c) in
  let attempt1 :=
    checkFraudRisk config Samples.lastByIp Sealed.caller (Fin 10000001) "203.0.113.7"
      c Samples.fresh in
  let attempt2 :=
    checkFraudRisk config Samples.lastByIp Sealed.caller (Fin 1000) "203.0.113.7"
      c (snd attempt1) in
  daily_totals (snd attempt1) !! key = Some (int 0 + Fin 10000001)%num /\
  (existsb isHigh (fst attempt1) = true -> existsb isHigh (fst attempt2) = true).
Proof.
  apply (daily_limit_counts_refused_attempts config Samples.lastByIp Sealed.caller
           10000001 1000 "203.0.113.7" "203.0.113.7"
           (Samples.answers Samples.feedsUp) (Samples.answers Samples.feedsUp)
           Samples.fresh).
  - reflexivity.
  - reflexivity.
  - reflexivity.
  - reflexivity.
  - lra.
Defined.

(** The sample customer is refused twice: the first attempt exceeds the
    limit of ten million, and the second, of a thousand, is refused
    because the first was counted. *)
Example daily_limit_sample :
  let c := Samples.answers Samples.feedsUp in
  let attempt1 :=
    checkFraudRisk config Samples.lastByIp Sealed.caller (Fin 10000001) "203.0.113.7"
      c Samples.fresh in
  let attempt2 :=
    checkFraudRisk config Samples.lastByIp Sealed.caller (Fin 1000) "203.0.113.7"
      c (snd attempt1) in
  fst attempt1 = [mkRisk "daily_limit_exceeded" "high"] /\
  fst attempt2 = [mkRisk "daily_limit_exceeded" "high"].
Proof. split; reflexivity. Qed.

(** ** Payment initialisation and the administrative status change *)

(** A session is initialised for payment at most once.  After an
    initialisation that succeeded the status of the session is
    "payment_initiated", and any further initialisation of it is refused
    by the error handler, with status 400 and the message
    "Transaction already payment_initiated", or with status 410 once the
    session has expired, and writes nothing. *)
Theorem paymentInitialize_at_most_once
    (decryptData : string -> outcome value) (sessionId : string)
    (io later : Io) (st st1 : State) :
  paymentInitialize decryptData sessionId io st = (Sent 200, st1) ->
  child st1 sessionId "status" = Some (VStr "payment_initiated") /\
  exists code e,
    paymentInitialize decryptData sessionId later st1
    = (Refused code e (if (code =? 400)%Z then "validation_error" else "api_error"),
       withMetrics (requestFailed (metrics st1)) st1) /\
    ((code = 400 /\
      e = newValidationError
            (Wrapped "Transaction already " (Text "payment_initiated")) NoDetails)
     \/ (code = 410 /\ e = newAPIError (Text "Session expired") 410 NoDetails)).
Proof.
  unfold paymentInitialize at 1.
  destruct (String.eqb sessionId "") eqn:Eid.
  { unfold errorHandler. simpl. discriminate. }
  unfold getTransactionSession at 1.
  destruct (transactions st !! sessionId) as [old |] eqn:Eold.
  2:{ unfold errorHandler. simpl. discriminate. }
  set (expiresAt := default VUndef (old !! "expiresAt")).
  set (expired := fun t : Io =>
         truthy expiresAt &&
         match expiresAt with VNum x => (x <? int (now t))%num | _ => false end).
  change (truthy expiresAt &&
          match expiresAt with VNum x => (x <? int (now io))%num | _ => false end)
    with (expired io).
  destruct (expired io).
  { unfold errorHandler. simpl. discriminate. }
  destruct (decryptData (strOf (default VUndef (old !! "encryptedUserDetails"))))
    as [details | e1] eqn:Ed1.
  2:{ destruct (decryptData _); unfold errorHandler; simpl; discriminate. }
  destruct (decryptData (strOf (default VUndef (old !! "encryptedTransaction"))))
    as [figures | e2] eqn:Ed2.
  2:{ unfold errorHandler. simpl. discriminate. }
  simpl record.
  destruct (negb (isStr "pending" (default VUndef (old !! "status")))).
  { unfold errorHandler. simpl. discriminate. }
  unfold dbUpdate. destruct (writeError io) as [refusal |].
  { unfold errorHandler. destruct (name refusal); simpl; discriminate. }
  rewrite Eold. simpl default.
  set (updates := list_to_map _ : Session).
  intros [= <-].
  assert (Hstored : transactions
                      (withTransactions (<[sessionId := updates ∪ old]> (transactions st)) st)
                    !! sessionId = Some (updates ∪ old)).
  { simpl. apply lookup_insert_eq. }
  assert (Hkeep : forall k, updates !! k = None -> (updates ∪ old) !! k = old !! k).
  { intros k Hk. apply lookup_union_r. exact Hk. }
  split.
  { unfold child. rewrite Hstored. apply lookup_union_Some_l. reflexivity. }
  unfold paymentInitialize. rewrite Eid.
  unfold getTransactionSession. rewrite Hstored.
  rewrite (Hkeep "expiresAt" eq_refl).
  rewrite (Hkeep "encryptedUserDetails" eq_refl).
  rewrite (Hkeep "encryptedTransaction" eq_refl).
  fold expiresAt.
  change (truthy expiresAt &&
          match expiresAt with VNum x => (x <? int (now later))%num | _ => false end)
    with (expired later).
  destruct (expired later).
  - exists 410, (newAPIError (Text "Session expired") 410 NoDetails).
    split; [reflexivity |]. right. split; reflexivity.
  - rewrite Ed1, Ed2. simpl record.
    assert (Hs : (updates ∪ old) !! "status" = Some (VStr "payment_initiated"))
      by (apply lookup_union_Some_l; reflexivity).
    rewrite Hs. simpl.
    exists 400,
      (newValidationError (Wrapped "Transaction already " (Text "payment_initiated"))
         NoDetails).
    split; [reflexivity |]. left. split; reflexivity.
Qed.

Lemma paymentInitialize_at_most_once_witness :
  let first :=
    paymentInitialize (Sealed.decryptData Sealed.known) "6f1c2a9e-session"
      (mkIo 1736900060000 None) (snd Sealed.create) in
  child (snd first) "6f1c2a9e-session" "status" = Some (VStr "payment_initiated") /\
  exists code e,
    paymentInitialize (Sealed.decryptData Sealed.known) "6f1c2a9e-session"
      (mkIo 1736900120000 None) (snd first)
    = (Refused code e (if (code =? 400)%Z then "validation_error" else "api_error"),
       withMetrics (requestFailed (metrics (snd first))) (snd first)) /\
    ((code = 400 /\
      e = newValidationError
            (Wrapped "Transaction already " (Text "payment_initiated")) NoDetails)
     \/ (code = 410 /\ e = newAPIError (Text "Session expired") 410 NoDetails)).
Proof.
  intros first.
  apply (paymentInitialize_at_most_once (Sealed.decryptData Sealed.known)
           "6f1c2a9e-session" (mkIo 1736900060000 None) (mkIo 1736900120000 None)
           (snd Sealed.create) (snd first)).
  reflexivity.
Defined.

(** The administrative status change writes nothing without the key.
    When no admin key is configured, or the key presented (the header
    [x-api-key] if it is truthy, the query parameter otherwise) is not
    the configured one, POST /api/transaction/:sessionId/status is
    answered by the error handler with status 500 or 401, and the store
    and the session counters are as before. *)
Theorem adminSetStatus_requires_key
    (cfg : Conf.Config) (headerKey queryKey : value) (sessionId : string)
    (status paymentProof notes : value) (address : string) (io : Io) (st : State) :
  Conf.adminApiKey cfg = "" \/
  or_value headerKey queryKey <> VStr (Conf.adminApiKey cfg) ->
  exists code e,
    adminSetStatus cfg headerKey queryKey sessionId status paymentProof notes address io st
    = (Refused code e "api_error", withMetrics (requestFailed (metrics st)) st) /\
    ((Conf.adminApiKey cfg = "" /\ code = 500 /\
      message e = Text "Admin API key not configured")
     \/ (Conf.adminApiKey cfg <> "" /\ code = 401 /\ message e = Text "Unauthorized")).
Proof.
  intros Hkey. unfold adminSetStatus, validateAdminAuth.
  destruct (String.eqb (Conf.adminApiKey cfg) "") eqn:E.
  - apply String.eqb_eq in E. do 2 eexists. split; [reflexivity |].
    left. repeat split. exact E.
  - apply String.eqb_neq in E. destruct Hkey as [Hkey | Hkey]; [contradiction |].
    destruct (truthy (or_value headerKey queryKey)); simpl.
    + destruct (isStr (Conf.adminApiKey cfg) (or_value headerKey queryKey)) eqn:Es.
      { apply isStr_eq in Es. contradiction. }
      simpl. do 2 eexists. split; [reflexivity |]. right. repeat split. exact E.
    + do 2 eexists. split; [reflexivity |]. right. repeat split. exact E.
Qed.

Lemma adminSetStatus_requires_key_witness :
  exists code e,
    adminSetStatus Samples.deployed (VStr "guess") (VStr "admin-key-for-the-examples")
      "6f1c2a9e-session" (VStr "completed") VUndef VUndef "198.51.100.9"
      (mkIo 1736900060000 None) (snd Sealed.create)
    = (Refused code e "api_error",
       withMetrics (requestFailed (metrics (snd Sealed.create))) (snd Sealed.create)) /\
    ((Conf.adminApiKey Samples.deployed = "" /\ code = 500 /\
      message e = Text "Admin API key not configured")
     \/ (Conf.adminApiKey Samples.deployed <> "" /\ code = 401 /\
         message e = Text "Unauthorized")).
Proof.
  apply (adminSetStatus_requires_key Samples.deployed (VStr "guess")
           (VStr "admin-key-for-the-examples")).
  right. discriminate.
Defined.

(** ** The log sanitiser *)

Lemma length_list_ascii (s : string) :
  length (list_ascii_of_string s) = String.length s.
Proof. induction s as [| c s IH]; simpl; congruence. Qed.

Lemma list_ascii_app (a b : string) :
  list_ascii_of_string (a ++ b)
  = (list_ascii_of_string a ++ list_ascii_of_string b)%list.
Proof. induction a as [| c a IH]; simpl; [reflexivity |]. rewrite IH. reflexivity. Qed.

Lemma string_of_list_app (a b : list ascii) :
  string_of_list_ascii (a ++ b) = string_of_list_ascii a ++ string_of_list_ascii b.
Proof. induction a as [| c a IH]; simpl; [reflexivity |]. rewrite IH. reflexivity. Qed.

(** The mask of a string of more than six characters, on its characters. *)
Lemma mask_long (first middle last : list ascii) :
  length first = 3%nat -> length last = 3%nat -> middle <> [] ->
  mask (string_of_list_ascii (first ++ middle ++ last))
  = string_of_list_ascii (first ++ list_ascii_of_string "***" ++ last).
Proof.
  intros Hf Hl Hm. unfold mask, sliceFirst, sliceLast.
  rewrite <- length_list_ascii, list_ascii_of_string_of_list_ascii.
  assert (Hlen : length (first ++ middle ++ last) = (6 + length middle)%nat)
    by (rewrite !length_app; lia).
  assert (Hmid : (1 <= length middle)%nat) by (destruct middle; [contradiction | simpl; lia]).
  rewrite Hlen.
  replace (Nat.ltb 6 (6 + length middle)) with true
    by (symmetry; apply Nat.ltb_lt; lia).
  rewrite !string_of_list_app.
  f_equal.
  - f_equal. rewrite take_app_length' by (symmetry; exact Hf). reflexivity.
  - f_equal. f_equal.
    rewrite app_assoc.
    rewrite drop_app_length' by (rewrite length_app; simpl; lia). reflexivity.
Qed.

Lemma split_long (chars : list ascii) :
  (6 < length chars)%nat ->
  exists first middle last,
    chars = (first ++ middle ++ last)%list /\
    length first = 3%nat /\ length last = 3%nat /\ middle <> [].
Proof.
  intros H.
  exists (take 3 chars), (take (length chars - 6) (drop 3 chars)),
         (drop (length chars - 6) (drop 3 chars)).
  split; [| split; [| split]].
  - rewrite take_drop, take_drop. reflexivity.
  - rewrite length_take. lia.
  - rewrite !length_drop. lia.
  - intros E. apply (f_equal (@length ascii)) in E.
    rewrite length_take, length_drop in E. simpl in E. lia.
Qed.

Lemma mask_idempotent (s : string) : mask (mask s) = mask s.
Proof.
  destruct (Nat.ltb 6 (String.length s)) eqn:E.
  - apply Nat.ltb_lt in E. rewrite <- length_list_ascii in E.
    destruct (split_long _ E) as (first & middle & last & Hs & Hf & Hl & Hm).
    rewrite <- (string_of_list_ascii_of_string s), Hs.
    rewrite (mask_long first middle last Hf Hl Hm).
    apply (mask_long first (list_ascii_of_string "***") last Hf Hl). discriminate.
  - assert (H : mask s = "***") by (unfold mask; rewrite E; reflexivity).
    rewrite H. reflexivity.
Qed.

Lemma mask_short (s : string) : (String.length s <= 6)%nat -> mask s = "***".
Proof.
  intros H. unfold mask.
  replace (Nat.ltb 6 (String.length s)) with false
    by (symmetry; apply Nat.ltb_ge; exact H).
  reflexivity.
Qed.

Lemma assoc_setField (k k' : string) (v : value) (fields : list (string * value)) :
  assoc k (setField k' v fields) = if String.eqb k k' then v else assoc k fields.
Proof.
  induction fields as [| [k0 v0] rest IH]; simpl.
  - destruct (String.eqb k k'); reflexivity.
  - destruct (String.eqb k' k0) eqn:E0; simpl.
    + apply String.eqb_eq in E0. subst k0.
      destruct (String.eqb k k'); reflexivity.
    + rewrite IH. destruct (String.eqb k k0) eqn:E1; [| reflexivity].
      apply String.eqb_eq in E1. subst k0.
      rewrite String.eqb_sym, E0. reflexivity.
Qed.

Lemma assoc_absent (k : string) (fields : list (string * value)) :
  ~ In k (map fst fields) -> assoc k fields = VUndef.
Proof.
  induction fields as [| [k0 v0] rest IH]; simpl; [reflexivity |].
  intros H. destruct (String.eqb k k0) eqn:E.
  - apply String.eqb_eq in E. subst. exfalso. apply H. now left.
  - apply IH. intros Hin. apply H. now right.
Qed.

Lemma setField_keys (k : string) (v : value) (fields : list (string * value)) :
  In k (map fst fields) -> map fst (setField k v fields) = map fst fields.
Proof.
  induction fields as [| [k0 v0] rest IH]; simpl; [contradiction |].
  intros H. destruct (String.eqb k k0) eqn:E; simpl.
  - apply String.eqb_eq in E. subst. reflexivity.
  - f_equal. apply IH. destruct H as [H | H]; [| exact H].
    subst. rewrite String.eqb_refl in E. discriminate.
Qed.

Section SanitiserFacts.

Variable numToString : num -> string.

Lemma maskField_keys (fields : list (string * value)) (field : string) :
  map fst (maskField numToString fields field) = map fst fields.
Proof.
  unfold maskField. destruct (truthy (assoc field fields)) eqn:E; [| reflexivity].
  apply setField_keys.
  destruct (in_dec string_dec field (map fst fields)) as [H | H]; [exact H |].
  rewrite (assoc_absent _ _ H) in E. discriminate.
Qed.

Lemma assoc_maskField (fields : list (string * value)) (field k : string) :
  assoc k (maskField numToString fields field)
  = if String.eqb k field && truthy (assoc k fields)
    then VStr (mask (stringOf numToString (assoc k fields)))
    else assoc k fields.
Proof.
  unfold maskField. destruct (String.eqb k field) eqn:E; simpl.
  - apply String.eqb_eq in E. subst k.
    destruct (truthy (assoc field fields)); [| reflexivity].
    rewrite assoc_setField, String.eqb_refl. reflexivity.
  - destruct (truthy (assoc field fields)); [| reflexivity].
    rewrite assoc_setField, E. reflexivity.
Qed.

(** What the pass over a list of field names leaves under a key. *)
Lemma assoc_masked (names : list string) (fields : list (string * value)) (k : string) :
  assoc k (fold_left (maskField numToString) names fields)
  = if existsb (String.eqb k) names && truthy (assoc k fields)
    then VStr (mask (stringOf numToString (assoc k fields)))
    else assoc k fields.
Proof.
  revert fields. induction names as [| name names IH]; intros fields; simpl.
  - reflexivity.
  - rewrite IH, assoc_maskField.
    destruct (String.eqb k name) eqn:E; simpl.
    + destruct (truthy (assoc k fields)) eqn:Et; simpl.
      * rewrite mask_idempotent.
        destruct (existsb (String.eqb k) names && _); reflexivity.
      * rewrite Et, andb_false_r. reflexivity.
    + reflexivity.
Qed.

Lemma masked_keys (names : list string) (fields : list (string * value)) :
  map fst (fold_left (maskField numToString) names fields) = map fst fields.
Proof.
  revert fields. induction names as [| name names IH]; intros fields; simpl;
    [reflexivity |].
  rewrite IH. apply maskField_keys.
Qed.

Lemma sensitive_iff (k : string) :
  existsb (String.eqb k) sensitiveFields = true <-> In k sensitiveFields.
Proof.
  rewrite existsb_exists. split.
  - intros (x & Hx & E). apply String.eqb_eq in E. subst. exact Hx.
  - intros H. exists k. split; [exact H | apply String.eqb_refl].
Qed.

(** The sanitiser on an object: it keeps the keys and their order, leaves
    every field outside the sensitive list and every falsy field as it is,
    and replaces a truthy sensitive field by a mask of its printed form:
    "***" alone when that has at most six characters, otherwise its first
    three and last three characters around "***", so that nothing of the
    middle is shown. *)
Theorem sanitizeForLog_masks_sensitive_fields (fields : list (string * value)) :
  exists out,
    sanitizeForLog numToString (VObj fields) = VObj out /\
    map fst out = map fst fields /\
    (forall k, ~ In k sensitiveFields -> assoc k out = assoc k fields) /\
    (forall k, truthy (assoc k fields) = false -> assoc k out = assoc k fields) /\
    (forall k, In k sensitiveFields -> truthy (assoc k fields) = true ->
       let shown := stringOf numToString (assoc k fields) in
       ((String.length shown <= 6)%nat -> assoc k out = VStr "***") /\
       (forall first middle last,
          shown = first ++ middle ++ last ->
          String.length first = 3%nat -> String.length last = 3%nat -> middle <> "" ->
          assoc k out = VStr (first ++ "***" ++ last))).
Proof.
  eexists. split; [reflexivity |]. split; [apply masked_keys |].
  split; [| split].
  - intros k Hk. rewrite assoc_masked.
    destruct (existsb (String.eqb k) sensitiveFields) eqn:E; [| reflexivity].
    apply sensitive_iff in E. contradiction.
  - intros k Hk. rewrite assoc_masked, Hk, andb_false_r. reflexivity.
  - intros k Hk Ht. cbv zeta. rewrite assoc_masked, Ht.
    apply sensitive_iff in Hk. rewrite Hk. simpl andb. cbv iota. split.
    + intros Hlen. rewrite mask_short by exact Hlen. reflexivity.
    + intros first middle last -> Hf Hl Hm. f_equal.
      rewrite <- (string_of_list_ascii_of_string (first ++ middle ++ last)).
      rewrite !list_ascii_app.
      rewrite mask_long.
      * rewrite !string_of_list_app, !string_of_list_ascii_of_string. reflexivity.
      * rewrite length_list_ascii. exact Hf.
      * rewrite length_list_ascii. exact Hl.
      * intros E. apply Hm.
        rewrite <- (string_of_list_ascii_of_string middle), E. reflexivity.
Qed.

End SanitiserFacts.

Lemma setField_same (k : string) (v : value) (fields : list (string * value)) :
  assoc k fields = v -> In k (map fst fields) -> setField k v fields = fields.
Proof.
  induction fields as [| [k0 v0] rest IH]; simpl; [contradiction |].
  destruct (String.eqb k k0) eqn:E.
  - apply String.eqb_eq in E. subst k0. intros -> _. reflexivity.
  - intros Hv [H | H].
    + subst. rewrite String.eqb_refl in E. discriminate.
    + rewrite IH by assumption. reflexivity.
Qed.

Lemma truthy_present (k : string) (fields : list (string * value)) :
  truthy (assoc k fields) = true -> In k (map fst fields).
Proof.
  intros H. destruct (in_dec string_dec k (map fst fields)) as [Hin | Hout];
    [exact Hin |].
  rewrite (assoc_absent _ _ Hout) in H. discriminate.
Qed.

(** The printed form of a natural number is made of digits. *)
Lemma pretty_N_go_digits (x : N) (s : string) :
  digitsOnly s -> digitsOnly (pretty_N_go x s).
Proof.
  revert s. induction (N.lt_wf_0 x) as [x _ IH]; intros s Hs.
  assert (Hx : (x = 0 \/ 0 < x)%N) by lia.
  destruct Hx as [-> | Hx].
  - rewrite pretty_N_go_0. exact Hs.
  - rewrite pretty_N_go_step by exact Hx. apply IH.
    + apply N.div_lt; [exact Hx | reflexivity].
    + unfold digitsOnly. simpl. constructor; [| exact Hs].
      assert (Hm : (x mod 10 < 10)%N) by (apply N.mod_lt; discriminate).
      destruct (x mod 10)%N as [| p]; [reflexivity |].
      do 4 (destruct p as [p | p |]; try reflexivity).
Qed.

Lemma pretty_nat_digits (i : nat) : digitsOnly (pretty i).
Proof.
  unfold pretty, pretty_nat, pretty, pretty_N.
  destruct (decide (N.of_nat i = 0%N)).
  - repeat constructor.
  - apply pretty_N_go_digits. constructor.
Qed.

Lemma sensitive_not_digits (k : string) : In k sensitiveFields -> ~ digitsOnly k.
Proof.
  intros H Hd.
  repeat (destruct H as [<- | H];
          [inversion Hd as [| c rest Hc _]; subst; discriminate Hc |]).
  destruct H.
Qed.

Lemma spread_keys_digits {A : Type} (items : list A) (k : string) (start : nat) :
  In k (map fst (imap (fun i item => (pretty (start + i)%nat, item)) items)) ->
  digitsOnly k.
Proof.
  revert start. induction items as [| item items IH]; intros start; simpl;
    [contradiction |].
  intros [<- | H]; [apply pretty_nat_digits |].
  apply (IH (S start)).
  erewrite imap_ext; [exact H |].
  intros i x _. simpl. f_equal. f_equal. lia.
Qed.

Section SanitiserIdempotence.

Variable numToString : num -> string.

Lemma maskField_fixed (fields : list (string * value)) (field : string) :
  (truthy (assoc field fields) = false \/
   exists m, assoc field fields = VStr m /\ mask m = m) ->
  maskField numToString fields field = fields.
Proof.
  unfold maskField. intros [H | (m & Hm & Hfix)].
  - rewrite H. reflexivity.
  - destruct (truthy (assoc field fields)) eqn:Et; [| reflexivity].
    apply setField_same; [| apply truthy_present; exact Et].
    rewrite Hm. simpl. rewrite Hfix. reflexivity.
Qed.

Lemma masked_fixed (names : list string) (fields : list (string * value)) :
  (forall name, In name names ->
     truthy (assoc name fields) = false \/
     exists m, assoc name fields = VStr m /\ mask m = m) ->
  fold_left (maskField numToString) names fields = fields.
Proof.
  induction names as [| name names IH]; intros H; simpl; [reflexivity |].
  rewrite maskField_fixed by (apply H; now left).
  apply IH. intros n Hn. apply H. now right.
Qed.

(** Sanitising twice is sanitising once: a mask is its own mask, so what
    the sanitiser returns goes through it unchanged. *)
Theorem sanitizeForLog_idempotent (data : value) :
  sanitizeForLog numToString (sanitizeForLog numToString data)
  = sanitizeForLog numToString data.
Proof.
  destruct data as [| | b | n | s | items | fields]; try reflexivity.
  - unfold sanitizeForLog. cbv beta iota. f_equal.
    apply masked_fixed. intros name Hname. left.
    rewrite assoc_absent; [reflexivity |].
    intros Hin. apply (sensitive_not_digits name Hname).
    apply (spread_keys_digits items name 0). exact Hin.
  - unfold sanitizeForLog. cbv beta iota. f_equal.
    apply masked_fixed. intros name Hname.
    rewrite assoc_masked.
    destruct (existsb (String.eqb name) sensitiveFields
              && truthy (assoc name fields)) eqn:E.
    + right. eexists. split; [reflexivity | apply mask_idempotent].
    + left. apply andb_false_iff in E. destruct E as [E | E]; [| exact E].
      apply sensitive_iff in Hname. congruence.
Qed.

End SanitiserIdempotence.

Example sanitizeForLog_sample :
  sanitizeForLog Builtins.numToString (userDetailsJson Sealed.customer)
  = VObj [("customerName", VStr "Chidi"); ("email", VStr "chi***com");
          ("phone", VNull); ("paymentMethod", VNull); ("receiveMethod", VStr "upi")].
Proof. reflexivity. Qed.

(** ** Latency bookkeeping *)

(** The counters after a trace, from any counters whose average is the
    mean of [n] latencies summing to [sum]. *)
Lemma recordEvent_mean (trace : list ApiEvent) :
  forall (m : ApiMetrics) (avg : Q),
    avgLatency m = Fin avg ->
    (0 <= calls m)%Z ->
    let m' := fold_left recordEvent trace m in
    calls m' = (calls m + Z.of_nat (length (answeredLatencies trace)))%Z /\
    failures m'
      = (failures m + Z.of_nat (length trace - length (answeredLatencies trace)))%Z /\
    exists avg',
      avgLatency m' = Fin avg' /\
      (avg' * inject_Z (calls m')
       == avg * inject_Z (calls m) + inject_Z (total (answeredLatencies trace)))%Q.
Proof.
  induction trace as [| ev trace IH]; intros m avg Havg Hcalls; cbv zeta.
  - simpl. split; [lia |]. split; [lia |]. exists avg. split; [exact Havg |].
    unfold total. simpl. change (inject_Z 0) with 0%Q. lra.
  - destruct ev as [latency |].
    + change (fold_left recordEvent (Answered latency :: trace) m)
        with (fold_left recordEvent trace (recordResponse latency m)).
      set (n := (calls m + 1)%Z).
      set (avg1 := ((avg * (inject_Z n + - inject_Z 1) + inject_Z latency) / inject_Z n)%Q).
      assert (Hn : ~ (inject_Z n == 0)%Q).
      { intros E. unfold Qeq in E. simpl in E. unfold n in E. lia. }
      assert (H1 : avgLatency (recordResponse latency m) = Fin avg1).
      { unfold recordResponse. simpl avgLatency. rewrite Havg. fold n.
        unfold int.
        change (Fin avg * (Fin (inject_Z n) - Fin (inject_Z 1)) + Fin (inject_Z latency))%num
          with (Fin (avg * (inject_Z n + - inject_Z 1) + inject_Z latency)).
        apply div_Fin. exact Hn. }
      assert (H2 : (0 <= calls (recordResponse latency m))%Z) by (simpl; lia).
      destruct (IH (recordResponse latency m) avg1 H1 H2) as (Hc & Hf & avg' & Ha & Hsum).
      cbv zeta in Hc, Hf, Ha, Hsum. simpl calls in Hc, Hsum. simpl failures in Hf.
      fold n in Hsum.
      assert (Hlen : length (answeredLatencies (Answered latency :: trace))
                     = S (length (answeredLatencies trace))) by reflexivity.
      assert (Htot : total (answeredLatencies (Answered latency :: trace))
                     = (latency + total (answeredLatencies trace))%Z) by reflexivity.
      rewrite Hlen, Htot. split; [rewrite Hc; unfold n; lia |].
      split; [rewrite Hf; simpl length; lia |].
      exists avg'. split; [exact Ha |].
      assert (En : (inject_Z n == inject_Z (calls m) + 1)%Q)
        by (unfold n; rewrite inject_Z_plus; reflexivity).
      rewrite Hsum. unfold avg1. rewrite (inject_Z_plus latency).
      change (inject_Z 1) with 1%Q. rewrite !En. field.
      intros E. apply Hn. rewrite En. exact E.
    + change (fold_left recordEvent (Failed :: trace) m)
        with (fold_left recordEvent trace (recordFailure m)).
      assert (H1 : avgLatency (recordFailure m) = Fin avg) by exact Havg.
      assert (H2 : (0 <= calls (recordFailure m))%Z) by exact Hcalls.
      destruct (IH (recordFailure m) avg H1 H2) as (Hc & Hf & avg' & Ha & Hsum).
      cbv zeta in Hc, Hf, Ha, Hsum. simpl calls in Hc, Hsum. simpl failures in Hf.
      assert (Hlen : length (answeredLatencies (Failed :: trace))
                     = length (answeredLatencies trace)) by reflexivity.
      assert (Htot : total (answeredLatencies (Failed :: trace))
                     = total (answeredLatencies trace)) by reflexivity.
      rewrite Hlen, Htot. split; [exact Hc |].
      assert (Hle : (length (answeredLatencies trace) <= length trace)%nat).
      { unfold answeredLatencies. clear. induction trace as [| e t IHt]; cbn; [lia |].
        destruct e; cbn; lia. }
      split; [rewrite Hf; simpl length; lia |].
      exists avg'. split; [exact Ha | exact Hsum].
Qed.

(** From the initial counters, after any run of answered and failed
    requests, [calls] is the number of answered requests, [failures] the
    number of failed ones, and [avgLatency] times [calls] is the sum of
    the latencies of the answered requests: the running average is their
    arithmetic mean, and failures leave it alone. *)
Theorem avgLatency_is_the_mean (trace : list ApiEvent) :
  let m := fold_left recordEvent trace apiMetrics0 in
  let answered := answeredLatencies trace in
  calls m = Z.of_nat (length answered) /\
  failures m = Z.of_nat (length trace - length answered) /\
  exists avg,
    avgLatency m = Fin avg /\
    (avg * inject_Z (Z.of_nat (length answered)) == inject_Z (total answered))%Q.
Proof.
  cbv zeta.
  destruct (recordEvent_mean trace apiMetrics0 (inject_Z 0) eq_refl ltac:(simpl; lia))
    as (Hc & Hf & avg & Ha & Hsum).
  cbv zeta in Hc, Hf, Ha, Hsum. simpl calls in Hc, Hsum. simpl failures in Hf.
  split; [rewrite Hc; lia |]. split; [rewrite Hf; lia |].
  exists avg. split; [exact Ha |].
  rewrite Hc in Hsum. simpl Z.add in Hsum. rewrite Hsum.
  change (inject_Z 0) with 0%Q. ring.
Qed.

(** ** The waits of the retry loop *)

Lemma retrySleeps_shape (requestFn : nat -> outcome value) (delay : Z) :
  forall remaining i,
  exists k : nat,
    (k <= remaining - 1)%nat /\
    retrySleeps requestFn delay i remaining
      = map (fun j => delay * 2 ^ Z.of_nat j)%Z (seq i k) /\
    (forall j, (j < k)%nat -> exists e, requestFn (i + j)%nat = Throw e) /\
    ((k < remaining - 1)%nat -> exists data, requestFn (i + k)%nat = Return data).
Proof.
  induction remaining as [| rest IH]; intros i.
  - exists 0%nat. repeat split; try lia; intros j Hj; lia.
  - simpl retrySleeps. destruct (requestFn i) as [data | e] eqn:E.
    + exists 0%nat. split; [lia |]. split; [reflexivity |]. split.
      * intros j Hj. lia.
      * intros _. exists data. rewrite Nat.add_0_r. exact E.
    + destruct rest as [| rest'].
      * exists 0%nat. split; [lia |]. split; [reflexivity |].
        split; [intros j Hj; lia | simpl; lia].
      * destruct (IH (S i)) as (k & Hk & Hs & Hfail & Hstop).
        exists (S k). split; [lia |]. split; [| split].
        -- rewrite Hs. reflexivity.
        -- intros [| j] Hj.
           ++ exists e. rewrite Nat.add_0_r. exact E.
           ++ destruct (Hfail j ltac:(lia)) as [e' He']. exists e'.
              rewrite <- He'. f_equal. lia.
        -- intros Hlt. destruct (Hstop ltac:(lia)) as [data Hd]. exists data.
           rewrite <- Hd. f_equal. lia.
Qed.

Lemma doubling_total (delay : Z) (k i : nat) :
  total (map (fun j => delay * 2 ^ Z.of_nat j)%Z (seq i k))
  = (delay * (2 ^ Z.of_nat (i + k) - 2 ^ Z.of_nat i))%Z.
Proof.
  revert i. induction k as [| k IH]; intros i.
  - rewrite Nat.add_0_r. simpl. lia.
  - simpl seq. simpl map. unfold total in *. simpl fold_right. rewrite IH.
    replace (i + S k)%nat with (S i + k)%nat by lia.
    replace (Z.of_nat (S i)) with (Z.of_nat i + 1)%Z by lia.
    rewrite Z.pow_add_r by lia. lia.
Qed.

(** The retry loop sleeps only between attempts: after each of the first
    [k] attempts, which all failed, it waits the base delay doubled each
    time, [delay * 2^j] after attempt [j], where [k] is less than the
    number of attempts allowed and the loop stops early only on a
    success; the waits add up to [delay * (2^k - 1)], which never exceeds
    [delay * (2^(retries - 1) - 1)]. *)
Theorem retry_backoff_doubles
    (requestFn : nat -> outcome value) (delay : Z) (retries : nat) :
  exists k : nat,
    (k <= retries - 1)%nat /\
    retrySleeps requestFn delay 0 retries
      = map (fun j => delay * 2 ^ Z.of_nat j)%Z (seq 0 k) /\
    total (retrySleeps requestFn delay 0 retries) = (delay * (2 ^ Z.of_nat k - 1))%Z /\
    (forall j, (j < k)%nat -> exists e, requestFn j = Throw e) /\
    ((k < retries - 1)%nat -> exists data, requestFn k = Return data) /\
    ((0 <= delay)%Z ->
     (total (retrySleeps requestFn delay 0 retries)
      <= delay * (2 ^ Z.of_nat (retries - 1) - 1))%Z).
Proof.
  destruct (retrySleeps_shape requestFn delay retries 0) as (k & Hk & Hs & Hfail & Hstop).
  assert (Htotal : total (retrySleeps requestFn delay 0 retries)
                   = (delay * (2 ^ Z.of_nat k - 1))%Z).
  { rewrite Hs, doubling_total. simpl. reflexivity. }
  exists k. repeat split; try assumption.
  intros Hd. rewrite Htotal.
  apply Z.mul_le_mono_nonneg_l; [exact Hd |].
  assert (2 ^ Z.of_nat k <= 2 ^ Z.of_nat (retries - 1))%Z
    by (apply Z.pow_le_mono_r; lia).
  lia.
Qed.

(** With the defaults of src/script.js (five attempts, a base delay of two
    seconds) an order-book fetch that keeps failing has slept thirty
    seconds in all when it gives up. *)
Example retry_backoff_default :
  let down (i : nat) : outcome value :=
    Throw (newExternalAPIError (Text "Request timeout") NoDetails) in
  retrySleeps down 2000 0 (Conf.maxRetries config) = [2000; 4000; 8000; 16000]
  /\ total (retrySleeps down 2000 0 (Conf.maxRetries config)) = 30000.
Proof. split; reflexivity. Qed.

(** ** Removal of expired sessions *)

Lemma le_int (a b : Z) : (int a <=? int b)%num = (a <=? b)%Z.
Proof.
  unfold JS.le, int. destruct (a <=? b)%Z eqn:E.
  - apply Z.leb_le in E. apply Qle_bool_iff. rewrite <- Zle_Qle. exact E.
  - apply Z.leb_gt in E. apply Qle_bool_gt. rewrite <- Zlt_Qlt. exact E.
Qed.

Lemma dueBySample_answers (sessions : gmap string Session) (bound : Z) :
  answersByExpiry dueBySample sessions bound.
Proof.
  split; [apply map_filter_subseteq |].
  intros id s x Hs Hx. unfold dueBySample.
  rewrite map_lookup_filter_Some. simpl. unfold expiresBy. rewrite Hx, le_int.
  rewrite Z.leb_le. tauto.
Qed.

Lemma cleanupExpiredSessions_effects
    (dueBy : gmap string Session -> Z -> gmap string Session) (io : Io) (st : State) :
  answersByExpiry dueBy (transactions st) (now io) ->
  writeError io = None ->
  let result := cleanupExpiredSessions dueBy None io st in
  (forall id s x,
     transactions st !! id = Some s -> s !! "expiresAt" = Some (VNum (int x)) ->
     (x <= now io)%Z -> transactions (snd result) !! id = None) /\
  (forall id s x,
     transactions st !! id = Some s -> s !! "expiresAt" = Some (VNum (int x)) ->
     (now io < x)%Z -> transactions (snd result) !! id = Some s) /\
  fst result
    = (Z.of_nat (size (transactions st)) - Z.of_nat (size (transactions (snd result))))%Z /\
  metrics (snd result) = metrics st /\ cache (snd result) = cache st /\
  daily_totals (snd result) = daily_totals st.
Proof.
  intros [Hsub Hrule] Hw. cbv zeta. unfold cleanupExpiredSessions. rewrite Hw.
  set (expired := dueBy (transactions st) (now io)) in *.
  destruct (decide (expired = ∅)) as [Hnone | Hsome]; simpl fst; simpl snd.
  - split; [| split; [| split; [lia | repeat split]]].
    + intros id s x Hs Hx Hdue. exfalso.
      apply (Hrule id s x Hs Hx) in Hdue. rewrite Hnone, lookup_empty in Hdue.
      discriminate.
    + intros id s x Hs _ _. exact Hs.
  - split; [| split; [| split; [| repeat split]]].
    + intros id s x Hs Hx Hdue. simpl. apply lookup_difference_None. right.
      exists s. apply (Hrule id s x Hs Hx). exact Hdue.
    + intros id s x Hs Hx Hlater. simpl. apply lookup_difference_Some.
      split; [exact Hs |].
      destruct (expired !! id) as [s' |] eqn:E; [| reflexivity]. exfalso.
      assert (Hs' : transactions st !! id = Some s').
      { rewrite map_subseteq_spec in Hsub. apply Hsub. exact E. }
      assert (s' = s) by congruence. subst s'.
      apply (Hrule id s x Hs Hx) in E. lia.
    + simpl transactions.
      assert (Hsize : size (transactions st)
                      = (size expired + size (transactions st ∖ expired))%nat).
      { rewrite <- map_size_disj_union by (apply map_disjoint_difference_r1; reflexivity).
        rewrite map_difference_union by exact Hsub. reflexivity. }
      lia.
Qed.

(** The cleanup removes a session by its expiry time alone.  When the
    store answers the query by expiry time as it should and accepts the
    write, every session whose [expiresAt] is a number not after the
    clock is removed, whatever its status, every session whose
    [expiresAt] is a later number is kept as it is, the result is the
    number of sessions removed, and the metrics (the pending counter
    among them), the cache and the daily totals are not touched. *)
Theorem cleanupExpiredSessions_removes_by_expiry_alone
    (dueBy : gmap string Session -> Z -> gmap string Session) (io : Io) (st : State) :
  answersByExpiry dueBy (transactions st) (now io) ->
  writeError io = None ->
  let result := cleanupExpiredSessions dueBy None io st in
  (forall id s x,
     transactions st !! id = Some s -> s !! "expiresAt" = Some (VNum (int x)) ->
     (x <= now io)%Z -> transactions (snd result) !! id = None) /\
  (forall id s x,
     transactions st !! id = Some s -> s !! "expiresAt" = Some (VNum (int x)) ->
     (now io < x)%Z -> transactions (snd result) !! id = Some s) /\
  fst result
    = (Z.of_nat (size (transactions st)) - Z.of_nat (size (transactions (snd result))))%Z /\
  metrics (snd result) = metrics st /\ cache (snd result) = cache st /\
  daily_totals (snd result) = daily_totals st.
Proof. apply cleanupExpiredSessions_effects. Qed.

Lemma cleanupExpiredSessions_removes_by_expiry_alone_witness :
  let st := snd Sealed.create in
  let io := mkIo 1736900300000 None in
  let result := cleanupExpiredSessions dueBySample None io st in
  (forall id s x,
     transactions st !! id = Some s -> s !! "expiresAt" = Some (VNum (int x)) ->
     (x <= now io)%Z -> transactions (snd result) !! id = None) /\
  (forall id s x,
     transactions st !! id = Some s -> s !! "expiresAt" = Some (VNum (int x)) ->
     (now io < x)%Z -> transactions (snd result) !! id = Some s) /\
  fst result
    = (Z.of_nat (size (transactions st)) - Z.of_nat (size (transactions (snd result))))%Z /\
  metrics (snd result) = metrics st /\ cache (snd result) = cache st /\
  daily_totals (snd result) = daily_totals st.
Proof.
  intros st io.
  apply (cleanupExpiredSessions_removes_by_expiry_alone dueBySample io st).
  - apply dueBySample_answers.
  - reflexivity.
Defined.

(** A paid session does not outlive its five minutes.  A session created
    and then completed by the gateway's webhook keeps the expiry time it
    got at creation; the first cleanup at or after that time removes it
    although it is completed, after which reading it fails with
    "Session not found" (status 404), while the counter of completed
    sessions still counts it. *)
Theorem completed_session_removed_by_cleanup
    (parseFloat : value -> num) (cfg : Conf.Config)
    (encryptData : value -> string) (decryptData : string -> outcome value)
    (stripNonNumeric : string -> string)
    (dueBy : gmap string Session -> Z -> gmap string Session)
    (sessionId : string) (transactionData : TransactionData) (userDetails : UserDetails)
    (event : WebhookEvent) (created : string * Z)
    (io paid sweep later : Io) (st st1 st2 : State) :
  createTransactionSession parseFloat cfg encryptData stripNonNumeric sessionId
    transactionData userDetails io st = (Return created, st1) ->
  metadataSessionId event = sessionId ->
  paystackWebhook true event paid st1 = (Sent 200, st2) ->
  eventName event = VStr "charge.success" -> sessionId <> "" ->
  answersByExpiry dueBy (transactions st2) (now sweep) ->
  writeError sweep = None ->
  (now io + Conf.sessionTTL cfg <= now sweep)%Z ->
  let st3 := snd (cleanupExpiredSessions dueBy None sweep st2) in
  child st2 sessionId "status" = Some (VStr "completed") /\
  child st2 sessionId "expiresAt" = Some (VNum (int (now io + Conf.sessionTTL cfg))) /\
  transactions st3 !! sessionId = None /\
  getTransactionSession decryptData sessionId later st3
    = Throw (newAPIError (Text "Session not found") 404 NoDetails) /\
  transactions_completed (metrics st3) = (transactions_completed (metrics st) + 1)%Z.
Proof.
  intros Hc Hid Hhook Hname Hne Hstore Hw Hdue.
  apply createTransactionSession_record in Hc.
  destruct Hc as (_ & Hm & _ & _ & session & Hst & _ & _ & _ & Hexp & _ & _).
  unfold paystackWebhook in Hhook. simpl negb in Hhook. cbv iota in Hhook.
  rewrite Hname, Hid in Hhook.
  assert (E : String.eqb sessionId "" = false) by (apply String.eqb_neq; exact Hne).
  rewrite E in Hhook. simpl in Hhook.
  unfold updateTransactionStatus, dbUpdate in Hhook.
  destruct (writeError paid); [discriminate |].
  assert (Hold : transactions st1 !! sessionId = Some session)
    by (rewrite Hst; apply lookup_insert_eq).
  rewrite Hold in Hhook. simpl default in Hhook.
  injection Hhook as <-.
  set (updates := (_ ∪ <["status" := VStr "completed"]> _) : Session) in *.
  set (st2 := withMetrics _ _) in *.
  assert (Hstored : transactions st2 !! sessionId = Some (updates ∪ session)).
  { unfold st2. simpl. apply lookup_insert_eq. }
  assert (Hstatus : (updates ∪ session) !! "status" = Some (VStr "completed")).
  { apply lookup_union_Some_l. unfold updates. rewrite lookup_union_r by reflexivity.
    apply lookup_insert_eq. }
  assert (Hexp' : (updates ∪ session) !! "expiresAt"
                  = Some (VNum (int (now io + Conf.sessionTTL cfg)))).
  { rewrite lookup_union_r; [exact Hexp |].
    unfold updates. rewrite lookup_union_r by reflexivity.
    rewrite lookup_insert_ne by discriminate.
    apply lookup_singleton_ne. discriminate. }
  cbv zeta.
  match goal with
  | |- context [cleanupExpiredSessions dueBy None sweep ?s] =>
      destruct (cleanupExpiredSessions_effects dueBy sweep s Hstore Hw)
        as (Hgone & _ & _ & Hmetrics & _)
  end.
  cbv zeta in Hgone, Hmetrics.
  specialize (Hgone sessionId _ _ Hstored Hexp' Hdue).
  split; [unfold child; rewrite Hstored; exact Hstatus |].
  split; [unfold child; rewrite Hstored; exact Hexp' |].
  split; [exact Hgone |].
  split; [unfold getTransactionSession; rewrite Hgone; reflexivity |].
  rewrite Hmetrics. unfold st2. simpl. rewrite Hm. reflexivity.
Qed.

Lemma completed_session_removed_by_cleanup_witness :
  let st1 := snd Sealed.create in
  let st2 :=
    snd (paystackWebhook true (Samples.chargeSuccess "6f1c2a9e-session")
           (mkIo 1736900060000 None) st1) in
  let st3 :=
    snd (cleanupExpiredSessions dueBySample None (mkIo 1736900300000 None) st2) in
  child st2 "6f1c2a9e-session" "status" = Some (VStr "completed") /\
  child st2 "6f1c2a9e-session" "expiresAt"
    = Some (VNum (int (1736900000000 + Conf.sessionTTL Samples.deployed))) /\
  transactions st3 !! "6f1c2a9e-session" = None /\
  getTransactionSession (Sealed.decryptData Sealed.known) "6f1c2a9e-session"
    (mkIo 1736900300001 None) st3
    = Throw (newAPIError (Text "Session not found") 404 NoDetails) /\
  transactions_completed (metrics st3)
    = (transactions_completed (metrics Samples.fresh) + 1)%Z.
Proof.
  intros st1 st2.
  apply (completed_session_removed_by_cleanup Builtins.parseFloat Samples.deployed
           Samples.encryptData (Sealed.decryptData Sealed.known) Builtins.stripNonNumeric
           dueBySample "6f1c2a9e-session" Sealed.order Sealed.customer
           (Samples.chargeSuccess "6f1c2a9e-session")
           ("6f1c2a9e-session", 1736900300000)
           Sealed.atCreation (mkIo 1736900060000 None) (mkIo 1736900300000 None)
           (mkIo 1736900300001 None) Samples.fresh st1 st2).
  - reflexivity.
  - reflexivity.
  - reflexivity.
  - reflexivity.
  - discriminate.
  - apply dueBySample_answers.
  - reflexivity.
  - simpl. lia.
Defined.

(** ** Routes that control the cache *)

(** GET /ready never answers from the cache.  Every call counts one cache
    miss and no hit, whatever the cache holds, and is not counted as a
    request; when the aggregation succeeds the answer is 200 and the cache
    holds the snapshot just fetched, stamped with the time of the call;
    when it fails the answer is 503 and the cache is as it was, so a
    snapshot cached earlier goes on being served. *)
Theorem ready_always_fetches
    (parseFloat parseInt : value -> num) (cfg : Conf.Config)
    (time : Z) (feeds : Feeds) (st : State) :
  let result := ready parseFloat parseInt cfg time feeds st in
  metrics (snd result) = miss (metrics st) /\
  transactions (snd result) = transactions st /\
  ((fst result = Sent 200 /\
    exists snapshot,
      getMarketData parseFloat parseInt cfg false time feeds st
        = (Return snapshot, snd result) /\
      timestamp snapshot = time /\
      cache (snd result) !! "market_data"
        = Some (snapshot, (time + Conf.ttl cfg * 1000)%Z))
   \/ (fst result = Sent 503 /\ cache (snd result) = cache st)).
Proof.
  cbv zeta. unfold ready, getMarketData.
  destruct (settle "binanceSpot" _ _) as [spot e0].
  destruct (settle "coinGecko" _ _) as [gecko e1].
  destruct (settle "binanceP2P" _ _) as [p2pData e2].
  destruct (negb _).
  { simpl. repeat split. right. split; reflexivity. }
  destruct (analyzeP2P _ _ _ _) as [stats | e].
  - simpl. repeat split. left. split; [reflexivity |].
    eexists. split; [reflexivity |]. split; [reflexivity |].
    apply lookup_insert_eq.
  - simpl. repeat split. right. split; reflexivity.
Qed.

(** POST /api/admin/cache/clear.  With the admin key the cache is emptied
    and nothing else changes, so that the next read through the cache
    behaves as a read that bypasses it: it fetches from the upstream
    sources.  Without the key the error handler answers and the cache is
    untouched. *)
Theorem adminCacheClear_forces_refetch
    (parseFloat parseInt : value -> num) (cfg : Conf.Config)
    (headerKey queryKey : value) (st : State) :
  let result := adminCacheClear cfg headerKey queryKey st in
  match validateAdminAuth cfg headerKey queryKey with
  | Return _ =>
      fst result = Sent 200 /\
      cache (snd result) = ∅ /\ metrics (snd result) = metrics st /\
      transactions (snd result) = transactions st /\
      forall time feeds,
        getMarketData parseFloat parseInt cfg true time feeds (snd result)
        = getMarketData parseFloat parseInt cfg false time feeds (snd result)
  | Throw e =>
      result = errorHandler e st /\ cache (snd result) = cache st /\
      transactions (snd result) = transactions st
  end.
Proof.
  cbv zeta. unfold adminCacheClear.
  destruct (validateAdminAuth cfg headerKey queryKey) as [ok | e].
  - simpl. split; [reflexivity |]. split; [reflexivity |].
    split; [reflexivity |]. split; [reflexivity |].
    intros time feeds. unfold getMarketData, cacheGet. simpl cache.
    rewrite lookup_empty. reflexivity.
  - unfold errorHandler. destruct (name e); repeat split.
Qed.

(** ** The primary rung of the pricing engine *)

Lemma round2_discount (u : Q) :
  (0 <= u)%Q -> (u < 1)%Q ->
  exists k : Z,
    round2 (dec 1585 100 + Fin u * (dec 1598 100 - dec 1585 100))%num
      = Fin (inject_Z k / inject_Z 100) /\
    (1585 <= k <= 1598)%Z.
Proof.
  intros H0 H1.
  change (dec 1585 100 + Fin u * (dec 1598 100 - dec 1585 100))%num
    with (Fin ((1585 # 100) + u * ((1598 # 100) + - (1585 # 100)))).
  rewrite round2_Fin.
  set (y := (((1585 # 100) + u * ((1598 # 100) + - (1585 # 100))) * inject_Z 100
             + (1 # 2))%Q).
  exists (Qfloor y). split; [reflexivity |].
  pose proof (Qfloor_le y) as Hle. pose proof (Qlt_floor y) as Hlt.
  assert (Hy : ((15855 # 10) <= y /\ y < (15985 # 10))%Q).
  { unfold y. change (inject_Z 100) with 100%Q. split; lra. }
  split.
  - assert (H : (inject_Z 1585 < inject_Z (Qfloor y + 1))%Q).
    { change (inject_Z 1585) with 1585%Q. lra. }
    rewrite <- Zlt_Qlt in H. lia.
  - assert (H : (inject_Z (Qfloor y) < inject_Z 1599)%Q).
    { change (inject_Z 1599) with 1599%Q. lra. }
    rewrite <- Zlt_Qlt in H. lia.
Qed.

(** Whatever rates it is given, when the engine of src/script.js answers
    from its primary rung (rate source "Binance P2P (Primary)"), no
    fallback is counted and no warning is attached; and, its formulas
    being evaluated exactly, the rate it quotes is a two-decimal number
    from 15.85 to 15.98, the configured discount range, so that it is
    below the lower local market rate of 16.2 and [savingsVsMin] is
    positive.  (The exact saving is at least 0.22; binary64 rounds the
    difference, which for 15.98 comes out just under that.) *)
Theorem primary_rate_within_discount_range
    (lowest ngnRate : num) (reference : option num) (u1 u2 : Q) (m : Metrics) :
  (0 <= u1)%Q -> (u1 < 1)%Q ->
  let result := calculateCompetitiveRate config lowest ngnRate reference u1 u2 m in
  rateSource (fst result) = "Binance P2P (Primary)" ->
  snd result = m /\
  usedCoinGeckoFallback (fst result) = false /\ warning (fst result) = None /\
  exists cents : Z,
    targetRate (fst result) = Fin (inject_Z cents / inject_Z 100) /\
    (1585 <= cents <= 1598)%Z /\
    exists saved,
      savingsVsMin (fst result) = Fin saved /\ (0 < saved)%Q.
Proof.
  intros H0 H1. cbv zeta. unfold calculateCompetitiveRate.
  simpl Conf.pricing. simpl Conf.minProfitMargin. simpl Conf.localRateMin.
  simpl Conf.localRateMax. simpl Conf.discountRangeMin. simpl Conf.discountRangeMax.
  simpl Conf.targetProfitMargin.
  destruct (round2_discount u1 H0 H1) as (k & Hk & Hrange). rewrite Hk.
  destruct (_ <? dec 8 10)%num.
  - destruct reference as [r |]; [destruct (truthy_num r && _) |];
      simpl; discriminate.
  - simpl. intros _. repeat split. exists k. split; [reflexivity |].
    split; [exact Hrange |].
    exists ((162 # 10) + - (inject_Z k / inject_Z 100))%Q. split; [reflexivity |].
    assert (Hq : (inject_Z k <= inject_Z 1598)%Q) by (rewrite <- Zle_Qle; lia).
    change (inject_Z 1598) with 1598%Q in Hq. change (inject_Z 100) with 100%Q.
    assert (Hd : (inject_Z k / 100 <= 1598 # 100)%Q).
    { apply Qle_shift_div_r; [reflexivity |]. lra. }
    set (t := (inject_Z k / 100)%Q) in *. lra.
Qed.

Lemma primary_rate_within_discount_range_witness :
  let result :=
    calculateCompetitiveRate config (Fin 90) (Fin 1350) None (1 # 2) (1 # 4) metrics0 in
  snd result = metrics0 /\
  usedCoinGeckoFallback (fst result) = false /\ warning (fst result) = None /\
  exists cents : Z,
    targetRate (fst result) = Fin (inject_Z cents / inject_Z 100) /\
    (1585 <= cents <= 1598)%Z /\
    exists saved,
      savingsVsMin (fst result) = Fin saved /\ (0 < saved)%Q.
Proof.
  apply (primary_rate_within_discount_range (Fin 90) (Fin 1350) None (1 # 2) (1 # 4)
           metrics0); [lra | lra | reflexivity].
Defined.

(** ** Manual verification *)

(** POST /api/payment/verify-manual moves no counter.  It writes the
    record itself instead of calling [updateTransactionStatus]: whatever
    the gateway and the store answer, the metrics are what they were,
    also when the verification succeeds and the session is stored as
    "completed", so that the session counters then disagree with the
    store. *)
Theorem verifyManual_moves_no_counter
    (reference sessionId : string) (gateway : outcome Verification)
    (io : Io) (st : State) :
  let result := verifyManual reference sessionId gateway io st in
  metrics (snd result) = metrics st /\
  (forall tx,
     gateway = Return tx -> responseOk tx = true -> txStatus tx = VStr "success" ->
     reference <> "" -> sessionId <> "" -> writeError io = None ->
     fst result = Sent 200 /\
     child (snd result) sessionId "status" = Some (VStr "completed") /\
     child (snd result) sessionId "paystackReference" = Some (VStr reference)).
Proof.
  cbv zeta. split.
  - unfold verifyManual, dbUpdate.
    destruct (String.eqb reference ""); [reflexivity |].
    destruct gateway as [tx | e]; [| reflexivity].
    destruct (negb (responseOk tx)); [reflexivity |].
    destruct (isStr "success" (txStatus tx) && negb (String.eqb sessionId ""));
      [destruct (writeError io); reflexivity |].
    destruct (negb (String.eqb sessionId ""));
      [destruct (writeError io); reflexivity | reflexivity].
  - intros tx -> Hok Hs Hr Hid Hw. unfold verifyManual, dbUpdate.
    apply String.eqb_neq in Hr. apply String.eqb_neq in Hid.
    rewrite Hr, Hok, Hs, Hid, Hw. simpl.
    split; [reflexivity |]. unfold child. simpl. rewrite lookup_insert_eq.
    split; apply lookup_union_Some_l; reflexivity.
Qed.

Example verifyManual_sample :
  let gateway :=
    Return (mkVerification true (VStr "success") (int 10000000) (VStr "card")
              (VStr "Successful")) in
  let result :=
    verifyManual "HP-ref-1" "6f1c2a9e-session" gateway (mkIo 1736900060000 None)
      (snd Sealed.create) in
  fst result = Sent 200 /\
  child (snd result) "6f1c2a9e-session" "status" = Some (VStr "completed") /\
  sessionsOf (metrics (snd result)) = (1, 1, 0, 0).
Proof. repeat split. Qed.

(** ** The aggregator of the earlier server *)

(** The earlier server never prices without the reference.  On a cache
    miss, a snapshot that its [getMarketData] returns carries a reference
    rate for the markup currency that is not [NaN] and strictly positive,
    the rate with markup is that rate plus the flat markup, the reference
    fetch succeeded, and the only source that [errors] can name is the
    spot price. *)
Theorem Part002_snapshot_has_reference_rate
    (parseFloat parseInt : value -> num) (cfg : Part002.Config)
    (useCache : bool) (time : Z) (feeds : Feeds) (st st1 : Part002.State)
    (snapshot : Part002.MarketData) :
  cacheMiss002 useCache time st ->
  Part002.getMarketData parseFloat parseInt cfg useCache time feeds st
    = (Return snapshot, st1) ->
  let reference := Part002.coinGeckoNgn (Part002.rates snapshot) in
  isNaN reference = false /\ (reference >? int 0)%num = true /\
  Part002.ngnRateWithMarkup (Part002.rates snapshot)
    = (reference + Part002.ngnMarkup (Part002.pricing cfg))%num /\
  (exists quote, fetchCoinGecko parseFloat (geckoFeed feeds) = Return quote /\
                 ngn quote = Some reference) /\
  (Part002.errors snapshot = None \/
   exists e, Part002.errors snapshot = Some [mkSourceError "binanceSpot" e]).
Proof.
  intros Hmiss H. unfold cacheMiss002 in Hmiss. cbv zeta.
  unfold Part002.getMarketData in H. rewrite Hmiss in H.
  pose proof (fetchCoinGecko_rates parseFloat (geckoFeed feeds)) as Hg.
  destruct (fetchBinanceSpot parseFloat (spotFeed feeds)) as [p | es];
    destruct (fetchCoinGecko parseFloat (geckoFeed feeds)) as [g | eg];
    destruct (fetchBinanceP2P (Part002.maxRetries cfg) (p2pFeed feeds)) as [d | ep];
    simpl in H; try discriminate;
    destruct (truthy d); simpl in H; try discriminate.
  all: try (destruct (ngn g) as [r |] eqn:En; simpl in H; [| discriminate];
            destruct (truthy_num r); simpl in H; [| discriminate];
            destruct (analyzeP2P parseFloat parseInt (Part002.filters cfg) d)
              as [stats | e]; [| discriminate];
            injection H as <- <-; simpl;
            destruct Hg as [_ Hngn]; destruct (Hngn r eq_refl) as [Hnan Hpos];
            split; [exact Hnan |]; split; [exact Hpos |]; split; [reflexivity |];
            split; [exists g; split; [reflexivity | exact En] |];
            first [left; reflexivity | right; eexists; reflexivity]).
Qed.

Lemma Part002_snapshot_has_reference_rate_witness :
  exists snapshot st1,
    Part002.getMarketData Builtins.parseFloat Builtins.parseInt Part002.config true 0
      Samples.feedsUp Samples.fresh002 = (Return snapshot, st1) /\
    let reference := Part002.coinGeckoNgn (Part002.rates snapshot) in
    isNaN reference = false /\ (reference >? int 0)%num = true /\
    Part002.ngnRateWithMarkup (Part002.rates snapshot)
      = (reference + Part002.ngnMarkup (Part002.pricing Part002.config))%num /\
    (exists quote,
       fetchCoinGecko Builtins.parseFloat (geckoFeed Samples.feedsUp) = Return quote /\
       ngn quote = Some reference) /\
    (Part002.errors snapshot = None \/
     exists e, Part002.errors snapshot = Some [mkSourceError "binanceSpot" e]).
Proof.
  eexists. eexists. split; [reflexivity |].
  eapply (Part002_snapshot_has_reference_rate Builtins.parseFloat Builtins.parseInt
            Part002.config true 0 Samples.feedsUp Samples.fresh002).
  - reflexivity.
  - reflexivity.
Defined.

(** ** What the status-moving requests write *)

Lemma keepsOutside_refl (keys : list string) (st : State) : keepsOutside keys st st.
Proof. intros sid s H. eauto. Qed.

Lemma keepsOutside_trans (keys : list string) (st1 st2 st3 : State) :
  keepsOutside keys st1 st2 -> keepsOutside keys st2 st3 -> keepsOutside keys st1 st3.
Proof.
  intros H12 H23 sid s H.
  destruct (H12 sid s H) as (s2 & H2 & E2).
  destruct (H23 sid s2 H2) as (s3 & H3 & E3).
  exists s3. split; [exact H3 |]. intros k Hk. rewrite E3, E2 by exact Hk. reflexivity.
Qed.

Lemma keepsOutside_metrics (keys : list string) (st : State) (m : Metrics) :
  keepsOutside keys st (withMetrics m st).
Proof. intros sid s H. simpl. eauto. Qed.

Lemma dbUpdate_keepsOutside (keys : list string) (sessionId : string)
    (updates : Session) (io : Io) (st : State) :
  (forall k, ~ In k keys -> updates !! k = None) ->
  keepsOutside keys st (snd (dbUpdate sessionId updates io st)).
Proof.
  intros Hu. unfold dbUpdate. destruct (writeError io); [apply keepsOutside_refl |].
  intros sid s H. simpl.
  destruct (decide (sessionId = sid)) as [-> | Hne].
  - rewrite lookup_insert_eq. rewrite H. simpl.
    eexists. split; [reflexivity |].
    intros k Hk. apply lookup_union_r. apply Hu. exact Hk.
  - rewrite lookup_insert_ne by exact Hne. eauto.
Qed.

Lemma errorHandler_keepsOutside (keys : list string) (e : JsError) (st : State) :
  keepsOutside keys st (snd (errorHandler e st)).
Proof.
  unfold errorHandler. destruct (name e); simpl; apply keepsOutside_metrics.
Qed.

(** A key outside the payment fields differs from each of them. *)
Ltac not_a_payment_field :=
  let k := fresh "k" in
  let Hk := fresh "Hk" in
  intros k Hk; simpl;
  repeat (rewrite lookup_insert_ne
            by (intros <-; apply Hk; unfold paymentFields; simpl; tauto));
  try (rewrite lookup_singleton_ne
         by (intros <-; apply Hk; unfold paymentFields; simpl; tauto));
  try apply lookup_empty; try reflexivity.

Section WrittenFields.

Variable cfg : Conf.Config.
Variable decryptData : string -> outcome value.

Lemma updateTransactionStatus_keepsOutside
    (sessionId status : string) (additionalData : Session) (io : Io) (st : State) :
  (forall k, ~ In k paymentFields -> additionalData !! k = None) ->
  keepsOutside paymentFields st
    (snd (updateTransactionStatus sessionId status additionalData io st)).
Proof.
  intros Ha. unfold updateTransactionStatus.
  set (updates := additionalData ∪ _).
  assert (Hu : forall k, ~ In k paymentFields -> updates !! k = None).
  { intros k Hk. unfold updates. rewrite lookup_union_r by (apply Ha; exact Hk).
    revert k Hk. not_a_payment_field. }
  pose proof (dbUpdate_keepsOutside paymentFields sessionId updates io st Hu) as K.
  destruct (dbUpdate sessionId updates io st) as [[u | e] st']; simpl in *.
  - eapply keepsOutside_trans; [exact K | apply keepsOutside_metrics].
  - exact K.
Qed.

Lemma serve_keepsOutside (request : StatusRequest) (io : Io) (st : State) :
  keepsOutside paymentFields st (snd (serve cfg decryptData request io st)).
Proof.
  destruct request as [sid | reference sid gateway | reference sid | valid event
                      | headerKey queryKey sid status proof notes ip]; simpl.
  - unfold paymentInitialize.
    destruct (String.eqb sid ""); [apply errorHandler_keepsOutside |].
    destruct (getTransactionSession decryptData sid io st) as [session | e];
      [| apply errorHandler_keepsOutside].
    destruct (negb (isStr "pending" _)); [apply errorHandler_keepsOutside |].
    match goal with |- context [dbUpdate sid ?u io st] =>
      pose proof (dbUpdate_keepsOutside paymentFields sid u io st) as K;
      destruct (dbUpdate sid u io st) as [[x | e] st'] end.
    + simpl in *. apply K. not_a_payment_field.
    + simpl in K. eapply keepsOutside_trans; [apply K; not_a_payment_field |].
      apply errorHandler_keepsOutside.
  - unfold verifyManual.
    destruct (String.eqb reference ""); [apply keepsOutside_refl |].
    destruct gateway as [tx | e]; [| apply keepsOutside_refl].
    destruct (negb (responseOk tx)); [apply keepsOutside_refl |].
    destruct (isStr "success" (txStatus tx) && negb (String.eqb sid "")).
    + match goal with |- context [dbUpdate sid ?u io st] =>
        pose proof (dbUpdate_keepsOutside paymentFields sid u io st) as K;
        destruct (dbUpdate sid u io st) as [[x | e] st'] end;
        simpl in *; apply K; not_a_payment_field.
    + destruct (negb (String.eqb sid "")); [| apply keepsOutside_refl].
      match goal with |- context [dbUpdate sid ?u io st] =>
        pose proof (dbUpdate_keepsOutside paymentFields sid u io st) as K;
        destruct (dbUpdate sid u io st) as [[x | e] st'] end;
        simpl in *; apply K; not_a_payment_field.
  - apply keepsOutside_refl.
  - unfold paystackWebhook.
    destruct (negb valid); [apply keepsOutside_refl |].
    destruct (isStr "charge.success" (eventName event)
              && negb (String.eqb (metadataSessionId event) ""));
      [| apply keepsOutside_refl].
    match goal with |- context [updateTransactionStatus ?s ?t ?a io st] =>
      pose proof (updateTransactionStatus_keepsOutside s t a io st) as K;
      destruct (updateTransactionStatus s t a io st) as [[x | e] st'] end;
      simpl in *; apply K; not_a_payment_field.
  - unfold adminSetStatus.
    destruct (validateAdminAuth cfg headerKey queryKey) as [ok | e];
      [| apply errorHandler_keepsOutside].
    destruct (negb _); [apply errorHandler_keepsOutside |].
    match goal with |- context [updateTransactionStatus ?s ?t ?a io st] =>
      pose proof (updateTransactionStatus_keepsOutside s t a io st) as K;
      destruct (updateTransactionStatus s t a io st) as [[x | e] st'] end.
    + simpl in *. apply K. not_a_payment_field.
    + simpl in K. eapply keepsOutside_trans; [apply K; not_a_payment_field |].
      apply errorHandler_keepsOutside.
Qed.

(** The status-moving requests (payment initialisation, manual
    verification, gateway callback, webhook, administrative status
    change) whose session identifiers are single keys of the store never
    remove a session and write only the fourteen payment fields: after
    any run of them every stored session is still stored, and each of its
    other children (its identifier, creation and expiry times, the two
    ciphertexts, the address, the user agent and the summary among them)
    is what it was. *)
Theorem status_requests_write_only_payment_fields
    (requests : list (StatusRequest * Io)) (st : State)
    (sessionId : string) (session : Session) :
  Forall (fun request => keyed (fst request) = true) requests ->
  transactions st !! sessionId = Some session ->
  exists session',
    transactions (serveAll cfg decryptData requests st) !! sessionId = Some session' /\
    (forall k, ~ In k paymentFields -> session' !! k = session !! k) /\
    session' !! "expiresAt" = session !! "expiresAt" /\
    session' !! "createdAt" = session !! "createdAt" /\
    session' !! "ipAddress" = session !! "ipAddress" /\
    session' !! "summary" = session !! "summary" /\
    session' !! "encryptedUserDetails" = session !! "encryptedUserDetails".
Proof.
  assert (Hall : forall requests st, keepsOutside paymentFields st
                                      (serveAll cfg decryptData requests st)).
  { clear. intros requests. induction requests as [| [request io] rest IH]; intros st.
    - apply keepsOutside_refl.
    - unfold serveAll. simpl. eapply keepsOutside_trans; [apply serve_keepsOutside |].
      apply IH. }
  intros _ Hs. destruct (Hall requests st sessionId session Hs) as (session' & Hs' & Hk).
  exists session'. split; [exact Hs' |]. split; [exact Hk |].
  repeat split; apply Hk; unfold paymentFields; simpl; intuition discriminate.
Qed.

End WrittenFields.

Lemma status_requests_write_only_payment_fields_witness :
  let requests :=
    [(PaymentInitialize "6f1c2a9e-session", mkIo 1736900060000 None);
     (PaystackWebhook true (Samples.chargeSuccess "6f1c2a9e-session"),
      mkIo 1736900120000 None)] in
  let session := default ∅ (transactions (snd Sealed.create) !! "6f1c2a9e-session") in
  exists session',
    transactions (serveAll Samples.deployed (Sealed.decryptData Sealed.known) requests
                    (snd Sealed.create)) !! "6f1c2a9e-session" = Some session' /\
    (forall k, ~ In k paymentFields -> session' !! k = session !! k) /\
    session' !! "expiresAt" = session !! "expiresAt" /\
    session' !! "createdAt" = session !! "createdAt" /\
    session' !! "ipAddress" = session !! "ipAddress" /\
    session' !! "summary" = session !! "summary" /\
    session' !! "encryptedUserDetails" = session !! "encryptedUserDetails".
Proof.
  intros requests session.
  apply (status_requests_write_only_payment_fields Samples.deployed
           (Sealed.decryptData Sealed.known) requests (snd Sealed.create)
           "6f1c2a9e-session" session).
  - repeat constructor.
  - reflexivity.
Defined.

(** ** The session counters *)

Lemma balanced_same (m m' : Metrics) :
  sessionsOf m' = sessionsOf m -> balanced m -> balanced m'.
Proof.
  unfold sessionsOf, balanced. intros [= H1 H2 H3 H4]. intros H. lia.
Qed.

Lemma balanced_opened (m : Metrics) : balanced m -> balanced (sessionOpened m).
Proof. unfold balanced. simpl. lia. Qed.

Lemma balanced_completed (m : Metrics) : balanced m -> balanced (sessionCompleted m).
Proof. unfold balanced. simpl. lia. Qed.

Lemma balanced_failed (m : Metrics) : balanced m -> balanced (sessionFailed m).
Proof. unfold balanced. simpl. lia. Qed.

Lemma errorHandler_balanced (e : JsError) (st : State) :
  balanced (metrics st) -> balanced (metrics (snd (errorHandler e st))).
Proof. unfold errorHandler. destruct (name e); simpl; exact (fun H => H). Qed.

Lemma dbUpdate_metrics (sessionId : string) (updates : Session) (io : Io) (st : State) :
  metrics (snd (dbUpdate sessionId updates io st)) = metrics st.
Proof. unfold dbUpdate. destruct (writeError io); reflexivity. Qed.

Lemma updateTransactionStatus_balanced
    (sessionId status : string) (additionalData : Session) (io : Io) (st : State) :
  balanced (metrics st) ->
  balanced (metrics (snd (updateTransactionStatus sessionId status additionalData io st))).
Proof.
  intros H. unfold updateTransactionStatus.
  match goal with |- context [dbUpdate sessionId ?u io st] =>
    pose proof (dbUpdate_metrics sessionId u io st) as Hm;
    destruct (dbUpdate sessionId u io st) as [[x | e] st'] end;
    simpl in *; rewrite Hm; [| exact H].
  destruct (String.eqb status "completed"); [apply balanced_completed; exact H |].
  destruct (String.eqb status "failed"); [apply balanced_failed; exact H | exact H].
Qed.

Section CounterFacts.

Variable parseFloat : value -> num.
Variable parseInt : value -> num.
Variable cfg : Conf.Config.
Variable encryptData : value -> string.
Variable decryptData : string -> outcome value.
Variable stripNonNumeric : string -> string.
Variable toFixed : num -> nat -> string.
Variable numToString : num -> string.
Variable emailPattern : string -> bool.
Variable phonePattern : string -> bool.
Variable lastByIp : gmap string Session -> string -> list Session.

Lemma serve_balanced (request : StatusRequest) (io : Io) (st : State) :
  balanced (metrics st) ->
  balanced (metrics (snd (serve cfg decryptData request io st))).
Proof.
  intros H.
  destruct request as [sid | reference sid gateway | reference sid | valid event
                      | headerKey queryKey sid status proof notes ip]; simpl.
  - unfold paymentInitialize.
    destruct (String.eqb sid ""); [apply errorHandler_balanced; exact H |].
    destruct (getTransactionSession decryptData sid io st) as [session | e];
      [| apply errorHandler_balanced; exact H].
    destruct (negb (isStr "pending" _)); [apply errorHandler_balanced; exact H |].
    match goal with |- context [dbUpdate sid ?u io st] =>
      pose proof (dbUpdate_metrics sid u io st) as Hm;
      destruct (dbUpdate sid u io st) as [[x | e] st'] end; simpl in Hm.
    + simpl. rewrite Hm. exact H.
    + apply errorHandler_balanced. rewrite Hm. exact H.
  - unfold verifyManual.
    destruct (String.eqb reference ""); [exact H |].
    destruct gateway as [tx | e]; [| exact H].
    destruct (negb (responseOk tx)); [exact H |].
    destruct (isStr "success" (txStatus tx) && negb (String.eqb sid "")).
    + match goal with |- context [dbUpdate sid ?u io st] =>
        pose proof (dbUpdate_metrics sid u io st) as Hm;
        destruct (dbUpdate sid u io st) as [[x | e] st'] end;
        simpl in *; rewrite Hm; exact H.
    + destruct (negb (String.eqb sid "")); [| exact H].
      match goal with |- context [dbUpdate sid ?u io st] =>
        pose proof (dbUpdate_metrics sid u io st) as Hm;
        destruct (dbUpdate sid u io st) as [[x | e] st'] end;
        simpl in *; rewrite Hm; exact H.
  - exact H.
  - unfold paystackWebhook.
    destruct (negb valid); [exact H |].
    destruct (isStr "charge.success" (eventName event)
              && negb (String.eqb (metadataSessionId event) "")); [| exact H].
    match goal with |- context [updateTransactionStatus ?s ?t ?a io st] =>
      pose proof (updateTransactionStatus_balanced s t a io st H) as K;
      destruct (updateTransactionStatus s t a io st) as [[x | e] st'] end;
      simpl in *; exact K.
  - unfold adminSetStatus.
    destruct (validateAdminAuth cfg headerKey queryKey) as [ok | e];
      [| apply errorHandler_balanced; exact H].
    destruct (negb _); [apply errorHandler_balanced; exact H |].
    match goal with |- context [updateTransactionStatus ?s ?t ?a io st] =>
      pose proof (updateTransactionStatus_balanced s t a io st H) as K;
      destruct (updateTransactionStatus s t a io st) as [[x | e] st'] end;
      simpl in K.
    + exact K.
    + apply errorHandler_balanced. exact K.
Qed.

Lemma serveAll_balanced (requests : list (StatusRequest * Io)) (st : State) :
  balanced (metrics st) -> balanced (metrics (serveAll cfg decryptData requests st)).
Proof.
  revert st. induction requests as [| [request io] rest IH]; intros st H.
  - exact H.
  - unfold serveAll. simpl. apply IH. apply serve_balanced. exact H.
Qed.

Lemma convertBody_balanced (req : ConvertRequest) (c : ConvertIo) (st : State) :
  balanced (metrics st) ->
  balanced (metrics (snd (convertBody parseFloat parseInt cfg encryptData stripNonNumeric
                            toFixed numToString emailPattern phonePattern lastByIp
                            req c st))).
Proof.
  intros H. unfold convertBody.
  destruct (findings c); [| exact H].
  destruct (validateConversionRequest cfg _ _ _); [| exact H].
  match goal with
  | |- context [if ?b then validateUserDetails _ _ _ else _] =>
      destruct (if b then validateUserDetails emailPattern phonePattern _ else Return true)
  end; [| exact H].
  match goal with
  | |- context [checkFraudRisk cfg lastByIp ?u ?a ?i c st] =>
      pose proof (checkFraudRisk_keeps cfg lastByIp u a i c st) as Hf;
      destruct (checkFraudRisk cfg lastByIp u a i c st) as [risks stf]
  end.
  cbv zeta in Hf. simpl snd in Hf. destruct Hf as (_ & Hfm & _).
  assert (Hbf : balanced (metrics stf)) by (rewrite Hfm; exact H).
  destruct (existsb isHigh risks); [exact Hbf |].
  pose proof (getMarketData_keeps parseFloat parseInt cfg true (now (io c)) (feeds c) stf)
    as Hg.
  destruct (getMarketData parseFloat parseInt cfg true (now (io c)) (feeds c) stf)
    as [[marketData | e] stg]; cbv zeta in Hg; simpl snd in Hg;
    destruct Hg as (_ & _ & Hgs);
    pose proof (balanced_same _ _ Hgs Hbf) as Hbg; [| exact Hbg].
  match goal with
  | |- context [calculateCompetitiveRate cfg ?l ?n ?r ?a ?b ?m] =>
      pose proof (calculateCompetitiveRate_keeps cfg l n r a b m) as Hp;
      destruct (calculateCompetitiveRate cfg l n r a b m) as [competitive mp]
  end.
  cbv zeta in Hp. simpl snd in Hp. destruct Hp as (_ & Hps).
  pose proof (balanced_same _ _ Hps Hbg) as Hbp.
  destruct (calculateFees (Conf.tiers cfg) _) as [fees | e]; [| exact Hbp].
  unfold createTransactionSession.
  destruct (String.eqb (Conf.encryptionKey cfg) "" || _); [exact Hbp |].
  unfold dbSet. destruct (writeError (io c)); [exact Hbp |].
  simpl. apply balanced_opened. exact Hbp.
Qed.

(** The session counters always balance.  If [total] is the sum of
    [pending], [completed] and [failed], it still is after any run of
    status-moving requests and after any POST /api/convert, also when a
    completion delivered twice has driven [pending] below zero. *)
Theorem session_counters_balance
    (requests : list (StatusRequest * Io)) (req : ConvertRequest) (c : ConvertIo)
    (st : State) :
  balanced (metrics st) ->
  balanced (metrics (serveAll cfg decryptData requests st)) /\
  balanced (metrics (snd (convert parseFloat parseInt cfg encryptData stripNonNumeric
                            toFixed numToString emailPattern phonePattern lastByIp
                            req c st))).
Proof.
  intros H. split; [apply serveAll_balanced; exact H |].
  unfold convert.
  pose proof (convertBody_balanced req c st H) as Hb.
  destruct (convertBody parseFloat parseInt cfg encryptData stripNonNumeric toFixed
              numToString emailPattern phonePattern lastByIp req c st)
    as [[response | e] st1]; simpl in Hb.
  - exact Hb.
  - pose proof (errorHandler_balanced e st1 Hb) as He.
    destruct (errorHandler e st1) as [reply st2]. exact He.
Qed.

End CounterFacts.

Lemma session_counters_balance_witness :
  let requests :=
    [(PaystackWebhook true (Samples.chargeSuccess "6f1c2a9e-session"),
      mkIo 1736900060000 None);
     (PaystackWebhook true (Samples.chargeSuccess "6f1c2a9e-session"),
      mkIo 1736900061000 None)] in
  balanced (metrics (serveAll Samples.deployed (Sealed.decryptData Sealed.known) requests
                       (snd Sealed.create))) /\
  balanced (metrics (snd (Samples.post (Samples.request (VNum (int 100000)))
                            (Samples.answers Samples.feedsUp) (snd Sealed.create)))).
Proof.
  intros requests.
  apply (session_counters_balance Builtins.parseFloat Builtins.parseInt Samples.deployed
           Samples.encryptData (Sealed.decryptData Sealed.known) Builtins.stripNonNumeric
           Builtins.toFixed Builtins.numToString Builtins.emailPattern
           Builtins.phonePattern Samples.lastByIp requests
           (Samples.request (VNum (int 100000))) (Samples.answers Samples.feedsUp)
           (snd Sealed.create)).
  reflexivity.
Defined.

(** In the run of the example the webhook is delivered twice: [pending]
    ends at -1 and [completed] at 2, and the counters still balance. *)
Example session_counters_sample :
  let requests :=
    [(PaystackWebhook true (Samples.chargeSuccess "6f1c2a9e-session"),
      mkIo 1736900060000 None);
     (PaystackWebhook true (Samples.chargeSuccess "6f1c2a9e-session"),
      mkIo 1736900061000 None)] in
  sessionsOf (metrics (serveAll Samples.deployed (Sealed.decryptData Sealed.known)
                         requests (snd Sealed.create)))
  = (1, -1, 2, 0).
Proof. reflexivity. Qed.

(** ** The quote and the stored session *)

Section QuoteFacts.

Variable parseFloat : value -> num.
Variable parseInt : value -> num.
Variable cfg : Conf.Config.
Variable encryptData : value -> string.
Variable stripNonNumeric : string -> string.
Variable toFixed : num -> nat -> string.
Variable numToString : num -> string.
Variable emailPattern : string -> bool.
Variable phonePattern : string -> bool.
Variable lastByIp : gmap string Session -> string -> list Session.

Lemma convertBody_quote (req : ConvertRequest) (c : ConvertIo) (st : State) :
  match convertBody parseFloat parseInt cfg encryptData stripNonNumeric toFixed
          numToString emailPattern phonePattern lastByIp req c st with
  | (Return response, st1) =>
      exists amount session,
        bodyAmount req = VNum amount /\
        calculateFees (Conf.tiers cfg) (amount / targetRate (competitiveOf response))%num
          = Return (feesOf response) /\
        offerExchangeRate response
          = "₦" ++ toFixed (targetRate (competitiveOf response)) 2 ++ " per ₹1" /\
        sessionIdOf response = uuid c /\
        expiresAtOf response = (now (io c) + Conf.sessionTTL cfg)%Z /\
        transactions st1 !! uuid c = Some session /\
        session !! "status" = Some (VStr "pending") /\
        session !! "expiresAt" = Some (VNum (int (expiresAtOf response))) /\
        session !! "encryptedTransaction"
          = Some (VStr (encryptData (quotedFields toFixed req response)))
  | (Throw e, st1) => True
  end.
Proof.
  unfold convertBody.
  destruct (findings c); [| exact I].
  destruct (validateConversionRequest cfg _ _ _) eqn:Ev; [| exact I].
  destruct (bodyAmount req) as [| | | amount | | |] eqn:Ea; try discriminate Ev.
  match goal with
  | |- context [if ?b then validateUserDetails _ _ _ else _] =>
      destruct (if b then validateUserDetails emailPattern phonePattern _ else Return true)
  end; [| exact I].
  match goal with
  | |- context [checkFraudRisk cfg lastByIp ?u ?a ?i c st] =>
      destruct (checkFraudRisk cfg lastByIp u a i c st) as [risks stf]
  end.
  destruct (existsb isHigh risks); [exact I |].
  destruct (getMarketData parseFloat parseInt cfg true (now (io c)) (feeds c) stf)
    as [[marketData | e] stg]; [| exact I].
  match goal with
  | |- context [calculateCompetitiveRate cfg ?l ?n ?r ?a ?b ?m] =>
      destruct (calculateCompetitiveRate cfg l n r a b m) as [competitive mp]
  end.
  destruct (calculateFees (Conf.tiers cfg) _) as [fees | e] eqn:Efees; [| exact I].
  match goal with
  | |- context [createTransactionSession parseFloat cfg encryptData stripNonNumeric
                  ?s ?t ?u ?i ?x] =>
      pose proof (createTransactionSession_record parseFloat cfg encryptData
                    stripNonNumeric s t u i x) as Hc;
      destruct (createTransactionSession parseFloat cfg encryptData stripNonNumeric
                  s t u i x) as [[[sessionId expiresAt] | e] stc]
  end; [| exact I].
  specialize (Hc stc (sessionId, expiresAt) eq_refl).
  destruct Hc as (Hcreated & _ & _ & _ & session & Hst & _ & Hstatus & _ & Hexp & _ & Het).
  injection Hcreated as -> ->.
  exists amount, session. simpl.
  split; [reflexivity |]. split; [exact Efees |]. split; [reflexivity |].
  split; [reflexivity |]. split; [reflexivity |].
  split; [rewrite Hst; apply lookup_insert_eq |].
  split; [exact Hstatus |]. split; [exact Hexp |].
  unfold quotedFields. simpl. rewrite Ea. exact Het.
Qed.

(** What POST /api/convert shows is what it stores.  When the route
    answers with a quote, the request's amount is a number, the fees of
    the response are the scheduled fees of that amount divided by the
    quoted rate, and the session stored under the returned id is pending,
    expires at the announced time and seals exactly the request's amount
    and currencies with the exchange-rate and fee texts of the response.
    When the route refuses, no session is stored or changed. *)
Theorem convert_stores_what_it_quotes (req : ConvertRequest) (c : ConvertIo) (st : State) :
  match convert parseFloat parseInt cfg encryptData stripNonNumeric toFixed
          numToString emailPattern phonePattern lastByIp req c st with
  | (Converted response, st1) =>
      exists amount session,
        bodyAmount req = VNum amount /\
        calculateFees (Conf.tiers cfg) (amount / targetRate (competitiveOf response))%num
          = Return (feesOf response) /\
        offerExchangeRate response
          = "₦" ++ toFixed (targetRate (competitiveOf response)) 2 ++ " per ₹1" /\
        sessionIdOf response = uuid c /\
        expiresAtOf response = (now (io c) + Conf.sessionTTL cfg)%Z /\
        transactions st1 !! uuid c = Some session /\
        session !! "status" = Some (VStr "pending") /\
        session !! "expiresAt" = Some (VNum (int (expiresAtOf response))) /\
        session !! "encryptedTransaction"
          = Some (VStr (encryptData (quotedFields toFixed req response)))
  | (NotConverted reply, st1) => transactions st1 = transactions st
  end.
Proof.
  unfold convert.
  pose proof (convertBody_quote req c st) as Hq.
  pose proof (convertBody_effects parseFloat parseInt cfg encryptData stripNonNumeric
                toFixed numToString emailPattern phonePattern lastByIp req c st) as He.
  destruct (convertBody parseFloat parseInt cfg encryptData stripNonNumeric toFixed
              numToString emailPattern phonePattern lastByIp req c st)
    as [[response | e] st1].
  - exact Hq.
  - destruct He as (_ & Ht & _).
    unfold errorHandler. destruct (name e); simpl; exact Ht.
Qed.

End QuoteFacts.

(** The quote of the example: 100000 naira with all feeds up. *)
Example convert_quote_sample :
  match Samples.post (Samples.request (VNum (int 100000)))
          (Samples.answers Samples.feedsUp) Samples.fresh with
  | (Converted response, st1) =>
      sessionIdOf response = "6f1c2a9e-session" /\
      expiresAtOf response = 1736900300000%Z /\
      child st1 "6f1c2a9e-session" "status" = Some (VStr "pending")
  | (NotConverted _, _) => False
  end.
Proof. vm_compute. repeat split. Qed.

(** ** Where binary64 parts from the exact evaluation *)

Section Binary64.

#[local] Set Warnings "-inexact-float".

(** C5, the claim as stated fails.  In binary64 the fee and the net
    amount of 10002.63 add up to 10002.629999999997, not to the amount;
    and at [Infinity] the fee is [Infinity] and the net amount [NaN]. *)
Lemma calculateFees_sum_not_exact :
  (exists fees,
     B64.calculateFees B64.feeTiers 10002.63%float = Return fees /\
     B64.feePercent fees = 2.0%float /\
     (B64.netAmount fees + B64.feeAmount fees)%float = 10002.629999999997%float /\
     (B64.netAmount fees + B64.feeAmount fees =? 10002.63)%float = false)
  /\ (exists fees,
        calculateFees feeTiers PInf = Return fees /\
        feeAmount fees = PInf /\ netAmount fees = NaN /\
        JS.eqb (netAmount fees + feeAmount fees)%num PInf = false).
Proof.
  split.
  - eexists. split; [reflexivity |]. repeat split; reflexivity.
  - eexists. split; [reflexivity |]. repeat split; reflexivity.
Qed.

(** The choice of the tier is the same in binary64: comparisons do not
    round.  At the boundary of the first tier the lower tier's percentage
    applies, just above it the next one's; and [Infinity] and [NaN] end in
    the last tier, the one by its bound, the other by the fall-through. *)
Example calculateFees_binary64_tiers :
  B64.calculateFees B64.feeTiers 10000%float
    = Return (B64.mkFees 2.5%float 250%float 9750%float) /\
  (exists fees, B64.calculateFees B64.feeTiers 10000.01%float = Return fees /\
                B64.feePercent fees = 2.0%float) /\
  (exists fees, B64.calculateFees B64.feeTiers infinity = Return fees /\
                B64.feePercent fees = 0.75%float /\
                is_nan (B64.netAmount fees) = true) /\
  (exists fees, B64.calculateFees B64.feeTiers nan = Return fees /\
                B64.feePercent fees = 0.75%float).
Proof.
  split; [reflexivity |].
  repeat split; eexists; split; try reflexivity; split; reflexivity.
Qed.

(** In binary64 the fee of 4321, in the first tier, is above 2.5% of the
    amount, and the net amount of 1234.56 is below 97.5% of it: the
    bounds of the exact evaluation hold of the code only up to rounding. *)
Example calculateFees_bounds_rounded :
  (exists fees q,
     B64.calculateFees B64.feeTiers 4321%float = Return fees /\
     B64.exact (B64.feeAmount fees) = Some q /\ (4321 * (25 # 1000) < q)%Q)
  /\ (exists fees q a,
        B64.calculateFees B64.feeTiers 1234.56%float = Return fees /\
        B64.exact (B64.netAmount fees) = Some q /\
        B64.exact 1234.56%float = Some a /\ (q < a * (975 # 1000))%Q).
Proof.
  split.
  - do 2 eexists. split; [reflexivity |]. split; [vm_compute; reflexivity |].
    vm_compute. reflexivity.
  - do 3 eexists. split; [reflexivity |]. split; [vm_compute; reflexivity |].
    split; [vm_compute; reflexivity |]. vm_compute. reflexivity.
Qed.

(** In binary64 the weighted average of a single ad of price 70.17 and
    quantity 999.99, which passes the strict filter, is
    70.17000000000002: above the only price there is. *)
Example weightedAvg_rounded_above_max :
  let ad := B64.mkAd 70.17%float 999.99%float in
  B64.weightedAvg [ad] = 70.17000000000002%float /\
  (B64.price ad <? B64.weightedAvg [ad])%float = true.
Proof. split; reflexivity. Qed.

(** In binary64 the saving of the highest quote of the discount range,
    15.98, against the local rate of 16.2 is 0.21999999999999886, short
    of 0.22; a base cost overflows to [Infinity] where the exact quotient
    is finite; and a positive rate below 1e-15 is absorbed by the markup. *)
Example pricing_rounded :
  B64.savingsVsMin 15.98%float = 0.21999999999999886%float /\
  (B64.savingsVsMin 15.98 <? 0.22)%float = true /\
  B64.baseCostPerInr 1e-300%float 1e300%float = infinity /\
  B64.withMarkup 1e-16%float = 20%float.
Proof. repeat split; reflexivity. Qed.

End Binary64.

(** ** Identifiers and paths of the store *)

Lemma pieces_plain (chars current : list ascii) :
  existsb (fun c => Ascii.eqb c "/") chars = false ->
  Firebase.pieces chars current = [(rev current ++ chars)%list].
Proof.
  revert current. induction chars as [| c rest IH]; intros current H; simpl in *.
  - rewrite app_nil_r. reflexivity.
  - apply orb_false_iff in H. destruct H as [Hc Hrest].
    rewrite Hc. rewrite (IH (c :: current) Hrest). simpl.
    rewrite <- app_assoc. reflexivity.
Qed.

(** An identifier that is a key is its own single segment. *)
Lemma segments_key (id : string) :
  Firebase.isKey id = true -> Firebase.segments id = [id].
Proof.
  unfold Firebase.isKey, Firebase.segments. intros H.
  apply andb_true_iff in H. destruct H as [Hne Hplain].
  apply negb_true_iff in Hplain.
  rewrite (pieces_plain _ [] Hplain). simpl.
  rewrite string_of_list_ascii_of_string. rewrite Hne. reflexivity.
Qed.

Lemma assoc_fold_setField (l : list (string * value)) (k : string)
    (fields : list (string * value)) :
  NoDup (map fst l) ->
  assoc k (fold_left (fun fs entry => setField (fst entry) (snd entry) fs) l fields)
  = match (list_to_map l : Session) !! k with
    | Some v => v
    | None => assoc k fields
    end.
Proof.
  revert fields. induction l as [| [k1 v1] rest IH]; intros fields Hnd; simpl.
  - rewrite lookup_empty. reflexivity.
  - inversion Hnd as [| ? ? Hout Hrest]; subst.
    rewrite (IH _ Hrest). rewrite assoc_setField.
    destruct (decide (k = k1)) as [-> | Hne].
    + rewrite lookup_insert_eq.
      rewrite (not_elem_of_list_to_map_1 (M := gmap string) rest k1).
      * rewrite String.eqb_refl. reflexivity.
      * exact Hout.
    + rewrite lookup_insert_ne by congruence.
      replace (String.eqb k k1) with false; [reflexivity |].
      symmetry. apply String.eqb_neq. exact Hne.
Qed.

(** The record-level [update] is the store's on an identifier that is a
    key: where the tree holds the records before, it holds them after. *)
Lemma update_at_key (id : string) (l : list (string * value)) (tree : value)
    (records : gmap string Session) :
  Firebase.isKey id = true -> NoDup (map fst l) ->
  Firebase.represents tree records ->
  Firebase.represents (Firebase.update id l tree)
    (<[id := list_to_map l ∪ default ∅ (records !! id)]> records).
Proof.
  intros Hkey Hnd Hrep id' k.
  unfold Firebase.update. rewrite (segments_key id Hkey). simpl.
  rewrite assoc_setField.
  destruct (decide (id' = id)) as [-> | Hne].
  - rewrite String.eqb_refl. rewrite lookup_insert_eq. simpl.
    rewrite (assoc_fold_setField l k _ Hnd).
    rewrite lookup_union.
    destruct ((list_to_map l : Session) !! k) as [v |] eqn:El.
    + destruct (default ∅ (records !! id) !! k); reflexivity.
    + rewrite (Hrep id k).
      destruct (records !! id) as [record |]; simpl.
      * destruct (record !! k); reflexivity.
      * rewrite lookup_empty. reflexivity.
  - replace (String.eqb id' id) with false
      by (symmetry; apply String.eqb_neq; exact Hne).
    rewrite lookup_insert_ne by congruence. apply Hrep.
Qed.

Lemma assoc_listed {A : Type} (g : A -> value) (l : list (string * A)) (k : string) (a : A) :
  NoDup (map fst l) -> (k, a) ∈ l ->
  assoc k (map (fun entry => (fst entry, g (snd entry))) l) = g a.
Proof.
  induction l as [| [k0 a0] rest IH]; intros Hnd Hin.
  - inversion Hin.
  - inversion Hnd as [| ? ? Hout Hrest]; subst. simpl.
    apply elem_of_cons in Hin. destruct Hin as [[= -> ->] | Hin].
    + rewrite String.eqb_refl. reflexivity.
    + destruct (String.eqb k k0) eqn:E.
      * apply String.eqb_eq in E. subst k0. exfalso. apply Hout.
        apply list_elem_of_fmap. exists (k, a). split; [reflexivity | exact Hin].
      * apply IH; assumption.
Qed.

Lemma assoc_unlisted {A : Type} (g : A -> value) (l : list (string * A)) (k : string) :
  k ∉ map fst l ->
  assoc k (map (fun entry => (fst entry, g (snd entry))) l) = VUndef.
Proof.
  induction l as [| [k0 a0] rest IH]; intros Hout; simpl; [reflexivity |].
  destruct (String.eqb k k0) eqn:E.
  - apply String.eqb_eq in E. subst k0. exfalso. apply Hout. simpl. left.
  - apply IH. intros Hin. apply Hout. simpl. right. exact Hin.
Qed.

Lemma assoc_map_to_list {A : Type} (g : A -> value) (m : gmap string A) (k : string) :
  assoc k (map (fun entry => (fst entry, g (snd entry))) (map_to_list m))
  = match m !! k with Some a => g a | None => VUndef end.
Proof.
  destruct (m !! k) as [a |] eqn:E.
  - apply assoc_listed; [apply NoDup_fst_map_to_list |].
    apply elem_of_map_to_list. exact E.
  - apply assoc_unlisted. intros Hin.
    apply list_elem_of_fmap in Hin. destruct Hin as ([k' a] & -> & Hin).
    apply elem_of_map_to_list in Hin. simpl in E. congruence.
Qed.

(** The tree of a map of records holds those records. *)
Lemma treeOf_represents (records : gmap string Session) :
  Firebase.represents (Firebase.treeOf records) records.
Proof.
  intros id k. unfold Firebase.treeOf. simpl.
  rewrite (assoc_map_to_list (fun record : Session => VObj (map_to_list record))).
  destruct (records !! id) as [record |]; simpl; [| reflexivity].
  replace (map_to_list record)
    with (map (fun entry : string * value => (fst entry, snd entry)) (map_to_list record)).
  - rewrite (assoc_map_to_list (fun v : value => v)). destruct (record !! k); reflexivity.
  - induction (map_to_list record) as [| [k0 v0] rest IH]; simpl; [reflexivity |].
    rewrite IH. reflexivity.
Qed.

(** [dbUpdate] on an identifier that is a key is the store's [update]. *)
Lemma dbUpdate_at_key (id : string) (l : list (string * value)) (io : Io)
    (tree : value) (st : State) :
  Firebase.isKey id = true -> NoDup (map fst l) ->
  Firebase.represents tree (transactions st) ->
  Firebase.represents (snd (dbUpdateOnTree id l io tree))
    (transactions (snd (dbUpdate id (list_to_map l) io st)))
  /\ (fst (dbUpdateOnTree id l io tree) = fst (dbUpdate id (list_to_map l) io st)).
Proof.
  intros Hkey Hnd Hrep. unfold dbUpdate, dbUpdateOnTree.
  destruct (writeError io); simpl; [split; [exact Hrep | reflexivity] |].
  split; [| reflexivity]. apply update_at_key; assumption.
Qed.

Ltac distinct_keys :=
  repeat (apply NoDup_cons_2;
          [rewrite ?elem_of_cons, elem_of_nil; intuition discriminate |]);
  apply NoDup_nil_2.

(** On an identifier that is a key, or with none, the route on the
    records is the route on the tree: the same answer, and the tree holds
    the records after as before. *)
Lemma verifyManualOnTree_at_key (reference sessionId : string)
    (gateway : outcome Verification) (io : Io) (tree : value) (st : State) :
  sessionId = "" \/ Firebase.isKey sessionId = true ->
  Firebase.represents tree (transactions st) ->
  let onRecords := verifyManual reference sessionId gateway io st in
  let onTree := verifyManualOnTree reference sessionId gateway io tree in
  fst onTree = fst onRecords /\
  Firebase.represents (snd onTree) (transactions (snd onRecords)).
Proof.
  intros Hid Hrep. cbv zeta. unfold verifyManual, verifyManualOnTree.
  destruct (String.eqb reference ""); [split; [reflexivity | exact Hrep] |].
  destruct gateway as [tx | e]; [| split; [reflexivity | exact Hrep]].
  destruct (negb (responseOk tx)); [split; [reflexivity | exact Hrep] |].
  destruct Hid as [-> | Hkey].
  { rewrite andb_false_r. simpl. split; [reflexivity | exact Hrep]. }
  unfold dbUpdate, dbUpdateOnTree.
  destruct (isStr "success" (txStatus tx) && negb (String.eqb sessionId "")).
  - destruct (writeError io); [split; [reflexivity | exact Hrep] |].
    split; [reflexivity |].
    refine (update_at_key sessionId
              [("status", VStr "completed");
               ("paystackReference", VStr reference);
               ("paidAmount", VNum (txAmount tx / int 100)%num);
               ("paidAt", VNum (int (now io)));
               ("paymentChannel", txChannel tx);
               ("verifiedAt", VNum (int (now io)))]
              tree (transactions st) Hkey _ Hrep).
    distinct_keys.
  - destruct (negb (String.eqb sessionId "")); [| split; [reflexivity | exact Hrep]].
    destruct (writeError io); [split; [reflexivity | exact Hrep] |].
    split; [reflexivity |].
    refine (update_at_key sessionId
              [("status", VStr "failed");
               ("failureReason", gatewayResponse tx);
               ("failedAt", VNum (int (now io)))]
              tree (transactions st) Hkey _ Hrep).
    distinct_keys.
Qed.

(** C7, where the code departs from the claim.  A session is created and
    stored; then POST /api/payment/verify-manual is called with a
    reference the gateway confirms and, as [sessionId], the identifier of
    the session followed by "/encryptedTransaction".  The route hands it
    to the store unchecked, the store takes it as the path of the locked
    child, and the status update lands there: where the ciphertext
    written at creation stood, there is now the object of the update. *)
Lemma locked_fields_rewritten_through_path :
  let stored := transactions (snd Sealed.create) in
  let tree := Firebase.treeOf stored in
  let sealed := VStr (Samples.encryptData (lockedFields Sealed.order)) in
  let address := "6f1c2a9e-session/encryptedTransaction" in
  let paid :=
    mkVerification true (VStr "success") (int 10000000) (VStr "card") (VStr "Successful") in
  let result :=
    verifyManualOnTree "HP-ref-1" address (Return paid) (mkIo 1736900060000 None) tree in
  fst Sealed.create = Return ("6f1c2a9e-session", 1736900300000) /\
  Firebase.represents tree stored /\
  Firebase.read address tree = sealed /\
  fst result = Sent 200 /\
  Firebase.read address (snd result)
  = VObj [("status", VStr "completed");
          ("paystackReference", VStr "HP-ref-1");
          ("paidAmount", VNum (int 10000000 / int 100)%num);
          ("paidAt", VNum (int 1736900060000));
          ("paymentChannel", VStr "card");
          ("verifiedAt", VNum (int 1736900060000))] /\
  Firebase.read address (snd result) <> sealed.
Proof.
  cbv zeta.
  split; [reflexivity |].
  split; [apply treeOf_represents |].
  split; [vm_compute; reflexivity |].
  split; [reflexivity |].
  split; [vm_compute; reflexivity |].
  vm_compute. discriminate.
Qed.
